(** * fillChainDetails: a shallow embedding of [src/data/fillChainDetails.py]

    The script loads a contract registry, fetches per-chain metadata over
    HTTP, merges it into a JSON cache file and writes the cache back.

    Modelling conventions.
    - A Python [str] is a Rocq [string]; each [ascii] stands for the code
      point of the same number (0..255).  Text with code points above 255
      is outside the model.
    - A Python value that comes out of [json.load] / [response.json()] is a
      [json]; Python's [None] is [JNull], a [dict] is an association list in
      insertion order ([JObj]), a [list] is [JArr].  Numbers are integers;
      floating-point numbers are outside the model.
    - Effects (HTTP, stdin, stdout, the file system, sleeping) are threaded
      through a state-and-exception monad [M]; every effect is appended to a
      trace of events.  The network is an oracle that may answer differently
      at every point of the trace.
    - Limits of the interpreter (recursion depth, the bound on the digits of
      an integer conversion, memory) are not modelled. *)

From Stdlib Require Import ZArith NArith List String Ascii Bool Lia.
Import ListNotations.
Open Scope string_scope.

(* ================================================================== *)
(** ** Python strings *)

Module PyStr.

Definition code (c : ascii) : N := N_of_ascii c.

Definition squote : ascii := "'"%char.
Definition dquote : ascii := Eval cbv in ascii_of_nat 34.
Definition backslash : ascii := Eval cbv in ascii_of_nat 92.
Definition tab : ascii := Eval cbv in ascii_of_nat 9.
Definition newline : ascii := Eval cbv in ascii_of_nat 10.
Definition cr : ascii := Eval cbv in ascii_of_nat 13.

(** [str.lower] on one code point below 256: A-Z and the Latin-1 capitals
  U+00C0..U+00DE (except the multiplication sign U+00D7) move up by 32. *)
Definition lower_char (c : ascii) : ascii :=
let n := code c in
if ((65 <=? n) && (n <=? 90))%N then ascii_of_N (n + 32)
else if ((192 <=? n) && (n <=? 222) && negb (n =? 215))%N
     then ascii_of_N (n + 32)
     else c.

Fixpoint lower (s : string) : string :=
match s with
| EmptyString => EmptyString
| String c r => String (lower_char c) (lower r)
end.

(** [s.startswith(p)] *)
Definition startswith (s p : string) : bool := String.prefix p s.

(** [s.endswith(p)] for a one-character [p] *)
Fixpoint ends_with_char (s : string) (c : ascii) : bool :=
match s with
| EmptyString => false
| String a EmptyString => Ascii.eqb a c
| String _ r => ends_with_char r c
end.

(** [sub in s] *)
Fixpoint contains (sub s : string) : bool :=
String.prefix sub s ||
match s with
| EmptyString => false
| String _ r => contains sub r
end.

(** [s.replace(old, new)] for a non-empty [old]: occurrences are replaced
  from left to right and do not overlap.  [skip] counts the characters
  of a match that are still to be dropped. *)
Fixpoint replace_from (old new : string) (skip : nat) (s : string) : string :=
match s with
| EmptyString => EmptyString
| String c r =>
    match skip with
    | S k => replace_from old new k r
    | O =>
        if String.prefix old s
        then new ++ replace_from old new (String.length old - 1) r
        else String c (replace_from old new 0 r)
    end
end.

Definition replace (s old new : string) : string := replace_from old new 0 s.

(** [os.path.join(a, b)] on a POSIX system. *)
Definition path_join (a b : string) : string :=
if startswith b "/" then b
else if (a =? "") || ends_with_char a "/"%char then a ++ b
     else a ++ "/" ++ b.

Fixpoint chars (s : string) : list string :=
match s with
| EmptyString => []
| String c r => String c EmptyString :: chars r
end.

End PyStr.

(* ================================================================== *)
(** ** JSON values and the Python operations the script applies to them *)

#[local] Unset Elimination Schemes.
Inductive json : Type :=
| JNull
| JBool (b : bool)
| JInt (z : Z)
| JStr (s : string)
| JArr (items : list json)
| JObj (fields : list (string * json)).
#[local] Set Elimination Schemes.

(** Python's built-in exceptions that the script can meet. *)
Inductive exn : Type :=
| KeyError (key : string)
| KeyErrorInt (key : Z)
| IndexError
| TypeError
| AttributeError
| ValueError
| EOFError
| FileNotFoundError (path : string)
| JSONDecodeError
| RequestException (kind : nat).

(** The outcome of a computation: a value, a raised exception, or an input
    that left the model (a float or a code point above 255 in a JSON text). *)
Inductive res (A : Type) : Type :=
| Ok (a : A)
| Raise (e : exn)
| OutOfModel.
Arguments Ok {A} a.
Arguments Raise {A} e.
Arguments OutOfModel {A}.

Definition res_bind {A B} (r : res A) (k : A -> res B) : res B :=
  match r with
  | Ok a => k a
  | Raise e => Raise e
  | OutOfModel => OutOfModel
  end.

Module Dict.
Section WithValue.
Context {V : Type}.

(** [d.get(k)] *)
Fixpoint get (k : string) (d : list (string * V)) : option V :=
match d with
| [] => None
| (k', v) :: r => if k' =? k then Some v else get k r
end.

(** [k in d] *)
Definition mem (k : string) (d : list (string * V)) : bool :=
match get k d with Some _ => true | None => false end.

(** [d[k] = v]: an existing key keeps its position, a new key goes last. *)
Fixpoint set (k : string) (v : V) (d : list (string * V)) : list (string * V) :=
match d with
| [] => [(k, v)]
| (k', v') :: r => if k' =? k then (k', v) :: r else (k', v') :: set k v r
end.

(** [{**a, **b}] *)
Definition update (a b : list (string * V)) : list (string * V) :=
fold_left (fun acc kv => set (fst kv) (snd kv) acc) b a.

Definition keys (d : list (string * V)) : list string := map fst d.

(** No key occurs twice, as in every Python [dict]. *)
Fixpoint unique_keys (d : list (string * V)) : bool :=
match d with
| [] => true
| (k, _) :: r => negb (mem k r) && unique_keys r
end.
End WithValue.
End Dict.

Module Py.

(** Truth value of a Python object. *)
Definition truthy (v : json) : bool :=
match v with
| JNull => false
| JBool b => b
| JInt z => negb (z =? 0)%Z
| JStr s => negb (s =? "")
| JArr l => match l with [] => false | _ => true end
| JObj l => match l with [] => false | _ => true end
end.

(** [v.get(k, default)] *)
Definition get (v : json) (k : string) (default : json) : res json :=
match v with
| JObj d => Ok (match Dict.get k d with Some x => x | None => default end)
| _ => Raise AttributeError
end.

(** [v[k]] for a string [k] *)
Definition getitem (v : json) (k : string) : res json :=
match v with
| JObj d => match Dict.get k d with Some x => Ok x | None => Raise (KeyError k) end
| _ => Raise TypeError
end.

(** [v[i]] for a non-negative integer [i] *)
Definition getitem_int (v : json) (i : nat) : res json :=
match v with
| JArr l => match nth_error l i with Some x => Ok x | None => Raise IndexError end
| JStr s => match String.get i s with
            | Some c => Ok (JStr (String c EmptyString))
            | None => Raise IndexError
            end
| JObj _ => Raise (KeyErrorInt (Z.of_nat i))
| _ => Raise TypeError
end.

(** [v[k] = x] for a string [k] *)
Definition setitem (v : json) (k : string) (x : json) : res json :=
match v with
| JObj d => Ok (JObj (Dict.set k x d))
| _ => Raise TypeError
end.

(** [k in v] for a string [k] *)
Definition contains (v : json) (k : string) : res bool :=
match v with
| JObj d => Ok (Dict.mem k d)
| JArr l => Ok (existsb (fun x => match x with JStr s => s =? k | _ => false end) l)
| JStr s => Ok (PyStr.contains k s)
| _ => Raise TypeError
end.

(** [iter(v)] *)
Definition iter (v : json) : res (list json) :=
match v with
| JArr l => Ok l
| JObj d => Ok (map JStr (Dict.keys d))
| JStr s => Ok (map JStr (PyStr.chars s))
| _ => Raise TypeError
end.

(** [v.items()] *)
Definition items (v : json) : res (list (string * json)) :=
match v with
| JObj d => Ok d
| _ => Raise AttributeError
end.

(** [v.keys()] *)
Definition keys (v : json) : res (list string) :=
match v with
| JObj d => Ok (Dict.keys d)
| _ => Raise AttributeError
end.

(** [len(v)] *)
Definition len (v : json) : res nat :=
match v with
| JObj d => Ok (List.length d)
| JArr l => Ok (List.length l)
| JStr s => Ok (String.length s)
| _ => Raise TypeError
end.

(** A method of [str] called on [v]: any other type has no such attribute. *)
Definition as_str (v : json) : res string :=
match v with
| JStr s => Ok s
| _ => Raise AttributeError
end.

(** [{**a, **b}]: both have to be mappings. *)
Definition merge (a b : json) : res json :=
match a, b with
| JObj da, JObj db => Ok (JObj (Dict.update da db))
| _, _ => Raise TypeError
end.

(** [l[0]] on a Python list *)
Definition first {A} (l : list A) : res A :=
match l with
| x :: _ => Ok x
| [] => Raise IndexError
end.

End Py.

(* ================================================================== *)
(** ** Python's [str()], [repr()] and [int()] on the values of the model *)

Module Dec.

Definition digit_char (d : N) : ascii := ascii_of_N (48 + d).

(** The decimal digits of [n], most significant first, in front of [acc].
  [fuel] bounds the number of digits. *)
Fixpoint digits (fuel : nat) (n : N) (acc : string) : string :=
match fuel with
| O => acc
| S f =>
    let acc' := String (digit_char (n mod 10)) acc in
    if (n <? 10)%N then acc' else digits f (n / 10) acc'
end.

Definition of_N (n : N) : string := digits (S (N.to_nat (N.log2 n))) n "".

(** [int.__repr__] *)
Definition of_Z (z : Z) : string :=
match z with
| Z0 => "0"
| Zpos p => of_N (Npos p)
| Zneg p => "-" ++ of_N (Npos p)
end.

Definition hex_char (d : N) : ascii :=
if (d <? 10)%N then ascii_of_N (48 + d) else ascii_of_N (87 + d).

Definition is_digit (c : ascii) : bool :=
let n := PyStr.code c in ((48 <=? n) && (n <=? 57))%N.

Definition digit_val (c : ascii) : N := (PyStr.code c - 48)%N.

End Dec.

Module PyRepr.

Definition squote : ascii := "'"%char.
Definition dquote : ascii := Eval cbv in ascii_of_nat 34.
Definition backslash : ascii := "\"%char.

(** [str.isprintable] on one code point below 256. *)
Definition printable (c : ascii) : bool :=
let n := PyStr.code c in
(((32 <=? n) && (n <=? 126)) || ((161 <=? n) && negb (n =? 173)))%N.

Definition hex2 (n : N) : string :=
String (Dec.hex_char (n / 16)) (String (Dec.hex_char (n mod 16)) EmptyString).

Definition repr_char (quote c : ascii) : string :=
let n := PyStr.code c in
if Ascii.eqb c quote || Ascii.eqb c backslash then String backslash (String c EmptyString)
else if (n =? 9)%N then String backslash "t"
else if (n =? 10)%N then String backslash "n"
else if (n =? 13)%N then String backslash "r"
else if printable c then String c EmptyString
else String backslash (String "x"%char (hex2 n)).

Fixpoint has_char (c : ascii) (s : string) : bool :=
match s with
| EmptyString => false
| String a r => Ascii.eqb a c || has_char c r
end.

Fixpoint repr_chars (quote : ascii) (s : string) : string :=
match s with
| EmptyString => EmptyString
| String c r => repr_char quote c ++ repr_chars quote r
end.

(** [repr(s)] for a string: single quotes unless the text holds a single
  quote and no double quote. *)
Definition repr_str (s : string) : string :=
let quote := if has_char squote s && negb (has_char dquote s) then dquote else squote in
String quote (repr_chars quote s ++ String quote EmptyString).

Fixpoint repr (v : json) : string :=
match v with
| JNull => "None"
| JBool true => "True"
| JBool false => "False"
| JInt z => Dec.of_Z z
| JStr s => repr_str s
| JArr l =>
    "[" ++
    (fix go (l : list json) : string :=
       match l with
       | [] => ""
       | x :: r => match r with
                   | [] => repr x
                   | _ => repr x ++ ", " ++ go r
                   end
       end) l ++ "]"
| JObj d =>
    "{" ++
    (fix go (d : list (string * json)) : string :=
       match d with
       | [] => ""
       | (k, x) :: r => match r with
                        | [] => repr_str k ++ ": " ++ repr x
                        | _ => repr_str k ++ ": " ++ repr x ++ ", " ++ go r
                        end
       end) d ++ "}"
end.

(** [str(v)] *)
Definition str (v : json) : string :=
match v with
| JStr s => s
| _ => repr v
end.

(** White space for [int()]: the C white space, and the Unicode white
  space above 126 (U+0085, U+00A0), which [int] turns into blanks. *)
Definition int_space (c : ascii) : bool :=
let n := PyStr.code c in
(((9 <=? n) && (n <=? 13)) || (n =? 32) || (n =? 133) || (n =? 160))%N.

Fixpoint all_space (s : string) : bool :=
match s with
| EmptyString => true
| String c r => int_space c && all_space r
end.

(** Digits with single underscores between them, then white space. *)
Fixpoint int_digits (s : string) (after_digit : bool) : bool :=
match s with
| EmptyString => after_digit
| String c r =>
    if Dec.is_digit c then int_digits r true
    else if Ascii.eqb c "_"%char then after_digit && int_digits r false
    else after_digit && all_space s
end.

Fixpoint int_signed (s : string) : bool :=
match s with
| EmptyString => false
| String c r =>
    if int_space c then int_signed r
    else if Ascii.eqb c "+"%char || Ascii.eqb c "-"%char then int_digits r false
    else int_digits s false
end.

(** [int(s)] returns (rather than raising [ValueError]).  The limit on the
  number of digits of recent interpreters is not modelled. *)
Definition int_ok (s : string) : bool := int_signed s.

End PyRepr.


(* ================================================================== *)
(** ** Python's [json] module: [json.dump(obj, fp, indent="\t")] and
       [json.load(fp)] *)

Module Json.
Import PyStr.

(** *** The encoder, with [ensure_ascii] (the default) and a tab indent *)

Definition hex4 (n : N) : string :=
String (Dec.hex_char (n / 4096 mod 16))
  (String (Dec.hex_char (n / 256 mod 16))
     (String (Dec.hex_char (n / 16 mod 16))
        (String (Dec.hex_char (n mod 16)) EmptyString))).

(** One character of [py_encode_basestring_ascii]: the quote, the
  backslash and everything outside space..tilde are escaped. *)
Definition encode_char (c : ascii) : string :=
let n := code c in
if Ascii.eqb c dquote then String backslash (String dquote EmptyString)
else if Ascii.eqb c backslash then String backslash (String backslash EmptyString)
else if ((32 <=? n) && (n <=? 126))%N then String c EmptyString
else if (n =? 8)%N then String backslash "b"
else if (n =? 12)%N then String backslash "f"
else if (n =? 10)%N then String backslash "n"
else if (n =? 13)%N then String backslash "r"
else if (n =? 9)%N then String backslash "t"
else String backslash (String "u"%char (hex4 n)).

Fixpoint encode_chars (s : string) : string :=
match s with
| EmptyString => EmptyString
| String c r => encode_char c ++ encode_chars r
end.

Definition encode_string (s : string) : string :=
String dquote (encode_chars s ++ String dquote EmptyString).

Fixpoint tabs (n : nat) : string :=
match n with
| O => EmptyString
| S k => String tab (tabs k)
end.

(** ["\n" + indent * level] *)
Definition newline_indent (level : nat) : string := String newline (tabs level).

(** The items of a container, each written by [enc], with [sep] between them. *)
Definition join_with {A} (enc : A -> string) (sep : string) : list A -> string :=
fix join (l : list A) : string :=
  match l with
  | [] => EmptyString
  | x :: r =>
      match r with
      | [] => enc x
      | _ => enc x ++ sep ++ join r
      end
  end.

(** [_iterencode] at indent level [level]: a non-empty container puts
  every item on a line of its own, one level deeper, separated by a
  comma; an empty one is written as two brackets. *)
Fixpoint encode (level : nat) (v : json) : string :=
match v with
| JNull => "null"
| JBool true => "true"
| JBool false => "false"
| JInt z => Dec.of_Z z
| JStr s => encode_string s
| JArr [] => "[]"
| JArr l =>
    "[" ++ newline_indent (S level)
    ++ join_with (encode (S level)) ("," ++ newline_indent (S level)) l
    ++ newline_indent level ++ "]"
| JObj [] => "{}"
| JObj d =>
    "{" ++ newline_indent (S level)
    ++ join_with (fun kv => encode_string (fst kv) ++ ": " ++ encode (S level) (snd kv))
                 ("," ++ newline_indent (S level)) d
    ++ newline_indent level ++ "}"
end.

Definition dumps (v : json) : string := encode 0 v.

(** *** The decoder *)

Definition is_ws (c : ascii) : bool :=
let n := code c in ((n =? 32) || (n =? 9) || (n =? 10) || (n =? 13))%N.

Fixpoint skip_ws (s : string) : string :=
match s with
| EmptyString => EmptyString
| String c r => if is_ws c then skip_ws r else s
end.

Definition hex_val (c : ascii) : option N :=
let n := code c in
if ((48 <=? n) && (n <=? 57))%N then Some (n - 48)%N
else if ((97 <=? n) && (n <=? 102))%N then Some (n - 87)%N
else if ((65 <=? n) && (n <=? 70))%N then Some (n - 55)%N
else None.

Definition hex4_val (a b c d : ascii) : option N :=
match hex_val a, hex_val b, hex_val c, hex_val d with
| Some x, Some y, Some z, Some w => Some (((x * 16 + y) * 16 + z) * 16 + w)%N
| _, _, _, _ => None
end.

(** The character a one-letter escape stands for. *)
Definition unescape (e : ascii) : option ascii :=
if Ascii.eqb e dquote then Some dquote
else if Ascii.eqb e backslash then Some backslash
else if Ascii.eqb e "/"%char then Some "/"%char
else if Ascii.eqb e "b"%char then Some (ascii_of_N 8)
else if Ascii.eqb e "f"%char then Some (ascii_of_N 12)
else if Ascii.eqb e "n"%char then Some newline
else if Ascii.eqb e "r"%char then Some cr
else if Ascii.eqb e "t"%char then Some tab
else None.

Definition cons_char (c : ascii) (r : res (string * string)) : res (string * string) :=
res_bind r (fun p => Ok (String c (fst p), snd p)).

(** [scanstring], in strict mode, from just after the opening quote:
  the text of the string and what follows its closing quote. *)
Fixpoint scanstring (s : string) : res (string * string) :=
match s with
| EmptyString => Raise JSONDecodeError
| String c r =>
    if Ascii.eqb c dquote then Ok (EmptyString, r)
    else if Ascii.eqb c backslash then
      match r with
      | EmptyString => Raise JSONDecodeError
      | String e r2 =>
          if Ascii.eqb e "u"%char then
            match r2 with
            | String h1 (String h2 (String h3 (String h4 r3))) =>
                match hex4_val h1 h2 h3 h4 with
                | Some n =>
                    if (n <? 256)%N then cons_char (ascii_of_N n) (scanstring r3)
                    else OutOfModel
                | None => Raise JSONDecodeError
                end
            | _ => Raise JSONDecodeError
            end
          else
            match unescape e with
            | Some ch => cons_char ch (scanstring r2)
            | None => Raise JSONDecodeError
            end
      end
    else if (code c <? 32)%N then Raise JSONDecodeError
    else cons_char c (scanstring r)
end.

(** The longest prefix of digits, as a number continuing [acc]. *)
Fixpoint scan_digits (acc : N) (s : string) : N * string :=
match s with
| EmptyString => (acc, s)
| String c r =>
    if Dec.is_digit c then scan_digits (10 * acc + Dec.digit_val c) r
    else (acc, s)
end.

(** The integer part of [NUMBER_RE]: an optional minus, then a zero or a
  digit other than zero followed by digits. *)
Definition match_unsigned (s : string) : option (N * string) :=
match s with
| EmptyString => None
| String c r =>
    if Ascii.eqb c "0"%char then Some (0%N, r)
    else if Dec.is_digit c then Some (scan_digits (Dec.digit_val c) r)
    else None
end.

Definition match_int (s : string) : option (Z * string) :=
match s with
| EmptyString => None
| String c r =>
    if Ascii.eqb c "-"%char then
      match match_unsigned r with
      | Some (n, r') => Some (Z.opp (Z.of_N n), r')
      | None => None
      end
    else
      match match_unsigned s with
      | Some (n, r') => Some (Z.of_N n, r')
      | None => None
      end
end.

Definition starts_with_digit (s : string) : bool :=
match s with
| String c _ => Dec.is_digit c
| EmptyString => false
end.

(** A fraction or an exponent follows: the number is a float. *)
Definition float_tail (s : string) : bool :=
match s with
| String c r =>
    if Ascii.eqb c "."%char then starts_with_digit r
    else if Ascii.eqb c "e"%char || Ascii.eqb c "E"%char then
      match r with
      | String sg r' =>
          if Ascii.eqb sg "+"%char || Ascii.eqb sg "-"%char
          then starts_with_digit r'
          else Dec.is_digit sg
      | EmptyString => false
      end
    else false
| EmptyString => false
end.

Definition scan_number (s : string) : res (json * string) :=
match match_int s with
| Some (z, r) => if float_tail r then OutOfModel else Ok (JInt z, r)
| None =>
    if String.prefix "NaN" s || String.prefix "Infinity" s || String.prefix "-Infinity" s
    then OutOfModel
    else Raise JSONDecodeError
end.

(** [dict(pairs)]: a repeated key keeps its first position and its last value. *)
Definition dict_of_pairs (pairs : list (string * json)) : list (string * json) :=
Dict.update [] pairs.

(** No mapping inside [v] has a key twice: [v] is a value Python can hold. *)
Fixpoint wf (v : json) : bool :=
match v with
| JArr l => forallb wf l
| JObj d => Dict.unique_keys d && forallb (fun kv => wf (snd kv)) d
| _ => true
end.

(** [s[n:]] *)
Fixpoint drop (n : nat) (s : string) : string :=
match n, s with
| S k, String _ r => drop k r
| _, _ => s
end.

(** [scan_once], [JSONArray] and [JSONObject].  [fuel] bounds the number of
  values read; [loads] gives more than any text needs. *)
Fixpoint scan_once (fuel : nat) (s : string) {struct fuel} : res (json * string) :=
match fuel with
| O => OutOfModel
| S f =>
    match s with
    | EmptyString => Raise JSONDecodeError
    | String c r =>
        if Ascii.eqb c dquote then
          res_bind (scanstring r) (fun p => Ok (JStr (fst p), snd p))
        else if Ascii.eqb c "{"%char then
          match skip_ws r with
          | String c1 r1 =>
              if Ascii.eqb c1 "}"%char then Ok (JObj [], r1)
              else if Ascii.eqb c1 dquote then object_members f r1 []
              else Raise JSONDecodeError
          | EmptyString => Raise JSONDecodeError
          end
        else if Ascii.eqb c "["%char then
          match skip_ws r with
          | String c1 r1 =>
              if Ascii.eqb c1 "]"%char then Ok (JArr [], r1)
              else array_items f (String c1 r1) []
          | EmptyString => Raise JSONDecodeError
          end
        else if String.prefix "null" s then Ok (JNull, drop 4 s)
        else if String.prefix "true" s then Ok (JBool true, drop 4 s)
        else if String.prefix "false" s then Ok (JBool false, drop 5 s)
        else scan_number s
    end
end

(** The items of an array from the start of an item; [acc] holds the
  items read so far, last first. *)
with array_items (fuel : nat) (s : string) (acc : list json) {struct fuel}
: res (json * string) :=
match fuel with
| O => OutOfModel
| S f =>
    res_bind (scan_once f s) (fun p =>
      let acc' := fst p :: acc in
      match skip_ws (snd p) with
      | String c r =>
          if Ascii.eqb c "]"%char then Ok (JArr (rev acc'), r)
          else if Ascii.eqb c ","%char then array_items f (skip_ws r) acc'
          else Raise JSONDecodeError
      | EmptyString => Raise JSONDecodeError
      end)
end

(** The members of an object from just after the opening quote of a key. *)
with object_members (fuel : nat) (s : string) (acc : list (string * json)) {struct fuel}
: res (json * string) :=
match fuel with
| O => OutOfModel
| S f =>
    res_bind (scanstring s) (fun k =>
      match skip_ws (snd k) with
      | String c r =>
          if Ascii.eqb c ":"%char then
            res_bind (scan_once f (skip_ws r)) (fun p =>
              let acc' := (fst k, fst p) :: acc in
              match skip_ws (snd p) with
              | String c1 r1 =>
                  if Ascii.eqb c1 "}"%char then Ok (JObj (dict_of_pairs (rev acc')), r1)
                  else if Ascii.eqb c1 ","%char then
                    match skip_ws r1 with
                    | String c2 r2 =>
                        if Ascii.eqb c2 dquote then object_members f r2 acc'
                        else Raise JSONDecodeError
                    | EmptyString => Raise JSONDecodeError
                    end
                  else Raise JSONDecodeError
              | EmptyString => Raise JSONDecodeError
              end)
          else Raise JSONDecodeError
      | EmptyString => Raise JSONDecodeError
      end)
end.

(** [json.loads]: one value between white space, and nothing after it. *)
Definition loads (s : string) : res json :=
res_bind (scan_once (S (String.length s)) (skip_ws s)) (fun p =>
  match skip_ws (snd p) with
  | EmptyString => Ok (fst p)
  | _ => Raise JSONDecodeError
  end).

End Json.

(* ================================================================== *)
(** ** Effects: the network, the console, the file system *)

(** What the script reads of a [requests.Response]: [status_code], [url]
    and [json()], which raises when the body is not JSON. *)
Record response : Type := {
  status_code : Z;
  url : string;
  json_body : option json
}.

(** A request either gets a response or raises inside [requests]. *)
Inductive reply : Type :=
| Responded (r : response)
| Failed (e : exn).

(** The lines the script prints, by call site. *)
Inductive message : Type :=
| MsgCheckingRPC (rpc : json)
| MsgError (e : exn)
| MsgErrorLoadingContracts (e : exn)
| MsgNoLiveProviders (chain_id : string)
| MsgIconExists (name : string)
| MsgTryingIcon (name : string)
| MsgGotIconFromIcons (icon_url : string)
| MsgGotIconFromCryptoIcons (icon_url : string)
| MsgGotIconFromTrustWallet (icon_url : string)
| MsgIconDefault (names : list string)
| MsgFailedContracts
| MsgFoundTestnets (n : nat)
| MsgFoundChainIds (n : nat)
| MsgFetching (chain_id : string)
| MsgDone (n : nat) (keys : list string).

Inductive event : Type :=
| EvPrint (m : message)
| EvGet (target : string)
| EvPost (target : string) (payload : json) (timeout : Z)
| EvInput (chain_id : string)
| EvSleep (seconds : Z)
| EvWrite (path content : string).

Definition is_request (e : event) : bool :=
  match e with
  | EvGet _ | EvPost _ _ _ => true
  | _ => false
  end.

Definition is_write (e : event) : bool :=
  match e with
  | EvWrite _ _ => true
  | _ => false
  end.

(** The network answers a request knowing everything that happened before. *)
Record network : Type := {
  on_get : list event -> string -> reply;
  on_post : list event -> string -> reply
}.

Record state : Type := {
  files : string -> option string;
  stdin : list string;
  trace : list event
}.

(** The state after the events [evs]. *)
Definition extend (st : state) (evs : list event) : state :=
  {| files := files st; stdin := stdin st; trace := trace st ++ evs |}.

Definition M (A : Type) : Type := state -> res A * state.

Definition ret {A} (a : A) : M A := fun st => (Ok a, st).

Definition bind {A B} (m : M A) (k : A -> M B) : M B :=
  fun st =>
    match m st with
    | (Ok a, st') => k a st'
    | (Raise e, st') => (Raise e, st')
    | (OutOfModel, st') => (OutOfModel, st')
    end.

Declare Scope py_scope.
Delimit Scope py_scope with py.
Notation "x <- m ;; k" := (bind m (fun x => k))
  (at level 61, m at next level, right associativity) : py_scope.
Notation "m ;; k" := (bind m (fun _ => k))
  (at level 61, right associativity) : py_scope.
Open Scope py_scope.

Definition raise {A} (e : exn) : M A := fun st => (Raise e, st).

Definition lift {A} (r : res A) : M A := fun st => (r, st).

(** [try: body except Exception as e: handler(e)] *)
Definition try_except {A} (body : M A) (handler : exn -> M A) : M A :=
  fun st =>
    match body st with
    | (Raise e, st') => handler e st'
    | other => other
    end.

Definition emit (e : event) : M unit :=
  fun st => (Ok tt, extend st [e]).

Definition print (m : message) : M unit := emit (EvPrint m).

Definition sleep (seconds : Z) : M unit := emit (EvSleep seconds).

(** [input(prompt)]: the next line of standard input, [EOFError] at its end. *)
Definition input (chain_id : string) : M string :=
  emit (EvInput chain_id) ;;
  fun st =>
    match stdin st with
    | line :: rest => (Ok line, {| files := files st; stdin := rest; trace := trace st |})
    | [] => (Raise EOFError, st)
    end.

(** [os.path.exists(path)] *)
Definition path_exists (path : string) : M bool :=
  fun st => (Ok (match files st path with Some _ => true | None => false end), st).

(** [open(path, "r")] and reading the whole file *)
Definition read_file (path : string) : M string :=
  fun st =>
    match files st path with
    | Some content => (Ok content, st)
    | None => (Raise (FileNotFoundError path), st)
    end.

(** [open(path, "w")] and writing [content] *)
Definition write_file (path content : string) : M unit :=
  emit (EvWrite path content) ;;
  fun st =>
    (Ok tt, {| files := fun p => if p =? path then Some content else files st p;
               stdin := stdin st; trace := trace st |}).

(** [response.json()] *)
Definition response_json (r : response) : M json :=
  match json_body r with
  | Some v => ret v
  | None => raise JSONDecodeError
  end.

Fixpoint filterM {A} (f : A -> M bool) (l : list A) : M (list A) :=
  match l with
  | [] => ret []
  | x :: r =>
      keep <- f x ;;
      rest <- filterM f r ;;
      ret (if keep then x :: rest else rest)
  end.

Fixpoint foldM {A B} (f : A -> B -> M A) (a : A) (l : list B) : M A :=
  match l with
  | [] => ret a
  | x :: r => a' <- f a x ;; foldM f a' r
  end.

Fixpoint mapR {A B} (f : A -> res B) (l : list A) : res (list B) :=
  match l with
  | [] => Ok []
  | x :: r => res_bind (f x) (fun y => res_bind (mapR f r) (fun ys => Ok (y :: ys)))
  end.

(* ================================================================== *)
(** ** The script *)

Definition CONTRACTS_URL : string := "contracts.json".
Definition CHAIN_DETAILS_PATH : string := "chainDetails.json".
Definition CHAINS_URL : string :=
  "https://raw.githubusercontent.com/ethereum-lists/chains/master/_data/chains".
Definition ICONS_URL : string :=
  "https://raw.githubusercontent.com/ethereum-lists/chains/master/_data/icons".
Definition CRYPTO_ICONS_URL : string :=
  "https://raw.githubusercontent.com/spothq/cryptocurrency-icons/master/svg/color".
Definition TRUST_WALLET_ICONS_URL : string :=
  "https://raw.githubusercontent.com/trustwallet/assets/8ee07e9d791bec6c3ada3cfac73ddfdc4f4a40b7/blockchains/".
Definition DEFAULT_ICON_URL : string :=
  "https://raw.githubusercontent.com/spothq/cryptocurrency-icons/master/svg/color/generic.svg".

(** The body of the health check: [eth_blockNumber]. *)
Definition rpc_payload : json :=
  JObj [("jsonrpc", JStr "2.0"); ("method", JStr "eth_blockNumber");
        ("params", JArr []); ("id", JInt 1)].

(** The descriptor [get_chain_icon] falls back to. *)
Definition default_icon : json :=
  JObj [("url", JStr DEFAULT_ICON_URL); ("format", JStr "png")].

Section Script.

Variable net : network.

(** [requests.get(target)] *)
Definition http_get (target : string) : M response :=
fun st =>
  match on_get net (trace st) target with
  | Responded r => (Ok r, extend st [EvGet target])
  | Failed e => (Raise e, extend st [EvGet target])
  end.

(** [requests.post(target, json=payload, timeout=timeout)] *)
Definition http_post (target : string) (payload : json) (timeout : Z) : M response :=
fun st =>
  match on_post net (trace st) target with
  | Responded r => (Ok r, extend st [EvPost target payload timeout])
  | Failed e => (Raise e, extend st [EvPost target payload timeout])
  end.

(** Lines 29-47. *)
Definition check_rpc (rpc : json) : M bool :=
print (MsgCheckingRPC rpc) ;;
s <- lift (Py.as_str rpc) ;;
if PyStr.startswith s "wss://" then ret false
else if PyStr.contains "infura" (PyStr.lower s) then ret true
else
  try_except
    (r <- http_post s rpc_payload 5 ;;
     if (status_code r =? 200)%Z then ret true else ret false)
    (fun e => print (MsgError e) ;; ret false).

(** Lines 50-61.  Python's [None] is [JNull]. *)
Definition get_contracts : M json :=
if PyStr.startswith CONTRACTS_URL "https://" then
  r <- http_get CONTRACTS_URL ;;
  if (status_code r =? 200)%Z then response_json r else ret JNull
else
  try_except
    (content <- read_file CONTRACTS_URL ;; lift (Json.loads content))
    (fun e => print (MsgErrorLoadingContracts e) ;; ret JNull).

(** Lines 64-70: the comprehension keeps every key. *)
Definition get_chain_ids (contracts : json) : M (list string) :=
lift (Py.keys contracts).

(** Lines 73-91. *)
Definition get_chain_details (chain_id : string) : M json :=
let chain_file := "eip155-" ++ chain_id ++ ".json" in
r <- http_get (PyStr.path_join CHAINS_URL chain_file) ;;
if negb (status_code r =? 200)%Z then ret JNull
else
  details <- response_json r ;;
  rpcs <- lift (Py.get details "rpc" (JArr [])) ;;
  candidates <- lift (Py.iter rpcs) ;;
  live_rpcs <- filterM check_rpc candidates ;;
  details <- lift (Py.setitem details "rpc" (JArr live_rpcs)) ;;
  cid <- lift (Py.getitem details "chainId") ;;
  details <- lift (Py.setitem details "chainId" (JStr (PyRepr.str cid))) ;;
  (if Nat.eqb (List.length live_rpcs) 0 then print (MsgNoLiveProviders chain_id)
   else ret tt) ;;
  ret details.

(** Lines 101-136: the loop over the candidate names, then the default. *)
Fixpoint icon_search (all_names names : list string) : M json :=
match names with
| [] => print (MsgIconDefault all_names) ;; ret default_icon
| name :: rest =>
    print (MsgTryingIcon name) ;;
    r <- http_get (PyStr.path_join ICONS_URL (name ++ ".json")) ;;
    if (status_code r =? 200)%Z then
      body <- response_json r ;;
      icon_info <- lift (Py.getitem_int body 0) ;;
      u <- lift (Py.getitem icon_info "url") ;;
      u <- lift (Py.as_str u) ;;
      let icon_url := PyStr.replace u "ipfs://" "https://ipfs.io/ipfs/" in
      print (MsgGotIconFromIcons icon_url) ;;
      format <- lift (Py.getitem icon_info "format") ;;
      ret (JObj [("url", JStr icon_url); ("format", format)])
    else
      r <- http_get (PyStr.path_join CRYPTO_ICONS_URL (name ++ ".svg")) ;;
      if (status_code r =? 200)%Z then
        print (MsgGotIconFromCryptoIcons (url r)) ;;
        ret (JObj [("url", JStr (url r)); ("format", JStr "svg")])
      else
        r <- http_get (PyStr.path_join TRUST_WALLET_ICONS_URL (name ++ "/info/logo.png")) ;;
        if (status_code r =? 200)%Z then
          print (MsgGotIconFromTrustWallet (url r)) ;;
          ret (JObj [("url", JStr (url r)); ("format", JStr "png")])
        else icon_search all_names rest
end.

(** Lines 94-136. *)
Definition get_chain_icon (possible_chain_names : list string)
         (existing_chain_details : json) : M json :=
existing_icon <- lift (Py.get existing_chain_details "icon" JNull) ;;
if Py.truthy existing_icon then
  name <- lift (Py.first possible_chain_names) ;;
  print (MsgIconExists name) ;;
  ret existing_icon
else icon_search possible_chain_names possible_chain_names.

(** Lines 145-149: the number of entries of [TESTNETS]; [int(chain_id)]
  is evaluated for every record whose [mainnet] is falsy. *)
Fixpoint count_testnets (items : list (string * json)) : res nat :=
match items with
| [] => Ok O
| (chain_id, details) :: rest =>
    res_bind (Py.get details "mainnet" JNull) (fun m =>
      if negb (Py.truthy m) then
        if PyRepr.int_ok chain_id
        then res_bind (count_testnets rest) (fun n => Ok (S n))
        else Raise ValueError
      else count_testnets rest)
end.

(** Lines 158-162. *)
Definition load_chain_details : M json :=
present <- path_exists CHAIN_DETAILS_PATH ;;
if present then
  content <- read_file CHAIN_DETAILS_PATH ;;
  lift (Json.loads content)
else ret (JObj []).

(** Lines 220-221. *)
Definition save_chain_details (chain_details : json) : M unit :=
write_file CHAIN_DETAILS_PATH (Json.dumps chain_details).

(** Line 179: [contracts[str(chain_id)].get("mainnet", "false").lower() == "true"]. *)
Definition mainnet_flag (contracts : json) (chain_id : string) : res bool :=
res_bind (Py.getitem contracts chain_id) (fun record =>
res_bind (Py.get record "mainnet" (JStr "false")) (fun m =>
res_bind (Py.as_str m) (fun s =>
Ok (PyStr.lower s =? "true")))).

(** Lines 178-180: [details["mainnet"] = ...]; the right-hand side is
  evaluated first. *)
Definition attach_mainnet (contracts : json) (chain_id : string) (details : json)
: res json :=
res_bind (mainnet_flag contracts chain_id) (fun mainnet =>
Py.setitem details "mainnet" (JBool mainnet)).

(** [target[key] = source[key]] *)
Definition copy_field (key : string) (source target : json) : res json :=
res_bind (Py.getitem source key) (fun v => Py.setitem target key v).

(** Lines 188-194: the record stored for a chain id that was cached. *)
Definition merge_details (details cached : json) : res json :=
res_bind (Py.merge details cached) (fun new_details =>
res_bind (copy_field "rpc" details new_details) (fun new_details =>
res_bind (copy_field "faucets" details new_details) (fun new_details =>
res_bind (copy_field "explorers" details new_details) (fun new_details =>
copy_field "infoURL" details new_details)))).

(** Lines 201-214: the names tried for the icon, then their lower-case forms. *)
Definition possible_chain_names (details : json) : res (list string) :=
let candidate (key : string) (names : list json) : res (list json) :=
  res_bind (Py.get details key JNull) (fun v =>
    if Py.truthy v
    then res_bind (Py.getitem details key) (fun x => Ok (names ++ [x])%list)
    else Ok names) in
res_bind (candidate "icon" []) (fun names =>
res_bind (candidate "short_name" names) (fun names =>
res_bind (candidate "shortName" names) (fun names =>
res_bind (candidate "name" names) (fun names =>
res_bind (candidate "chain" names) (fun names =>
res_bind (mapR Py.as_str names) (fun strs =>
Ok (strs ++ map PyStr.lower strs)%list)))))).

(** Lines 164-218: one round of the loop; the result is [chain_details]
  after the round. *)
Definition process_chain (contracts chain_details : json) (chain_id : string) : M json :=
cached <- lift (Py.contains chain_details chain_id) ;;
overwrite <- (if cached
              then user_input <- input chain_id ;; ret (PyStr.lower user_input =? "y")
              else ret true) ;;
if negb overwrite then ret chain_details
else
  print (MsgFetching chain_id) ;;
  sleep 1 ;;
  details <- get_chain_details chain_id ;;
  details <- lift (attach_mainnet contracts chain_id details) ;;
  if negb (Py.truthy details) then ret chain_details
  else
    cached <- lift (Py.contains chain_details chain_id) ;;
    if cached then
      old <- lift (Py.getitem chain_details chain_id) ;;
      new_details <- lift (merge_details details old) ;;
      lift (Py.setitem chain_details chain_id new_details)
    else
      names <- lift (possible_chain_names details) ;;
      existing <- lift (Py.get chain_details chain_id (JObj [])) ;;
      icon <- get_chain_icon names existing ;;
      details <- lift (Py.setitem details "icon" icon) ;;
      lift (Py.setitem chain_details chain_id details).

(** Lines 139-223. *)
Definition main : M unit :=
contracts <- get_contracts ;;
if negb (Py.truthy contracts) then print MsgFailedContracts
else
  items <- lift (Py.items contracts) ;;
  testnets <- lift (count_testnets items) ;;
  print (MsgFoundTestnets testnets) ;;
  chain_ids <- get_chain_ids contracts ;;
  print (MsgFoundChainIds (List.length chain_ids)) ;;
  chain_details <- load_chain_details ;;
  chain_details <- foldM (process_chain contracts) chain_details chain_ids ;;
  save_chain_details chain_details ;;
  n <- lift (Py.len chain_details) ;;
  keys <- lift (Py.keys chain_details) ;;
  print (MsgDone n keys).

End Script.

(* ================================================================== *)
(** ** Vocabulary of the specification, and sample inputs *)

(** The four fields that a confirmed overwrite always refreshes. *)
Definition refreshed_fields : list string := ["rpc"; "faucets"; "explorers"; "infoURL"].

Definition refreshed (k : string) : bool := existsb (String.eqb k) refreshed_fields.

(** The cached record and the fetched details of the specification's merge
    example. *)
Definition example_cached : list (string * json) :=
  [("a", JInt 1); ("b", JInt 2); ("rpc", JArr [JStr "old"])].

Definition example_fetched : list (string * json) :=
  [("a", JInt 9); ("rpc", JArr [JStr "new"]); ("faucets", JArr [JStr "f"]);
   ("explorers", JArr [JStr "e"]); ("infoURL", JStr "u")].

Definition example_merged : list (string * json) :=
  [("a", JInt 1); ("b", JInt 2); ("rpc", JArr [JStr "new"]); ("faucets", JArr [JStr "f"]);
   ("explorers", JArr [JStr "e"]); ("infoURL", JStr "u")].

(** The host of a URL, as the specification speaks of it: what stands
    between the first ["://"] and the next [/], [?] or [#]. *)
Fixpoint after_scheme (s : string) : option string :=
  match s with
  | EmptyString => None
  | String _ r =>
      if String.prefix "://" s then Some (Json.drop 3 s) else after_scheme r
  end.

Fixpoint until_path (s : string) : string :=
  match s with
  | EmptyString => EmptyString
  | String c r =>
      if Ascii.eqb c "/"%char || Ascii.eqb c "?"%char || Ascii.eqb c "#"%char
      then EmptyString
      else String c (until_path r)
  end.

Definition url_host (s : string) : string :=
  match after_scheme s with
  | Some r => until_path r
  | None => until_path s
  end.

(** A network on which every request is answered with the status [code]. *)
Definition net_status (code : Z) : network := {|
  on_get := fun _ target => Responded {| status_code := code; url := target; json_body := None |};
  on_post := fun _ target => Responded {| status_code := code; url := target; json_body := None |}
|}.

(** A machine with the given files, nothing typed and nothing done yet. *)
Definition fresh (fs : string -> option string) (lines : list string) : state :=
  {| files := fs; stdin := lines; trace := [] |}.

Definition no_files : string -> option string := fun _ => None.

Definition one_file (path content : string) : string -> option string :=
  fun p => if p =? path then Some content else None.

(** The record of a registry entry has a textual [mainnet] field, or none. *)
Definition mainnet_is_text (record : list (string * json)) : bool :=
  match Dict.get "mainnet" record with
  | Some (JStr _) | None => true
  | Some _ => false
  end.

(** The three addresses [get_chain_icon] asks for a name, in order. *)
Definition icon_urls (name : string) : list string :=
  [PyStr.path_join ICONS_URL (name ++ ".json");
   PyStr.path_join CRYPTO_ICONS_URL (name ++ ".svg");
   PyStr.path_join TRUST_WALLET_ICONS_URL (name ++ "/info/logo.png")].

(** The address [get_chain_details] asks for a chain id. *)
Definition chain_url (chain_id : string) : string :=
  PyStr.path_join CHAINS_URL ("eip155-" ++ chain_id ++ ".json").

(** The icon entry of a record, [None] when there is none. *)
Definition icon_of (fields : list (string * json)) : json :=
  match Dict.get "icon" fields with
  | Some v => v
  | None => JNull
  end.

(** [v] is a mapping that has the key [k]. *)
Definition has_key (v : json) (k : string) : bool :=
  match v with
  | JObj d => Dict.mem k d
  | _ => false
  end.

(** A network that answers every GET with status 200 and the body [body]. *)
Definition net_body (body : json) : network := {|
  on_get := fun _ target => Responded {| status_code := 200; url := target; json_body := Some body |};
  on_post := fun _ target => Responded {| status_code := 200; url := target; json_body := None |}
|}.

(** An icon descriptor, a registry and a cache used as sample inputs. *)
Definition sample_icon : json := JObj [("url", JStr "https://icons.example/eth.svg"); ("format", JStr "svg")].

Definition sample_registry : json :=
  JObj [("1", JObj [("mainnet", JStr "true")]); ("5", JObj [("mainnet", JStr "false")])].

Definition sample_cache : json :=
  JObj [("1", JObj [("chainId", JStr "1"); ("icon", sample_icon)])].

(** The [rpc] entry of fetched details is missing or a list of strings. *)
Definition rpc_is_text_list (fields : list (string * json)) : bool :=
  match Dict.get "rpc" fields with
  | None => true
  | Some (JArr l) => forallb (fun x => match x with JStr _ => true | _ => false end) l
  | Some _ => false
  end.

(* ================================================================== *)
(** ** Vocabulary of the round trip through the cache file *)

Module JsonAux.
Import PyStr Json.

(** The number a string of digits denotes, continuing [acc]. *)
Fixpoint dec_value (acc : N) (s : string) : N :=
match s with
| EmptyString => acc
| String c r => dec_value (10 * acc + Dec.digit_val c) r
end.

Fixpoint all_digits (s : string) : bool :=
match s with
| EmptyString => true
| String c r => Dec.is_digit c && all_digits r
end.

Definition starts_with_zero (s : string) : bool :=
match s with
| String c _ => Ascii.eqb c "0"%char
| EmptyString => false
end.

(** What may stand after a number without changing how it is read. *)
Definition follow_ok (rest : string) : bool :=
match rest with
| EmptyString => true
| String c _ =>
    negb (Dec.is_digit c) && negb (Ascii.eqb c "."%char)
    && negb (Ascii.eqb c "e"%char) && negb (Ascii.eqb c "E"%char)
end.

(** How a piece of text starts: with a character that is neither white
  space nor a closing bracket. *)
Definition starts_value (s : string) : Prop :=
exists c r, s = String c r /\ is_ws c = false /\ Ascii.eqb c "]"%char = false.

(** The number of values [scan_once] has to read for [v]. *)
Fixpoint need (v : json) : nat :=
match v with
| JArr l => S (list_sum (map (fun x => S (need x)) l))
| JObj d => S (list_sum (map (fun kv => S (need (snd kv))) d))
| _ => 1
end.

Definition json_induction (P : json -> Prop)
(Hnull : P JNull) (Hbool : forall b, P (JBool b)) (Hint : forall z, P (JInt z))
(Hstr : forall s, P (JStr s))
(Harr : forall l, Forall P l -> P (JArr l))
(Hobj : forall d, Forall (fun kv => P (snd kv)) d -> P (JObj d)) : forall v, P v :=
fix go (v : json) : P v :=
  match v with
  | JNull => Hnull
  | JBool b => Hbool b
  | JInt z => Hint z
  | JStr s => Hstr s
  | JArr l =>
      Harr l ((fix all (l : list json) : Forall P l :=
                 match l with
                 | [] => Forall_nil _
                 | x :: r => Forall_cons x (go x) (all r)
                 end) l)
  | JObj d =>
      Hobj d ((fix all (d : list (string * json)) : Forall (fun kv => P (snd kv)) d :=
                 match d with
                 | [] => Forall_nil _
                 | kv :: r => Forall_cons kv (go (snd kv)) (all r)
                 end) d)
  end.

(** What the round trip says of one value. *)
Definition reads_back (v : json) : Prop :=
wf v = true ->
forall level rest fuel,
  need v <= fuel -> follow_ok rest = true ->
  scan_once fuel (encode level v ++ rest) = Ok (v, rest).

(** One member of an object, as [object_members] meets it after a comma. *)
Definition member (level : nat) (kv : string * json) : string :=
encode_string (fst kv) ++ ": " ++ encode (S level) (snd kv).

End JsonAux.


(* ================================================================== *)
(** ** Vocabulary of effects *)

Definition is_print (e : event) : bool :=
  match e with EvPrint _ => true | _ => false end.

Definition is_get (e : event) : bool :=
  match e with EvGet _ => true | _ => false end.

Definition is_post (e : event) : bool :=
  match e with EvPost _ _ _ => true | _ => false end.

Definition is_input (e : event) : bool :=
  match e with EvInput _ => true | _ => false end.

(** [st'] comes after [st] without a write: the files are the same, the
    trace grew by events that all pass [P], and one line of standard input
    was taken for every prompt. *)
Definition grows (P : event -> bool) (st st' : state) : Prop :=
  exists evs,
    files st' = files st /\
    trace st' = (trace st ++ evs)%list /\
    forallb P evs = true /\
    stdin st' = skipn (List.length (filter is_input evs)) (stdin st).

(** Whatever its outcome, [m] only does what [grows P] allows. *)
Definition runs {A} (P : event -> bool) (m : M A) : Prop :=
  forall st, grows P st (snd (m st)).

(** Every value [m] can return passes [Q]. *)
Definition yields {A} (Q : A -> Prop) (m : M A) : Prop :=
  forall st a st', m st = (Ok a, st') -> Q a.

(** What [check_rpc] decides for an address on a network whose answer to
    a health check does not change with time: [post] is that answer. *)
Definition expected_alive (post : string -> reply) (target : string) : bool :=
  if PyStr.startswith target "wss://" then false
  else if PyStr.contains "infura" (PyStr.lower target) then true
  else match post target with
       | Responded r => (status_code r =? 200)%Z
       | Failed _ => false
       end.

Definition is_text (v : json) : bool :=
  match v with JStr _ => true | _ => false end.

(** The files after a run differ from the files before at most in the
    cache file, which then holds the dump of a value. *)
Definition touches_cache_only (st st' : state) : Prop :=
  (forall p, p <> CHAIN_DETAILS_PATH -> files st' p = files st p) /\
  (files st' CHAIN_DETAILS_PATH = files st CHAIN_DETAILS_PATH \/
   exists v, files st' CHAIN_DETAILS_PATH = Some (Json.dumps v)).

(** A network that answers the GET of [target] with [body] and status 200,
    every other GET with 404, and every health check by [post]. *)
Definition net_serving (target : string) (body : json) (post : string -> reply) : network := {|
  on_get := fun _ t =>
    if t =? target
    then Responded {| status_code := 200; url := t; json_body := Some body |}
    else Responded {| status_code := 404; url := t; json_body := None |};
  on_post := fun _ t => post t
|}.

(** Health checks that succeed exactly on the address [good]. *)
Definition post_only (good : string) (t : string) : reply :=
  if t =? good
  then Responded {| status_code := 200; url := t; json_body := None |}
  else Failed (RequestException 0).

Definition sample_details : list (string * json) :=
  [("name", JStr "Ethereum Mainnet"); ("chain", JStr "ETH"); ("shortName", JStr "eth");
   ("chainId", JInt 1);
   ("rpc", JArr (map JStr ["wss://node.example"; "https://mainnet.infura.io/v3/key";
                           "https://ok.example"; "https://dead.example"]));
   ("faucets", JArr []); ("explorers", JArr []); ("infoURL", JStr "https://ethereum.org")].

(** Whatever its outcome, [m] leaves files and standard input alone, its
    events all pass [P], and at most [n] of them are requests. *)
Definition within (n : nat) (P : event -> bool) {A} (m : M A) : Prop :=
  forall st, exists evs,
    snd (m st) = extend st evs /\
    forallb P evs = true /\
    List.length (filter is_request evs) <= n.

(** Every address asked for [name] is answered, at any time, with a status
    other than 200. *)
Definition refused (net : network) (name : string) : Prop :=
  forall target tr, In target (icon_urls name) ->
    exists r, on_get net tr target = Responded r /\ status_code r <> 200%Z.

(** A network that answers the GET of [target] with status 200 and the
    body [body], and every other request with status 404. *)
Definition net_only (target : string) (body : option json) : network := {|
  on_get := fun _ t =>
    if t =? target
    then Responded {| status_code := 200; url := t; json_body := body |}
    else Responded {| status_code := 404; url := t; json_body := None |};
  on_post := fun _ t => Responded {| status_code := 404; url := t; json_body := None |}
|}.

(** The five fields [main] reads candidate names from, in its order. *)
Definition name_fields : list string := ["icon"; "short_name"; "shortName"; "name"; "chain"].

(** The values of the name fields that are present and truthy. *)
Definition present_names (details : list (string * json)) : list json :=
  flat_map (fun key => match Dict.get key details with
                       | Some v => if Py.truthy v then [v] else []
                       | None => []
                       end) name_fields.

(** The events of a round for a cached chain: no write, and no GET other
    than the one for the details of the chain. *)
Definition overwrite_event (chain_id : string) (e : event) : bool :=
  match e with
  | EvGet target => target =? chain_url chain_id
  | EvWrite _ _ => false
  | _ => true
  end.

(** The [mainnet] entry of a registry record, [None] when there is none. *)
Definition mainnet_of (record : json) : json :=
  match record with
  | JObj fields => match Dict.get "mainnet" fields with Some v => v | None => JNull end
  | _ => JNull
  end.

(** A registry entry that [main] counts as a testnet: its [mainnet] is
    missing or falsy. *)
Definition counted_testnet (entry : string * json) : bool :=
  negb (Py.truthy (mainnet_of (snd entry))).

Definition is_mapping (v : json) : bool :=
  match v with JObj _ => true | _ => false end.

(** Whatever its outcome, [m] changes at most the cache file. *)
Definition saves {A} (m : M A) : Prop :=
  forall st, touches_cache_only st (snd (m st)).

(** Printable ASCII, a line feed or a tab. *)
Definition plain_char (c : ascii) : bool :=
  let n := PyStr.code c in
  (((32 <=? n) && (n <=? 126)) || (n =? 10) || (n =? 9))%N.

Fixpoint plain_text (s : string) : bool :=
  match s with
  | EmptyString => true
  | String c r => plain_char c && plain_text r
  end.

(** A network on which every request raises inside [requests], as on a
    refused connection: no request is answered at all. *)
Definition net_down : network := {|
  on_get := fun _ _ => Failed (RequestException 0);
  on_post := fun _ _ => Failed (RequestException 0)
|}.

(** No source answers a request for one of [names] with status 200: every
    answer that comes has another status. A request that raises gives no
    answer and is allowed. *)
Definition no_source_succeeds (net : network) (names : list string) : Prop :=
  forall name target tr r,
    In name names -> In target (icon_urls name) ->
    on_get net tr target = Responded r -> status_code r <> 200%Z.

(** The line that the short circuit of [get_chain_icon] prints (line 98). *)
Definition is_icon_exists (e : event) : bool :=
  match e with EvPrint (MsgIconExists _) => true | _ => false end.

(** Whatever its outcome, [m] adds to the trace only events that pass [P]. *)
Definition emits {A} (P : event -> bool) (m : M A) : Prop :=
  forall st, exists evs,
    trace (snd (m st)) = (trace st ++ evs)%list /\ forallb P evs = true.

(* ================================================================== *)
(** ** Facts about dictionaries *)

Module DictFacts.
Section WithValue.
Context {V : Type}.
Implicit Types (d : list (string * V)) (k : string) (v : V).

Lemma get_set_same k v d : Dict.get k (Dict.set k v d) = Some v.
Proof.
  induction d as [|[k' v'] r IH]; simpl.
  - now rewrite String.eqb_refl.
  - destruct (k' =? k) eqn:E; simpl; rewrite E; auto.
Qed.

Lemma get_set_other k k' v d :
  k <> k' -> Dict.get k' (Dict.set k v d) = Dict.get k' d.
Proof.
  intros Hne. induction d as [|[k0 v0] r IH]; simpl.
  - destruct (k =? k') eqn:E; auto. apply String.eqb_eq in E. contradiction.
  - destruct (k0 =? k) eqn:E; simpl.
    + apply String.eqb_eq in E. subst k0.
      destruct (k =? k') eqn:E'; auto. apply String.eqb_eq in E'. contradiction.
    + destruct (k0 =? k'); auto.
Qed.

Lemma get_set k k' v d :
  Dict.get k' (Dict.set k v d) = if k =? k' then Some v else Dict.get k' d.
Proof.
  destruct (k =? k') eqn:E.
  - apply String.eqb_eq in E. subst. apply get_set_same.
  - apply String.eqb_neq in E. now apply get_set_other.
Qed.

(** After [{**a, **b}] a key of [b] has [b]'s value, any other key [a]'s. *)
Lemma get_update (a b : list (string * V)) :
  Dict.unique_keys b = true ->
  forall k, Dict.get k (Dict.update a b) =
            match Dict.get k b with
            | Some v => Some v
            | None => Dict.get k a
            end.
Proof.
  unfold Dict.update. revert a.
  induction b as [|[kb vb] r IH]; intros a Hu k; simpl in *; auto.
  apply andb_true_iff in Hu. destruct Hu as [Hfresh Hu].
  rewrite (IH _ Hu). rewrite get_set.
  destruct (kb =? k) eqn:E.
  - apply String.eqb_eq in E. subst kb.
    unfold Dict.mem in Hfresh. destruct (Dict.get k r); [discriminate | reflexivity].
  - reflexivity.
Qed.

Lemma keys_set_in k v d : Dict.mem k d = true -> Dict.keys (Dict.set k v d) = Dict.keys d.
Proof.
  unfold Dict.mem, Dict.keys. induction d as [|[k' v'] r IH]; simpl; [discriminate|].
  destruct (k' =? k) eqn:E; simpl; auto.
  intros H. now rewrite IH.
Qed.

Lemma set_fresh k v d : Dict.mem k d = false -> Dict.set k v d = (d ++ [(k, v)])%list.
Proof.
  unfold Dict.mem. induction d as [|[k' v'] r IH]; cbn; [reflexivity|].
  destruct (k' =? k); [discriminate|]. intros H. now rewrite IH.
Qed.

Lemma mem_app k (a b : list (string * V)) :
  Dict.mem k (a ++ b) = Dict.mem k a || Dict.mem k b.
Proof.
  unfold Dict.mem. induction a as [|[k' v'] r IH]; cbn; [reflexivity|].
  destruct (k' =? k); [reflexivity | exact IH].
Qed.

Lemma update_fresh (d a : list (string * V)) :
  Dict.unique_keys d = true ->
  (forall k, Dict.mem k d = true -> Dict.mem k a = false) ->
  Dict.update a d = (a ++ d)%list.
Proof.
  unfold Dict.update. revert a.
  induction d as [|[k v] r IH]; intros a Hu Hd; cbn.
  - now rewrite app_nil_r.
  - cbn in Hu. apply andb_true_iff in Hu. destruct Hu as [Hk Hu].
    apply negb_true_iff in Hk.
    rewrite set_fresh.
    + rewrite IH; [now rewrite <- app_assoc | exact Hu |].
      intros k' Hk'. rewrite mem_app. apply orb_false_iff. split.
      * apply Hd. unfold Dict.mem in *. cbn. destruct (k =? k'); [reflexivity | exact Hk'].
      * unfold Dict.mem. cbn. destruct (String.eqb_spec k k') as [->|]; [|reflexivity].
        rewrite Hk in Hk'. discriminate.
    + apply Hd. unfold Dict.mem. cbn. now rewrite String.eqb_refl.
Qed.

End WithValue.
End DictFacts.

(* ================================================================== *)
(** ** The merge of a cached record with fetched details (lines 185-197) *)

Lemma copy_field_obj key source target v :
  Dict.get key source = Some v ->
  copy_field key (JObj source) (JObj target) = Ok (JObj (Dict.set key v target)).
Proof. intros H. unfold copy_field. simpl. now rewrite H. Qed.

Lemma copy_field_missing key source target :
  Dict.get key source = None ->
  copy_field key (JObj source) target = Raise (KeyError key).
Proof. intros H. unfold copy_field. simpl. now rewrite H. Qed.

Lemma mem_get {V} k (d : list (string * V)) :
  Dict.mem k d = true -> exists v, Dict.get k d = Some v.
Proof. unfold Dict.mem. destruct (Dict.get k d); [eauto | discriminate]. Qed.

(** C2, counterexample: fetched details without [faucets] make the merge
    raise [KeyError] instead of producing a merged record. *)
Lemma C2_merge_missing_field :
  merge_details (JObj [("a", JInt 9); ("rpc", JArr [JStr "new"])]) (JObj example_cached)
  = Raise (KeyError "faucets").
Proof. reflexivity. Qed.

(** C2, amended: when the fetched details hold the four refreshed fields
    [rpc], [faucets], [explorers] and [infoURL], the merge with a cached
    record succeeds, and the merged record maps each of these four keys to
    the fetched value, every other key of the cached record to the cached
    value, and every remaining key to the fetched value. *)
Theorem C2_merge_policy (details cached : list (string * json)) :
  Dict.unique_keys cached = true ->
  forallb (fun k => Dict.mem k details) refreshed_fields = true ->
  exists merged,
    merge_details (JObj details) (JObj cached) = Ok (JObj merged) /\
    forall k, Dict.get k merged =
              if refreshed k then Dict.get k details
              else match Dict.get k cached with
                   | Some v => Some v
                   | None => Dict.get k details
                   end.
Proof.
  intros Hu Hall. simpl in Hall.
  repeat (apply andb_true_iff in Hall; destruct Hall as [?H Hall]).
  destruct (mem_get _ _ H) as [v1 E1], (mem_get _ _ H0) as [v2 E2],
           (mem_get _ _ H1) as [v3 E3], (mem_get _ _ H2) as [v4 E4].
  unfold merge_details. cbn [Py.merge res_bind].
  rewrite (copy_field_obj _ _ _ _ E1). cbn [res_bind].
  rewrite (copy_field_obj _ _ _ _ E2). cbn [res_bind].
  rewrite (copy_field_obj _ _ _ _ E3). cbn [res_bind].
  rewrite (copy_field_obj _ _ _ _ E4).
  eexists. split; [reflexivity|].
  intros k. rewrite !DictFacts.get_set, (DictFacts.get_update _ _ Hu).
  unfold refreshed, refreshed_fields. cbn [existsb].
  rewrite (String.eqb_sym k "rpc"), (String.eqb_sym k "faucets"),
          (String.eqb_sym k "explorers"), (String.eqb_sym k "infoURL").
  destruct (String.eqb_spec "infoURL" k) as [<-|]; [now rewrite E4; cbn; rewrite ?orb_true_r|].
  destruct (String.eqb_spec "explorers" k) as [<-|]; [now rewrite E3; cbn|].
  destruct (String.eqb_spec "faucets" k) as [<-|]; [now rewrite E2; cbn|].
  destruct (String.eqb_spec "rpc" k) as [<-|]; [now rewrite E1; cbn|].
  reflexivity.
Qed.

(** The instance of the specification: cached [{a:1, b:2, rpc:["old"]}]
    merged with fetched [{a:9, rpc:["new"], faucets:["f"], explorers:["e"],
    infoURL:"u"}]. *)
Lemma C2_merge_policy_witness :
  Dict.unique_keys example_cached = true /\
  forallb (fun k => Dict.mem k example_fetched) refreshed_fields = true /\
  exists merged,
    merge_details (JObj example_fetched) (JObj example_cached) = Ok (JObj merged) /\
    forall k, Dict.get k merged =
              if refreshed k then Dict.get k example_fetched
              else match Dict.get k example_cached with
                   | Some v => Some v
                   | None => Dict.get k example_fetched
                   end.
Proof.
  split; [reflexivity|]. split; [reflexivity|].
  apply (C2_merge_policy example_fetched example_cached); reflexivity.
Defined.

(** The merged record of that instance holds exactly the entries of
    [{a:1, b:2, rpc:["new"], faucets:["f"], explorers:["e"], infoURL:"u"}]. *)
Lemma merge_example :
  exists merged,
    merge_details (JObj example_fetched) (JObj example_cached) = Ok (JObj merged) /\
    List.length merged = List.length example_merged /\
    forall k, Dict.get k merged = Dict.get k example_merged.
Proof.
  exists [("a", JInt 1); ("rpc", JArr [JStr "new"]); ("faucets", JArr [JStr "f"]);
          ("explorers", JArr [JStr "e"]); ("infoURL", JStr "u"); ("b", JInt 2)].
  split; [reflexivity|]. split; [reflexivity|].
  intros k. unfold example_merged. cbn [Dict.get].
  repeat match goal with
         | |- context [String.eqb ?c k] => destruct (String.eqb_spec c k); subst
         end; reflexivity || discriminate || congruence.
Qed.

(* ================================================================== *)
(** ** Facts about the state *)

Lemma extend_nil st : extend st [] = st.
Proof. destruct st. unfold extend. simpl. now rewrite app_nil_r. Qed.

Lemma extend_extend st a b : extend (extend st a) b = extend st (a ++ b)%list.
Proof. unfold extend. simpl. now rewrite app_assoc. Qed.

Lemma trace_extend st evs : trace (extend st evs) = (trace st ++ evs)%list.
Proof. reflexivity. Qed.

Lemma files_extend st evs : files (extend st evs) = files st.
Proof. reflexivity. Qed.

(* ================================================================== *)
(** ** The liveness check (lines 29-47) *)

(** C3, counterexample: the word of the trusted provider in the path of an
    address, not in its host, is enough: the check answers [true] without a
    request, on a network where the health check would get status 500. *)
Lemma C3_infura_in_path :
  let target := "https://example.com/infura" in
  PyStr.startswith target "wss://" = false /\
  PyStr.contains "infura" (PyStr.lower (url_host target)) = false /\
  check_rpc (net_status 500) (JStr target) (fresh no_files [])
  = (Ok true, extend (fresh no_files []) [EvPrint (MsgCheckingRPC (JStr target))]).
Proof. repeat split. Qed.

(** C3, amended: for every address, [check_rpc] returns a boolean and never
    raises; an address that starts with [wss://] gives [false] without a
    request; otherwise an address that contains [infura] anywhere, in any
    case, gives [true] without a request; otherwise exactly one POST of the
    health check is sent with a timeout of 5 seconds, and the answer is
    [true] exactly when a response with status 200 comes back. *)
Theorem C3_check_rpc (net : network) (target : string) (st : state) :
  exists (alive : bool) (evs : list event),
    check_rpc net (JStr target) st = (Ok alive, extend st evs) /\
    if PyStr.startswith target "wss://" then
      alive = false /\ filter is_request evs = []
    else if PyStr.contains "infura" (PyStr.lower target) then
      alive = true /\ filter is_request evs = []
    else
      filter is_request evs = [EvPost target rpc_payload 5] /\
      (alive = true <->
       exists r, on_post net (trace st ++ [EvPrint (MsgCheckingRPC (JStr target))])%list target
                 = Responded r /\ status_code r = 200%Z).
Proof.
  unfold check_rpc, bind, print, emit, lift, try_except, http_post. cbn [Py.as_str].
  destruct (PyStr.startswith target "wss://").
  { exists false, [EvPrint (MsgCheckingRPC (JStr target))]. now cbn. }
  destruct (PyStr.contains "infura" (PyStr.lower target)).
  { exists true, [EvPrint (MsgCheckingRPC (JStr target))]. now cbn. }
  rewrite trace_extend.
  destruct (on_post net _ target) as [r|e] eqn:E.
  - destruct (Z.eqb_spec (status_code r) 200) as [H|H]; cbn [ret].
    + exists true. eexists. rewrite extend_extend. split; [reflexivity|].
      cbn. split; [reflexivity|]. split; eauto.
    + exists false. eexists. rewrite extend_extend. split; [reflexivity|].
      cbn. split; [reflexivity|]. split; [discriminate|].
      intros [r' [Hr Hs]]. injection Hr as <-. contradiction.
  - exists false. eexists. cbn [ret]. rewrite !extend_extend. split; [reflexivity|].
    cbn. split; [reflexivity|]. split; [discriminate|].
    intros [r' [Hr _]]. discriminate.
Qed.

(* ================================================================== *)
(** ** The mainnet flag (lines 178-180) *)

(** C4, counterexample: a registry record whose [mainnet] is the JSON
    boolean [true] makes the assignment raise [AttributeError]. *)
Lemma C4_mainnet_not_text :
  attach_mainnet (JObj [("1", JObj [("mainnet", JBool true)])]) "1" (JObj [("chainId", JStr "1")])
  = Raise AttributeError.
Proof. reflexivity. Qed.

(** C4, amended: for every registry record whose [mainnet] field is absent
    or a string, the fetched details get a [mainnet] entry without an
    error, and it is [true] exactly when the field is present and equals
    ["true"] after lowercasing; otherwise it is [false]. *)
Theorem C4_mainnet_flag (contracts : json) (chain_id : string)
        (record details : list (string * json)) :
  Py.getitem contracts chain_id = Ok (JObj record) ->
  mainnet_is_text record = true ->
  exists flag : bool,
    attach_mainnet contracts chain_id (JObj details)
    = Ok (JObj (Dict.set "mainnet" (JBool flag) details)) /\
    (flag = true <->
     exists s, Dict.get "mainnet" record = Some (JStr s) /\ PyStr.lower s = "true").
Proof.
  intros Hrec Htext. unfold attach_mainnet, mainnet_flag. rewrite Hrec.
  unfold mainnet_is_text in Htext. cbn [res_bind Py.get].
  destruct (Dict.get "mainnet" record) as [[| | |s| |]|] eqn:E; try discriminate.
  - exists (PyStr.lower s =? "true"). cbn. split; [reflexivity|].
    split.
    + intros H. exists s. split; [reflexivity|]. now apply String.eqb_eq.
    + intros [s' [Hs Hl]]. injection Hs as <-. now apply String.eqb_eq.
  - exists false. cbn. split; [reflexivity|].
    split; [discriminate|]. intros [s [Hs _]]. discriminate.
Qed.

Lemma C4_mainnet_flag_witness :
  exists flag : bool,
    attach_mainnet (JObj [("1", JObj [("mainnet", JStr "True")])]) "1" (JObj [("chainId", JStr "1")])
    = Ok (JObj (Dict.set "mainnet" (JBool flag) [("chainId", JStr "1")])) /\
    (flag = true <->
     exists s, Dict.get "mainnet" [("mainnet", JStr "True")] = Some (JStr s) /\
               PyStr.lower s = "true").
Proof.
  apply (C4_mainnet_flag (JObj [("1", JObj [("mainnet", JStr "True")])]) "1"
                         [("mainnet", JStr "True")] [("chainId", JStr "1")]);
    reflexivity.
Defined.

(* ================================================================== *)
(** ** Fetching the details of a chain (lines 73-91) *)

(** On a string the check always answers; on anything else it raises
    [AttributeError], after its first message. *)
Lemma check_rpc_settles net rpc st :
  exists r evs,
    check_rpc net rpc st = (r, extend st evs) /\
    match rpc with
    | JStr _ => exists alive, r = Ok alive
    | _ => r = Raise AttributeError
    end.
Proof.
  destruct rpc as [| b | z | s | l | d];
    try (exists (Raise AttributeError); eexists; split; reflexivity).
  unfold check_rpc, bind, print, emit, lift, try_except, http_post. cbn [Py.as_str].
  destruct (PyStr.startswith s "wss://"); [eexists _, _; split; [reflexivity | eauto]|].
  destruct (PyStr.contains "infura" (PyStr.lower s)); [eexists _, _; split; [reflexivity | eauto]|].
  destruct (on_post net _ s) as [r|e].
  - destruct (status_code r =? 200)%Z; cbn [ret]; rewrite extend_extend;
      eexists _, _; split; reflexivity || eauto.
  - cbn [ret]. rewrite !extend_extend. eexists _, _; split; reflexivity || eauto.
Qed.

Lemma filterM_check_rpc_settles net l :
  forall st, exists r evs,
    filterM (check_rpc net) l st = (r, extend st evs) /\
    (r = Raise AttributeError \/ exists live, r = Ok live) /\
    (forallb (fun x => match x with JStr _ => true | _ => false end) l = true ->
     exists live, r = Ok live).
Proof.
  induction l as [|x l IH]; intros st.
  - exists (Ok []), []. rewrite extend_nil. split; [reflexivity | split; eauto].
  - cbn [filterM forallb]. unfold bind at 1.
    destruct (check_rpc_settles net x st) as [r [evs [Hx Hr]]]. rewrite Hx.
    destruct (IH (extend st evs)) as [r' [evs' [Hl [Hr' Htext]]]].
    destruct x as [| b | z | s | l0 | d]; try (subst r; eexists _, _;
      split; [reflexivity | split; [now left | discriminate]]).
    destruct Hr as [alive ->]. unfold bind at 1. rewrite Hl.
    destruct Hr' as [->|[live ->]].
    + eexists _, _. rewrite extend_extend. split; [reflexivity|].
      split; [now left|]. intros H. destruct (Htext H) as [live Hlive]. discriminate.
    + eexists _, _. unfold ret. rewrite extend_extend. split; [reflexivity|].
      split; [right|]; eauto.
Qed.

(** C9: on a 200 response whose parsed JSON has no ["chainId"],
    [get_chain_details] raises and returns neither a record nor [None];
    when the body is a mapping whose ["rpc"] is missing or a list of
    strings, the exception is the [KeyError] of the indexing; and a body
    with a ["chainId"] but no ["rpc"] gives a record with an empty list of
    endpoints. *)
Theorem C9_chainId_required (net : network) (chain_id : string) (st : state)
        (r : response) (body : json) :
  on_get net (trace st) (chain_url chain_id) = Responded r ->
  status_code r = 200%Z ->
  json_body r = Some body ->
  (has_key body "chainId" = false ->
   exists e st',
     get_chain_details net chain_id st = (Raise e, st') /\
     (e = KeyError "chainId" \/ e = TypeError \/ e = AttributeError)) /\
  (forall fields,
     body = JObj fields -> Dict.get "chainId" fields = None ->
     rpc_is_text_list fields = true ->
     exists evs,
       get_chain_details net chain_id st
       = (Raise (KeyError "chainId"), extend st (EvGet (chain_url chain_id) :: evs))) /\
  (forall fields cid,
     body = JObj fields -> Dict.get "chainId" fields = Some cid ->
     Dict.get "rpc" fields = None ->
     get_chain_details net chain_id st
     = (Ok (JObj (Dict.set "chainId" (JStr (PyRepr.str cid))
                           (Dict.set "rpc" (JArr []) fields))),
        extend st [EvGet (chain_url chain_id); EvPrint (MsgNoLiveProviders chain_id)])).
Proof.
  intros Hget Hstatus Hbody.
  assert (Hhead :
             get_chain_details net chain_id st
             = (rpcs <- lift (Py.get body "rpc" (JArr [])) ;;
                candidates <- lift (Py.iter rpcs) ;;
                live_rpcs <- filterM (check_rpc net) candidates ;;
                details <- lift (Py.setitem body "rpc" (JArr live_rpcs)) ;;
                cid <- lift (Py.getitem details "chainId") ;;
                details <- lift (Py.setitem details "chainId" (JStr (PyRepr.str cid))) ;;
                (if Nat.eqb (List.length live_rpcs) 0
                 then print (MsgNoLiveProviders chain_id) else ret tt) ;;
                ret details) (extend st [EvGet (chain_url chain_id)])).
  { unfold get_chain_details. unfold bind at 1. unfold http_get.
    fold (chain_url chain_id). rewrite Hget, Hstatus. cbn [negb Z.eqb Pos.eqb].
    unfold response_json. rewrite Hbody. reflexivity. }
  rewrite Hhead. clear Hhead.
  split; [|split].
  - intros Hno.
    destruct body as [| b | z | s | l | d];
      try (eexists _, _; split; [reflexivity | auto]).
    unfold bind at 1. cbn [lift Py.get].
    unfold bind at 1.
    destruct (Py.iter _) as [cands | e |] eqn:Hiter; cbn [lift].
    2: { destruct (Dict.get "rpc" d) as [[]|]; try discriminate;
         injection Hiter as <-; (eexists _, _; split; [reflexivity | auto]). }
    2: { destruct (Dict.get "rpc" d) as [[]|]; discriminate. }
    unfold bind at 1.
    destruct (filterM_check_rpc_settles net cands (extend st [EvGet (chain_url chain_id)]))
      as [res [evs [Hf [[->|[live ->]] _]]]]; rewrite Hf.
    + eexists _, _; split; [reflexivity | auto].
    + unfold bind at 1. cbn [lift Py.setitem].
      unfold bind at 1. cbn [Py.getitem].
      rewrite DictFacts.get_set_other by discriminate.
      cbn [has_key] in Hno. unfold Dict.mem in Hno.
      destruct (Dict.get "chainId" d); [discriminate|].
      eexists _, _; split; [reflexivity | auto].
  - intros fields -> Hcid Htext. unfold rpc_is_text_list in Htext.
    assert (Hrpcs : exists cands,
               Py.get (JObj fields) "rpc" (JArr []) = Ok (JArr cands) /\
               forallb (fun x => match x with JStr _ => true | _ => false end) cands = true).
    { cbn [Py.get].
      destruct (Dict.get "rpc" fields) as [[| | | |l|]|]; try discriminate; eauto. }
    destruct Hrpcs as [cands [Hrpcs Hall]].
    unfold bind at 1. unfold lift at 1. rewrite Hrpcs.
    unfold bind at 1. cbn [lift Py.iter]. unfold bind at 1.
    destruct (filterM_check_rpc_settles net cands (extend st [EvGet (chain_url chain_id)]))
      as [res [evs [Hf [_ Hlive]]]]. destruct (Hlive Hall) as [live ->]. rewrite Hf.
    unfold bind at 1. cbn [lift Py.setitem].
    unfold bind at 1. cbn [Py.getitem].
    rewrite DictFacts.get_set_other by discriminate. rewrite Hcid.
    rewrite extend_extend. exists evs. reflexivity.
  - intros fields cid -> Hcid Hrpc.
    unfold bind, lift, ret; cbn [Py.get]; rewrite Hrpc;
      cbn [Py.iter filterM ret Py.setitem Py.getitem];
      rewrite DictFacts.get_set_other by discriminate; rewrite Hcid.
    cbn [Py.setitem List.length Nat.eqb print emit]. rewrite extend_extend. reflexivity.
Qed.

Lemma C9_chainId_required_witness :
  let body := JObj [("name", JStr "Ethereum Mainnet"); ("rpc", JArr [JStr "wss://node.example"])] in
  let st := fresh no_files [] in
  (has_key body "chainId" = false ->
   exists e st',
     get_chain_details (net_body body) "1" st = (Raise e, st') /\
     (e = KeyError "chainId" \/ e = TypeError \/ e = AttributeError)) /\
  (forall fields,
     body = JObj fields -> Dict.get "chainId" fields = None ->
     rpc_is_text_list fields = true ->
     exists evs,
       get_chain_details (net_body body) "1" st
       = (Raise (KeyError "chainId"), extend st (EvGet (chain_url "1") :: evs))) /\
  (forall fields cid,
     body = JObj fields -> Dict.get "chainId" fields = Some cid ->
     Dict.get "rpc" fields = None ->
     get_chain_details (net_body body) "1" st
     = (Ok (JObj (Dict.set "chainId" (JStr (PyRepr.str cid))
                           (Dict.set "rpc" (JArr []) fields))),
        extend st [EvGet (chain_url "1"); EvPrint (MsgNoLiveProviders "1")])).
Proof.
  apply (C9_chainId_required
           (net_body (JObj [("name", JStr "Ethereum Mainnet");
                            ("rpc", JArr [JStr "wss://node.example"])]))
           "1" (fresh no_files [])
           {| status_code := 200; url := chain_url "1";
              json_body := Some (JObj [("name", JStr "Ethereum Mainnet");
                                       ("rpc", JArr [JStr "wss://node.example"])]) |});
    reflexivity.
Defined.

(* ================================================================== *)
(** ** The icon of a chain (lines 94-136) *)

Lemma http_get_refused net target st :
  (forall tr, exists r, on_get net tr target = Responded r /\ status_code r <> 200%Z) ->
  exists r, http_get net target st = (Ok r, extend st [EvGet target]) /\
            (status_code r =? 200)%Z = false.
Proof.
  intros H. destruct (H (trace st)) as [r [Hr Hs]].
  exists r. unfold http_get. rewrite Hr. split; [reflexivity|].
  now apply Z.eqb_neq.
Qed.

(** When no address of any name answers with status 200, the search goes
    through every name and ends with the default descriptor. *)
Lemma icon_search_default net all_names names :
  (forall name target, In name names -> In target (icon_urls name) ->
     forall tr, exists r, on_get net tr target = Responded r /\ status_code r <> 200%Z) ->
  forall st, exists evs,
    icon_search net all_names names st = (Ok default_icon, extend st evs) /\
    List.length (filter is_request evs) = 3 * List.length names.
Proof.
  induction names as [|name rest IH]; intros Hall st.
  - exists [EvPrint (MsgIconDefault all_names)]. split; reflexivity.
  - assert (Hrest : forall n t, In n rest -> In t (icon_urls n) ->
               forall tr, exists r, on_get net tr t = Responded r /\ status_code r <> 200%Z).
    { intros n t Hn. apply Hall. now right. }
    assert (Hname : forall t, In t (icon_urls name) ->
               forall tr, exists r, on_get net tr t = Responded r /\ status_code r <> 200%Z).
    { intros t. apply Hall. now left. }
    cbn [icon_search]. unfold bind at 1. cbn [print emit].
    unfold bind at 1.
    destruct (http_get_refused net _ (extend st [EvPrint (MsgTryingIcon name)])
                (Hname _ (or_introl eq_refl))) as [r1 [-> ->]].
    unfold bind at 1.
    destruct (http_get_refused net _
                (extend (extend st [EvPrint (MsgTryingIcon name)])
                        [EvGet (PyStr.path_join ICONS_URL (name ++ ".json"))])
                (Hname _ (or_intror (or_introl eq_refl)))) as [r2 [-> ->]].
    unfold bind at 1.
    destruct (http_get_refused net _
                (extend (extend (extend st [EvPrint (MsgTryingIcon name)])
                        [EvGet (PyStr.path_join ICONS_URL (name ++ ".json"))])
                        [EvGet (PyStr.path_join CRYPTO_ICONS_URL (name ++ ".svg"))])
                (Hname _ (or_intror (or_intror (or_introl eq_refl))))) as [r3 [-> ->]].
    match goal with
    | |- context [icon_search _ _ _ ?s] =>
        destruct (IH Hrest s) as [evs [Hrun Hcount]]; rewrite Hrun
    end.
    rewrite !extend_extend.
    eexists. split; [reflexivity|].
    rewrite !filter_app, !length_app, Hcount. cbn. lia.
Qed.

(** C5, amended: for every sequence of candidate names and every existing
    record without an icon, when every address of every name is answered,
    with a status other than 200, [get_chain_icon] returns exactly the
    default descriptor, after three requests per name. *)
Theorem C5_default_icon (net : network) (names : list string)
        (existing : list (string * json)) (st : state) :
  Py.truthy (icon_of existing) = false ->
  (forall name target, In name names -> In target (icon_urls name) ->
     forall tr, exists r, on_get net tr target = Responded r /\ status_code r <> 200%Z) ->
  exists evs,
    get_chain_icon net names (JObj existing) st = (Ok default_icon, extend st evs) /\
    List.length (filter is_request evs) = 3 * List.length names.
Proof.
  intros Hicon Hall. unfold get_chain_icon. unfold bind at 1. cbn [lift Py.get].
  fold (icon_of existing). rewrite Hicon.
  apply icon_search_default, Hall.
Qed.

Lemma C5_default_icon_witness :
  exists evs,
    get_chain_icon (net_status 404) ["eth"; "ETH"] (JObj [("chainId", JStr "1")])
                   (fresh no_files [])
    = (Ok (JObj [("url", JStr DEFAULT_ICON_URL); ("format", JStr "png")]),
       extend (fresh no_files []) evs) /\
    List.length (filter is_request evs) = 6.
Proof.
  apply (C5_default_icon (net_status 404) ["eth"; "ETH"] [("chainId", JStr "1")]
                         (fresh no_files [])).
  - reflexivity.
  - intros name target _ _ tr. eexists. split; [reflexivity | discriminate].
Defined.

(** C5, counterexample: on a network whose requests raise, no source
    answers with status 200, and yet [get_chain_icon] returns no descriptor
    for a record without an icon: the function has no handler, and the
    exception of its first request leaves it. *)
Lemma C5_request_raises :
  Py.truthy (icon_of [("chainId", JStr "1")]) = false /\
  no_source_succeeds net_down ["eth"] /\
  get_chain_icon net_down ["eth"] (JObj [("chainId", JStr "1")]) (fresh no_files [])
  = (Raise (RequestException 0),
     extend (fresh no_files [])
            [EvPrint (MsgTryingIcon "eth"); EvGet (PyStr.path_join ICONS_URL "eth.json")]).
Proof.
  split; [reflexivity|]. split; [|reflexivity].
  intros name target tr r _ _ H. discriminate H.
Qed.

(** With an icon in the existing record and at least one candidate name the
    icon comes back as it is, and nothing is requested. *)
Lemma get_chain_icon_existing net name names existing icon st :
  Dict.get "icon" existing = Some icon ->
  Py.truthy icon = true ->
  get_chain_icon net (name :: names) (JObj existing) st
  = (Ok icon, extend st [EvPrint (MsgIconExists name)]).
Proof.
  intros Hget Htrue. unfold get_chain_icon. unfold bind at 1. cbn [lift Py.get].
  rewrite Hget, Htrue. reflexivity.
Qed.

(** With an icon in the existing record and no candidate name, the message
    of line 98 cannot be built: [possible_chain_names[0]] raises
    [IndexError] and the icon is not returned. *)
Lemma get_chain_icon_no_names net existing icon st :
  Dict.get "icon" existing = Some icon ->
  Py.truthy icon = true ->
  get_chain_icon net [] (JObj existing) st = (Raise IndexError, st).
Proof.
  intros Hget Htrue. unfold get_chain_icon. unfold bind at 1. cbn [lift Py.get].
  rewrite Hget, Htrue. reflexivity.
Qed.

(** C6, counterexample: the descriptor does not come back regardless of
    the candidate names: for a record with an icon and an empty list of
    names the call raises [IndexError]. *)
Lemma C6_existing_icon_no_names :
  get_chain_icon (net_status 404) [] (JObj [("chainId", JStr "1"); ("icon", sample_icon)])
                 (fresh no_files [])
  = (Raise IndexError, fresh no_files []).
Proof. now apply (get_chain_icon_no_names _ _ sample_icon). Qed.

(** C6, amended: for every existing record that carries an icon descriptor
    and every list of candidate names that is not empty, [get_chain_icon]
    returns the descriptor as it is and sends no request; a second call
    with the same record returns the same descriptor, and the two calls
    together send no request. A descriptor, a mapping with a [url] and a
    [format], is truthy. *)
Theorem C6_existing_icon_returned (net : network) (name : string) (names : list string)
        (existing : list (string * json)) (icon : json) (st : state) :
  Dict.get "icon" existing = Some icon ->
  Py.truthy icon = true ->
  get_chain_icon net (name :: names) (JObj existing) st
  = (Ok icon, extend st [EvPrint (MsgIconExists name)]) /\
  exists evs,
    (first <- get_chain_icon net (name :: names) (JObj existing) ;;
     second <- get_chain_icon net (name :: names) (JObj existing) ;;
     ret (first, second)) st
    = (Ok (icon, icon), extend st evs) /\
    filter is_request evs = [].
Proof.
  intros Hget Htrue. split; [now apply get_chain_icon_existing|].
  exists [EvPrint (MsgIconExists name); EvPrint (MsgIconExists name)].
  split; [|reflexivity].
  unfold bind at 1. rewrite (get_chain_icon_existing net name names existing icon st Hget Htrue).
  unfold bind at 1. rewrite (get_chain_icon_existing net name names existing icon _ Hget Htrue).
  unfold ret. now rewrite extend_extend.
Qed.

Lemma C6_existing_icon_returned_witness :
  get_chain_icon (net_status 404) ["eth"]
                 (JObj [("chainId", JStr "1"); ("icon", sample_icon)]) (fresh no_files [])
  = (Ok sample_icon, extend (fresh no_files []) [EvPrint (MsgIconExists "eth")]) /\
  exists evs,
    (first <- get_chain_icon (net_status 404) ["eth"]
                             (JObj [("chainId", JStr "1"); ("icon", sample_icon)]) ;;
     second <- get_chain_icon (net_status 404) ["eth"]
                              (JObj [("chainId", JStr "1"); ("icon", sample_icon)]) ;;
     ret (first, second)) (fresh no_files [])
    = (Ok (sample_icon, sample_icon), extend (fresh no_files []) evs) /\
    filter is_request evs = [].
Proof.
  apply (C6_existing_icon_returned (net_status 404) "eth" []
           [("chainId", JStr "1"); ("icon", sample_icon)] sample_icon (fresh no_files []));
    reflexivity.
Defined.

(* ================================================================== *)
(** ** One round of the loop (lines 164-218) *)

(** C10: for a chain id that is in the cache, an answer whose lower-case
    form is not exactly ["y"] declines: the round asks nothing of the
    network and leaves the cache as it was. *)
Theorem C10_decline_keeps_record (net : network) (contracts chain_details : json)
        (chain_id : string) (st : state) (answer : string) (rest : list string) :
  Py.contains chain_details chain_id = Ok true ->
  stdin st = answer :: rest ->
  (PyStr.lower answer =? "y") = false ->
  process_chain net contracts chain_details chain_id st
  = (Ok chain_details,
     {| files := files st; stdin := rest; trace := (trace st ++ [EvInput chain_id])%list |}).
Proof.
  intros Hin Hstdin Hno. unfold process_chain. unfold bind at 1. unfold lift at 1.
  rewrite Hin. unfold bind at 1. unfold bind at 1. unfold input.
  unfold bind at 1. cbn [emit extend stdin files trace]. rewrite Hstdin.
  cbn [ret]. rewrite Hno. reflexivity.
Qed.

Lemma C10_decline_keeps_record_witness :
  process_chain (net_status 404) sample_registry sample_cache "1" (fresh no_files ["yes"])
  = (Ok sample_cache,
     {| files := no_files; stdin := []; trace := [EvInput "1"] |}).
Proof.
  apply (C10_decline_keeps_record (net_status 404) sample_registry sample_cache "1"
           (fresh no_files ["yes"]) "yes" []); reflexivity.
Defined.

(** C1, the failing case: when the chain id is not in the cache, the
    request for its details is answered with a status other than 200 and
    the mainnet flag can be computed, the round does not skip the id: it
    raises [TypeError], from the assignment to [details["mainnet"]] on
    [None]. *)
Theorem C1_fetch_failure_raises (net : network) (contracts chain_details : json)
        (chain_id : string) (st : state) (r : response) (flag : bool) :
  Py.contains chain_details chain_id = Ok false ->
  on_get net (trace st ++ [EvPrint (MsgFetching chain_id); EvSleep 1])%list (chain_url chain_id)
  = Responded r ->
  status_code r <> 200%Z ->
  mainnet_flag contracts chain_id = Ok flag ->
  process_chain net contracts chain_details chain_id st
  = (Raise TypeError,
     extend st [EvPrint (MsgFetching chain_id); EvSleep 1; EvGet (chain_url chain_id)]).
Proof.
  intros Hin Hget Hstatus Hflag. unfold process_chain. unfold bind at 1. unfold lift at 1.
  rewrite Hin. unfold bind at 1. unfold ret at 1. cbn [negb].
  unfold bind at 1. cbn [print emit]. unfold bind at 1. cbn [sleep emit].
  rewrite extend_extend. cbn [app].
  unfold bind at 1. unfold get_chain_details. unfold bind at 1. unfold http_get.
  fold (chain_url chain_id). rewrite trace_extend, Hget.
  apply Z.eqb_neq in Hstatus. rewrite Hstatus. cbn [negb ret].
  unfold attach_mainnet. rewrite Hflag. cbn [res_bind Py.setitem lift].
  rewrite extend_extend. reflexivity.
Qed.

Lemma C1_fetch_failure_raises_witness :
  process_chain (net_status 404) sample_registry (JObj []) "5" (fresh no_files [])
  = (Raise TypeError,
     extend (fresh no_files []) [EvPrint (MsgFetching "5"); EvSleep 1; EvGet (chain_url "5")]).
Proof.
  apply (C1_fetch_failure_raises (net_status 404) sample_registry (JObj []) "5"
           (fresh no_files [])
           {| status_code := 404; url := chain_url "5"; json_body := None |} false);
    [reflexivity | reflexivity | discriminate | reflexivity].
Defined.

(* ================================================================== *)
(** ** Loading the registry (lines 50-61, 139-143) *)

(** [get_contracts] reads, and may print; it writes nothing and asks
    nothing of the network. *)
Lemma get_contracts_effects net st r st1 :
  get_contracts net st = (r, st1) ->
  exists evs, st1 = extend st evs /\ filter is_write evs = [] /\ filter is_request evs = [].
Proof.
  unfold get_contracts.
  change (PyStr.startswith CONTRACTS_URL "https://") with false. cbn iota.
  unfold try_except, bind, read_file, lift, print, emit, ret.
  destruct (files st CONTRACTS_URL) as [content|].
  - destruct (Json.loads content) as [v|e|]; intros H; injection H as <- <-.
    + exists []. now rewrite extend_nil.
    + eexists. split; [reflexivity | split; reflexivity].
    + exists []. now rewrite extend_nil.
  - intros H. injection H as <- <-. eexists. split; [reflexivity | split; reflexivity].
Qed.

(** C8: whenever [get_contracts] yields no registry, [main] prints its
    message and returns; no file is written, so the files, the cache file
    among them, are what they were. *)
Theorem C8_registry_failure (net : network) (st st1 : state) :
  get_contracts net st = (Ok JNull, st1) ->
  exists evs,
    main net st = (Ok tt, extend st (evs ++ [EvPrint MsgFailedContracts])) /\
    filter is_write (evs ++ [EvPrint MsgFailedContracts]) = [] /\
    files (snd (main net st)) = files st.
Proof.
  intros H. destruct (get_contracts_effects net st _ _ H) as [evs [-> [Hw _]]].
  assert (Hmain : main net st = (Ok tt, extend st (evs ++ [EvPrint MsgFailedContracts]))).
  { unfold main. unfold bind at 1. rewrite H.
    cbn [Py.truthy negb]. unfold print, emit. now rewrite extend_extend. }
  exists evs. rewrite Hmain.
  split; [reflexivity|]. split; [|reflexivity].
  rewrite filter_app, Hw. reflexivity.
Qed.

Lemma C8_registry_failure_witness :
  exists evs,
    main (net_status 404) (fresh (one_file CHAIN_DETAILS_PATH (Json.dumps sample_cache)) [])
    = (Ok tt, extend (fresh (one_file CHAIN_DETAILS_PATH (Json.dumps sample_cache)) [])
                     (evs ++ [EvPrint MsgFailedContracts])) /\
    filter is_write (evs ++ [EvPrint MsgFailedContracts]) = [] /\
    files (snd (main (net_status 404)
                     (fresh (one_file CHAIN_DETAILS_PATH (Json.dumps sample_cache)) [])))
    = one_file CHAIN_DETAILS_PATH (Json.dumps sample_cache).
Proof.
  apply (C8_registry_failure (net_status 404)
           (fresh (one_file CHAIN_DETAILS_PATH (Json.dumps sample_cache)) [])
           (extend (fresh (one_file CHAIN_DETAILS_PATH (Json.dumps sample_cache)) [])
                   [EvPrint (MsgErrorLoadingContracts (FileNotFoundError CONTRACTS_URL))])).
  reflexivity.
Defined.

(* ================================================================== *)
(** ** Whole runs *)

(** A run in which the details of chain 5 cannot be fetched: the run ends
    with the [TypeError] of the round, and the cache file is never written. *)
Lemma main_aborts_on_fetch_failure :
  let st := fresh (one_file CONTRACTS_URL (Json.dumps sample_registry)) [] in
  fst (main (net_status 404) st) = Raise TypeError /\
  files (snd (main (net_status 404) st)) CHAIN_DETAILS_PATH = None.
Proof. vm_compute. split; reflexivity. Qed.

(** A run over a registry with one chain whose details are served: the
    chain is stored with the default icon and the cache file is written. *)
Lemma main_stores_new_chain :
  let registry := JObj [("1", JObj [("mainnet", JStr "true")])] in
  let body := JObj [("name", JStr "Ethereum Mainnet"); ("chainId", JInt 1);
                    ("rpc", JArr [JStr "wss://node.example"])] in
  let net := {| on_get := fun _ target =>
                  if target =? chain_url "1"
                  then Responded {| status_code := 200; url := target; json_body := Some body |}
                  else Responded {| status_code := 404; url := target; json_body := None |};
                on_post := fun _ target => Failed (RequestException 0) |} in
  let out := main net (fresh (one_file CONTRACTS_URL (Json.dumps registry)) []) in
  fst out = Ok tt /\
  option_map Json.loads (files (snd out) CHAIN_DETAILS_PATH)
  = Some (Ok (JObj [("1", JObj [("name", JStr "Ethereum Mainnet"); ("chainId", JStr "1");
                                ("rpc", JArr []); ("mainnet", JBool true);
                                ("icon", default_icon)])])).
Proof. vm_compute. split; reflexivity. Qed.

(** A round for a cached chain that is answered with [Y]: the details are
    fetched and merged into the cached record. *)
Lemma overwrite_confirmed_with_capital_y :
  let body := JObj [("name", JStr "Renamed"); ("chainId", JInt 1); ("rpc", JArr []);
                    ("faucets", JArr []); ("explorers", JArr []); ("infoURL", JStr "u")] in
  fst (process_chain (net_body body) sample_registry sample_cache "1" (fresh no_files ["Y"]))
  = Ok (JObj [("1", JObj [("name", JStr "Renamed"); ("chainId", JStr "1"); ("rpc", JArr []);
                          ("faucets", JArr []); ("explorers", JArr []); ("infoURL", JStr "u");
                          ("mainnet", JBool true); ("icon", sample_icon)])]).
Proof. vm_compute. reflexivity. Qed.

(* ================================================================== *)
(** ** The cache file: [json.dump] then [json.load] *)

Module JsonFacts.
Import PyStr Json JsonAux.

Lemma append_assoc (a b c : string) : ((a ++ b) ++ c = a ++ (b ++ c))%string.
Proof. induction a as [|x a IH]; simpl; [reflexivity | now rewrite IH]. Qed.

Lemma append_nil_r (a : string) : (a ++ "")%string = a.
Proof. induction a as [|x a IH]; simpl; [reflexivity | now rewrite IH]. Qed.

Lemma length_append (a b : string) :
String.length (a ++ b) = String.length a + String.length b.
Proof. induction a as [|x a IH]; simpl; [reflexivity | now rewrite IH]. Qed.

(** *** Integers *)


Lemma digit_char_is_digit d : (d < 10)%N -> Dec.is_digit (Dec.digit_char d) = true.
Proof.
intros H. unfold Dec.is_digit, Dec.digit_char, code.
rewrite N_ascii_embedding by lia.
apply andb_true_iff. split; apply N.leb_le; lia.
Qed.

Lemma digit_val_char d : (d < 10)%N -> Dec.digit_val (Dec.digit_char d) = d.
Proof.
intros H. unfold Dec.digit_val, Dec.digit_char, code.
rewrite N_ascii_embedding by lia. lia.
Qed.

Lemma digit_char_zero d : (d < 10)%N -> Ascii.eqb (Dec.digit_char d) "0"%char = (d =? 0)%N.
Proof.
intros H. unfold Dec.digit_char.
destruct (N.eqb_spec d 0) as [->|Hne]; [reflexivity|].
apply Ascii.eqb_neq. intros E.
apply (f_equal N_of_ascii) in E. rewrite N_ascii_embedding in E by lia.
change (N_of_ascii "0") with 48%N in E. lia.
Qed.

Lemma dec_value_app acc a b : dec_value acc (a ++ b) = dec_value (dec_value acc a) b.
Proof. revert acc. induction a as [|x a IH]; intros acc; simpl; [reflexivity | apply IH]. Qed.

Lemma all_digits_app a b : all_digits (a ++ b) = all_digits a && all_digits b.
Proof. induction a as [|x a IH]; simpl; [reflexivity | now rewrite IH, andb_assoc]. Qed.

(** What [Dec.digits] puts in front of [acc]: the digits of [n], without a
  leading zero unless [n] is a single digit. *)
Lemma digits_spec fuel :
forall n acc, (n < 10 ^ N.of_nat fuel)%N -> (0 < fuel)%nat ->
  exists ds,
    Dec.digits fuel n acc = (ds ++ acc)%string /\
    all_digits ds = true /\
    dec_value 0 ds = n /\
    starts_with_zero ds = (n =? 0)%N.
Proof.
induction fuel as [|fuel IH]; intros n acc Hn Hf; [lia|].
cbn [Dec.digits].
assert (Hmod : (n mod 10 < 10)%N) by (apply N.mod_lt; lia).
destruct (N.ltb_spec n 10) as [Hlt|Hge].
- exists (String (Dec.digit_char (n mod 10)) EmptyString).
  rewrite N.mod_small by lia.
  cbn [append all_digits dec_value starts_with_zero].
  rewrite digit_char_is_digit, digit_val_char, digit_char_zero by lia.
  repeat split; reflexivity || lia.
- destruct fuel as [|fuel'].
  { cbn in Hn. lia. }
  destruct (IH (n / 10)%N (String (Dec.digit_char (n mod 10)) acc)) as [ds [Hd [Hall [Hval Hz]]]].
  { rewrite Nat2N.inj_succ, N.pow_succ_r' in Hn.
    apply N.Div0.div_lt_upper_bound. lia. }
  { lia. }
  exists (ds ++ String (Dec.digit_char (n mod 10)) EmptyString)%string.
  rewrite Hd, append_assoc. cbn [append].
  split; [reflexivity|].
  rewrite all_digits_app, Hall. cbn [all_digits].
  rewrite digit_char_is_digit by lia.
  split; [reflexivity|].
  rewrite dec_value_app, Hval. cbn [dec_value]. rewrite digit_val_char by lia.
  split.
  { pose proof (N.div_mod n 10). lia. }
  assert (Hq : (n / 10 <> 0)%N).
  { intros E. apply N.div_small_iff in E; lia. }
  destruct ds as [|c ds']; cbn [starts_with_zero append] in *.
  + cbn in Hval. lia.
  + rewrite Hz. apply N.eqb_neq in Hq. rewrite Hq. symmetry. apply N.eqb_neq. lia.
Qed.

Lemma of_N_spec n :
exists ds,
  Dec.of_N n = ds /\ all_digits ds = true /\ dec_value 0 ds = n /\
  starts_with_zero ds = (n =? 0)%N.
Proof.
unfold Dec.of_N.
destruct (digits_spec (S (N.to_nat (N.log2 n))) n EmptyString) as [ds [Hd H]].
- rewrite Nat2N.inj_succ, N2Nat.id.
  destruct (N.eq_dec n 0) as [->|Hne]; [cbn; lia|].
  apply N.lt_le_trans with (2 ^ N.succ (N.log2 n))%N.
  + apply N.log2_spec. lia.
  + apply N.pow_le_mono_l. lia.
- lia.
- exists ds. rewrite Hd, append_nil_r. auto.
Qed.


Lemma scan_digits_app ds rest acc :
all_digits ds = true -> starts_with_digit rest = false ->
scan_digits acc (ds ++ rest) = (dec_value acc ds, rest).
Proof.
revert acc. induction ds as [|c ds IH]; intros acc Hall Hrest.
- cbn. destruct rest as [|c r]; [reflexivity|].
  cbn in Hrest. cbn. now rewrite Hrest.
- cbn in Hall. apply andb_true_iff in Hall. destruct Hall as [Hc Hall].
  cbn. rewrite Hc. now apply IH.
Qed.

Lemma follow_ok_no_digit rest : follow_ok rest = true -> starts_with_digit rest = false.
Proof.
destruct rest as [|c r]; [reflexivity|]. cbn.
destruct (Dec.is_digit c); [discriminate | reflexivity].
Qed.

Lemma follow_ok_no_float rest : follow_ok rest = true -> float_tail rest = false.
Proof.
destruct rest as [|c r]; [reflexivity|]. cbn [follow_ok]. intros H.
repeat (apply andb_true_iff in H; destruct H as [H ?H]).
apply negb_true_iff in H0, H1, H2.
unfold float_tail. now rewrite H2, H1, H0.
Qed.

Lemma digit_not_special c :
Dec.is_digit c = true ->
Ascii.eqb c "-"%char = false /\ Ascii.eqb c dquote = false /\
Ascii.eqb c "{"%char = false /\ Ascii.eqb c "["%char = false /\
Ascii.eqb c "]"%char = false /\ is_ws c = false /\
Ascii.eqb c "n"%char = false /\ Ascii.eqb c "t"%char = false /\
Ascii.eqb c "f"%char = false.
Proof.
intros H.
repeat split;
  try (destruct (Ascii.eqb_spec c "-"%char) as [->|]; [discriminate H | reflexivity]);
  try (destruct (Ascii.eqb_spec c dquote) as [->|]; [discriminate H | reflexivity]);
  try (destruct (Ascii.eqb_spec c "{"%char) as [->|]; [discriminate H | reflexivity]);
  try (destruct (Ascii.eqb_spec c "["%char) as [->|]; [discriminate H | reflexivity]);
  try (destruct (Ascii.eqb_spec c "]"%char) as [->|]; [discriminate H | reflexivity]);
  try (destruct (Ascii.eqb_spec c "n"%char) as [->|]; [discriminate H | reflexivity]);
  try (destruct (Ascii.eqb_spec c "t"%char) as [->|]; [discriminate H | reflexivity]);
  try (destruct (Ascii.eqb_spec c "f"%char) as [->|]; [discriminate H | reflexivity]).
unfold is_ws. unfold Dec.is_digit in H. apply andb_true_iff in H. destruct H as [H1 H2].
apply N.leb_le in H1.
repeat (apply orb_false_iff; split); apply N.eqb_neq; lia.
Qed.

(** The digits of a positive number: a first digit other than zero, then digits. *)
Lemma of_N_pos p :
exists c ds,
  Dec.of_N (Npos p) = String c ds /\ Dec.is_digit c = true /\
  Ascii.eqb c "0"%char = false /\ all_digits ds = true /\
  dec_value (Dec.digit_val c) ds = Npos p.
Proof.
destruct (of_N_spec (Npos p)) as [ds [Hd [Hall [Hval Hz]]]].
destruct ds as [|c ds].
- cbn in Hval. discriminate.
- cbn in Hall, Hz, Hval. apply andb_true_iff in Hall. destruct Hall as [Hc Hall].
  exists c, ds. repeat split; auto.
Qed.

Lemma match_unsigned_pos p rest :
follow_ok rest = true ->
match_unsigned (Dec.of_N (Npos p) ++ rest) = Some (Npos p, rest).
Proof.
intros Hrest. destruct (of_N_pos p) as [c [ds [-> [Hc [Hz [Hall Hval]]]]]].
cbn [append match_unsigned]. rewrite Hz, Hc.
rewrite scan_digits_app by auto using follow_ok_no_digit.
now rewrite Hval.
Qed.

Lemma match_int_of_Z z rest :
follow_ok rest = true -> match_int (Dec.of_Z z ++ rest) = Some (z, rest).
Proof.
intros Hrest. destruct z as [|p|p]; cbn [Dec.of_Z].
- reflexivity.
- pose proof (match_unsigned_pos p rest Hrest) as Hm.
  destruct (of_N_pos p) as [c [ds [E [Hc _]]]]. rewrite E in *.
  cbn [append match_int] in *.
  destruct (digit_not_special c Hc) as [-> _]. now rewrite Hm.
- cbn [append match_int]. change (Ascii.eqb "-" "-") with true. cbn iota.
  now rewrite (match_unsigned_pos p rest Hrest).
Qed.

(** The text of a number starts with a digit or a minus sign. *)
Lemma of_Z_head z :
exists c r, Dec.of_Z z = String c r /\ (Dec.is_digit c = true \/ c = "-"%char).
Proof.
destruct z as [|p|p]; cbn [Dec.of_Z].
- exists "0"%char, EmptyString. split; [reflexivity | now left].
- destruct (of_N_pos p) as [c [ds [E [Hc _]]]]. exists c, ds. split; [exact E | now left].
- eexists _, _. split; [reflexivity | now right].
Qed.

Lemma scan_once_number f c r :
Dec.is_digit c = true \/ c = "-"%char ->
scan_once (S f) (String c r) = scan_number (String c r).
Proof.
intros [H| ->].
- destruct (digit_not_special c H) as [_ [Hq [Hb [Hk [_ [_ [Hn [Ht Hf]]]]]]]].
  cbn [scan_once]. rewrite Hq, Hb, Hk.
  assert (Hp : forall w, (Ascii.eqb c "n"%char = false -> Ascii.eqb c "t"%char = false ->
                          Ascii.eqb c "f"%char = false ->
                          w = "null" \/ w = "true" \/ w = "false" ->
                          String.prefix w (String c r) = false)).
  { intros w Hn' Ht' Hf' [->|[->| ->]]; cbn [String.prefix];
      destruct (ascii_dec _ c) as [<-|]; try reflexivity; discriminate. }
  rewrite !Hp by auto. reflexivity.
- reflexivity.
Qed.

Lemma scan_once_int f z rest :
follow_ok rest = true ->
scan_once (S f) (Dec.of_Z z ++ rest) = Ok (JInt z, rest).
Proof.
intros Hrest. destruct (of_Z_head z) as [c [r [E Hc]]].
pose proof (match_int_of_Z z rest Hrest) as Hm. rewrite E in *. cbn [append] in *.
rewrite scan_once_number by exact Hc.
unfold scan_number. rewrite Hm. now rewrite follow_ok_no_float.
Qed.

(** *** Strings *)

Lemma scanstring_char c t : scanstring (encode_char c ++ t) = cons_char c (scanstring t).
Proof. destruct c as [[] [] [] [] [] [] [] []]; reflexivity. Qed.

Lemma scanstring_encode s rest :
scanstring (encode_chars s ++ String dquote rest) = Ok (s, rest).
Proof.
induction s as [|c s IH]; [reflexivity|].
cbn [encode_chars]. rewrite append_assoc, scanstring_char, IH. reflexivity.
Qed.

Lemma scan_once_string f s rest :
scan_once (S f) (encode_string s ++ rest) = Ok (JStr s, rest).
Proof.
unfold encode_string. cbn [append scan_once].
change (Ascii.eqb dquote dquote) with true. cbn iota.
rewrite append_assoc. cbn [append]. now rewrite scanstring_encode.
Qed.

(** *** Layout *)

Lemma skip_ws_tabs k s : skip_ws (tabs k ++ s) = skip_ws s.
Proof. induction k as [|k IH]; [reflexivity | exact IH]. Qed.

Lemma skip_ws_newline_indent k s : skip_ws (newline_indent k ++ s) = skip_ws s.
Proof. unfold newline_indent. cbn [append skip_ws]. apply skip_ws_tabs. Qed.

Lemma skip_ws_head c r : is_ws c = false -> skip_ws (String c r) = String c r.
Proof. intros H. cbn [skip_ws]. now rewrite H. Qed.


Lemma starts_value_app s t : starts_value s -> starts_value (s ++ t).
Proof. intros [c [r [-> H]]]. exists c, (r ++ t)%string. split; [reflexivity | exact H]. Qed.

Lemma encode_starts_value level v : starts_value (encode level v).
Proof.
destruct v as [| [] | z | s | [|x l] | [|kv d]];
  try (eexists _, _; split; [reflexivity | split; reflexivity]).
destruct (of_Z_head z) as [c [r [E [Hc| ->]]]].
- destruct (digit_not_special c Hc) as [_ [_ [_ [_ [Hk [Hw _]]]]]].
  exists c, r. cbn [encode]. auto.
- exists "-"%char, r. cbn [encode]. auto.
Qed.

Lemma skip_ws_value s : starts_value s -> skip_ws s = s.
Proof. intros [c [r [-> [H _]]]]. now apply skip_ws_head. Qed.

Lemma join_with_cons {A} (enc : A -> string) sep x l :
join_with enc sep (x :: l)
= (enc x ++ match l with [] => EmptyString | _ => sep ++ join_with enc sep l end)%string.
Proof. destruct l; cbn [join_with]; [now rewrite append_nil_r | reflexivity]. Qed.

Lemma join_starts_value level sep x l :
starts_value (join_with (encode level) sep (x :: l)).
Proof. rewrite join_with_cons. apply starts_value_app, encode_starts_value. Qed.

Lemma follow_ok_comma s : follow_ok ("," ++ s) = true.
Proof. reflexivity. Qed.

Lemma follow_ok_newline k s : follow_ok (newline_indent k ++ s) = true.
Proof. reflexivity. Qed.


(** *** Dictionaries built from the pairs read *)

Lemma dict_of_pairs_unique d : Dict.unique_keys d = true -> dict_of_pairs d = d.
Proof. intros H. unfold dict_of_pairs. now rewrite DictFacts.update_fresh. Qed.

(** *** Reading back what the encoder wrote *)


Lemma list_sum_cons a l : list_sum (a :: l) = a + list_sum l.
Proof. reflexivity. Qed.


Lemma array_items_encode level rest :
forall l, Forall reads_back l -> forallb wf l = true ->
forall x acc fuel,
  reads_back x -> wf x = true ->
  S (need x) + list_sum (map (fun x => S (need x)) l) <= fuel ->
  array_items fuel
    (join_with (encode (S level)) ("," ++ newline_indent (S level)) (x :: l)
     ++ newline_indent level ++ String "]" rest) acc
  = Ok (JArr (rev acc ++ x :: l), rest).
Proof.
induction l as [|y l IH]; intros Hall Hwf x acc fuel Hx Hwx Hfuel.
- destruct fuel as [|f]; [lia|]. cbn [join_with array_items].
  rewrite (Hx Hwx (S level) _ f) by (reflexivity || (cbn in Hfuel; lia)).
  cbn [res_bind fst snd]. rewrite skip_ws_newline_indent.
  cbn [append skip_ws is_ws]. cbn. reflexivity.
- destruct fuel as [|f]; [lia|].
  rewrite join_with_cons. cbn [array_items].
  rewrite !append_assoc.
  cbn [map] in Hfuel. rewrite list_sum_cons in Hfuel.
  rewrite (Hx Hwx (S level) _ f) by (reflexivity || lia).
  cbn [res_bind fst snd]. cbn [append skip_ws].
  change (is_ws ",") with false. cbn iota.
  change (Ascii.eqb "," "]") with false. change (Ascii.eqb "," ",") with true. cbn iota.
  rewrite skip_ws_newline_indent.
  rewrite skip_ws_value by (apply starts_value_app, join_starts_value).
  inversion Hall as [|? ? Hy Hall']; subst.
  cbn [forallb] in Hwf. apply andb_true_iff in Hwf. destruct Hwf as [Hwy Hwf].
  change (String "," (newline_indent (S level)))
    with ("," ++ newline_indent (S level))%string.
  rewrite (IH Hall' Hwf y (x :: acc) f Hy Hwy) by lia.
  cbn [rev]. now rewrite <- app_assoc.
Qed.

(** Decide the comparisons of two known characters. *)
Ltac eval_eqb :=
repeat match goal with
       | |- context [Ascii.eqb ?a ?b] =>
           let v := eval vm_compute in (Ascii.eqb a b) in
           match v with
           | true => change (Ascii.eqb a b) with true
           | false => change (Ascii.eqb a b) with false
           end
       | |- context [is_ws ?a] =>
           let v := eval vm_compute in (is_ws a) in
           match v with
           | true => change (is_ws a) with true
           | false => change (is_ws a) with false
           end
       end; cbn iota.


Lemma member_text level kv tail :
(member level kv ++ tail)%string
= String dquote (encode_chars (fst kv)
                 ++ String dquote (String ":" (String " " (encode (S level) (snd kv) ++ tail)))).
Proof.
unfold member, encode_string. cbn [append].
rewrite !append_assoc. cbn [append]. reflexivity.
Qed.

Lemma object_members_encode level rest :
forall d, Forall (fun kv => reads_back (snd kv)) d ->
          forallb (fun kv => wf (snd kv)) d = true ->
forall k x acc fuel,
  reads_back x -> wf x = true ->
  S (need x) + list_sum (map (fun kv => S (need (snd kv))) d) <= fuel ->
  object_members fuel
    (encode_chars k
     ++ String dquote (String ":" (String " " (encode (S level) x
          ++ match d with
             | [] => EmptyString
             | _ => ("," ++ newline_indent (S level))
                    ++ join_with (member level) ("," ++ newline_indent (S level)) d
             end
          ++ newline_indent level ++ String "}" rest)))) acc
  = Ok (JObj (dict_of_pairs (rev acc ++ (k, x) :: d)), rest).
Proof.
induction d as [|[k' y] d IH]; intros Hall Hwf k x acc fuel Hx Hwx Hfuel.
- destruct fuel as [|f]; [lia|]. cbn [object_members].
  rewrite scanstring_encode. cbn [res_bind fst snd skip_ws]. eval_eqb.
  cbn [skip_ws]. eval_eqb.
  rewrite skip_ws_value by (apply starts_value_app, encode_starts_value).
  cbn [append].
  rewrite (Hx Hwx (S level) _ f) by (reflexivity || (cbn in Hfuel; lia)).
  cbn [res_bind fst snd]. rewrite skip_ws_newline_indent.
  cbn [skip_ws]. eval_eqb. reflexivity.
- destruct fuel as [|f]; [lia|]. cbn [object_members].
  rewrite scanstring_encode. cbn [res_bind fst snd skip_ws]. eval_eqb.
  cbn [skip_ws]. eval_eqb.
  rewrite skip_ws_value by (apply starts_value_app, encode_starts_value).
  cbn [map] in Hfuel. rewrite list_sum_cons in Hfuel. cbn [snd] in Hfuel.
  rewrite (Hx Hwx (S level) _ f) by (reflexivity || lia).
  cbn [res_bind fst snd]. rewrite !append_assoc. cbn [append skip_ws]. eval_eqb.
  rewrite skip_ws_newline_indent.
  change (String "," (newline_indent (S level)))
    with ("," ++ newline_indent (S level))%string.
  rewrite join_with_cons, append_assoc, member_text.
  cbn [skip_ws]. eval_eqb. cbn [fst snd].
  inversion Hall as [|? ? Hy Hall']; subst. cbn [snd] in Hy.
  cbn [forallb snd] in Hwf. apply andb_true_iff in Hwf. destruct Hwf as [Hwy Hwf].
  rewrite (IH Hall' Hwf k' y ((k, x) :: acc) f Hy Hwy) by lia.
  cbn [rev]. now rewrite <- app_assoc.
Qed.

(** Every value without a repeated key is read back from its encoding. *)
Lemma scan_once_encode : forall v, reads_back v.
Proof.
apply json_induction; unfold reads_back at -1.
- intros _ level rest [|f] Hf Hr; [cbn in Hf; lia | destruct rest; reflexivity].
- intros [] _ level rest [|f] Hf Hr; (cbn in Hf; lia) || (destruct rest; reflexivity).
- intros z _ level rest [|f] Hf Hr; [cbn in Hf; lia|]. now apply scan_once_int.
- intros s _ level rest [|f] Hf Hr; [cbn in Hf; lia|]. apply scan_once_string.
- intros [|x l] Hall Hwf level rest [|f] Hf Hr; try (cbn in Hf; lia); [reflexivity|].
  cbn [wf forallb] in Hwf. apply andb_true_iff in Hwf. destruct Hwf as [Hwx Hwl].
  inversion Hall as [|? ? Hx Hall']; subst.
  cbn [encode]. rewrite !append_assoc. cbn [append scan_once]. eval_eqb.
  change (String "," (newline_indent (S level)))
    with ("," ++ newline_indent (S level))%string.
  rewrite skip_ws_newline_indent.
  rewrite skip_ws_value by (apply starts_value_app, join_starts_value).
  destruct (starts_value_app _ (newline_indent level ++ String "]" rest)
              (join_starts_value (S level) ("," ++ newline_indent (S level)) x l))
    as [c [r [E [_ Hc]]]].
  rewrite E, Hc, <- E.
  rewrite (array_items_encode level rest l Hall' Hwl x [] f Hx Hwx); [reflexivity|].
  cbn [need map] in Hf. rewrite list_sum_cons in Hf. lia.
- intros [|[k x] d] Hall Hwf level rest [|f] Hf Hr; try (cbn in Hf; lia); [reflexivity|].
  cbn [wf forallb snd] in Hwf.
  apply andb_true_iff in Hwf. destruct Hwf as [Hu Hwf].
  apply andb_true_iff in Hwf. destruct Hwf as [Hwx Hwd].
  inversion Hall as [|? ? Hx Hall']; subst. cbn [snd] in Hx.
  cbn [encode]. fold (member level).
  rewrite !append_assoc. cbn [append scan_once]. eval_eqb.
  change (String "," (newline_indent (S level)))
    with ("," ++ newline_indent (S level))%string.
  rewrite skip_ws_newline_indent.
  rewrite join_with_cons, append_assoc, member_text.
  cbn [skip_ws fst snd]. eval_eqb.
  rewrite (object_members_encode level rest d Hall' Hwd k x [] f Hx Hwx).
  + cbn [rev app]. now rewrite dict_of_pairs_unique.
  + cbn [need map] in Hf. rewrite list_sum_cons in Hf. cbn [snd] in Hf. lia.
Qed.

(** *** Enough fuel *)

Lemma length_newline_indent k : String.length (newline_indent k) = S k.
Proof. unfold newline_indent. cbn. f_equal. induction k; cbn; auto. Qed.

Lemma join_with_length {A} (enc : A -> string) (cost : A -> nat) sep l :
Forall (fun x => cost x <= String.length (enc x)) l ->
1 <= String.length sep ->
list_sum (map (fun x => S (cost x)) l) <= String.length (join_with enc sep l) + 1.
Proof.
intros Hall Hsep. induction Hall as [|x l Hx Hall IH]; [cbn; lia|].
rewrite join_with_cons, length_append. cbn [map]. rewrite list_sum_cons.
destruct l as [|y l'].
- cbn. lia.
- rewrite length_append. lia.
Qed.

Lemma need_le_length : forall v level, need v <= String.length (encode level v).
Proof.
apply (json_induction (fun v => forall level, need v <= String.length (encode level v))).
- intros level. cbn. lia.
- intros [] level; cbn; lia.
- intros z level. destruct (of_Z_head z) as [c [r [E _]]]. cbn [encode need].
  rewrite E. cbn. lia.
- intros s level. cbn. lia.
- intros [|x l] Hall level; [cbn; lia|].
  assert (Hsep : 1 <= String.length ("," ++ newline_indent (S level))) by (cbn; lia).
  assert (Hj := join_with_length (encode (S level)) need _ (x :: l)
                  (Forall_impl _ (fun a Ha => Ha (S level)) Hall) Hsep).
  cbn [encode need]. rewrite !length_append, !length_newline_indent.
  cbn [String.length]. lia.
- intros [|kv d] Hall level; [cbn; lia|].
  assert (Hsep : 1 <= String.length ("," ++ newline_indent (S level))) by (cbn; lia).
  assert (Hm : Forall (fun kv => need (snd kv) <= String.length (member level kv)) (kv :: d)).
  { eapply Forall_impl; [| exact Hall]. intros a Ha.
    unfold member. rewrite !length_append. specialize (Ha (S level)). lia. }
  assert (Hj := join_with_length (member level) (fun kv => need (snd kv)) _ (kv :: d) Hm Hsep).
  cbn [encode need]. fold (member level).
  rewrite !length_append, !length_newline_indent.
  cbn [String.length]. lia.
Qed.

(** [json.loads(json.dumps(v, indent="\t"))] is [v]. *)
Lemma loads_dumps v : wf v = true -> loads (dumps v) = Ok v.
Proof.
intros Hwf. unfold loads, dumps.
rewrite skip_ws_value by apply encode_starts_value.
rewrite <- (append_nil_r (encode 0 v)) at 2.
rewrite (scan_once_encode v Hwf 0 EmptyString).
- reflexivity.
- pose proof (need_le_length v 0). lia.
- reflexivity.
Qed.

End JsonFacts.

(** X25: for every cache whose numbers are integers and whose strings hold
    code points below 256 only, the values of this development, and in
    which no mapping has a key twice, saving it to the cache file and
    loading the file returns the cache. *)
Theorem X25_save_load_roundtrip (cache : json) (st : state) :
  Json.wf cache = true ->
  exists st',
    (save_chain_details cache ;; load_chain_details) st = (Ok cache, st') /\
    files st' CHAIN_DETAILS_PATH = Some (Json.dumps cache).
Proof.
  intros Hwf. eexists.
  unfold save_chain_details, load_chain_details, write_file, path_exists, read_file,
    bind, emit, lift, ret. cbn [files extend].
  rewrite String.eqb_refl. cbn [files]. rewrite String.eqb_refl.
  rewrite (JsonFacts.loads_dumps cache Hwf).
  split; [reflexivity|]. cbn [files]. now rewrite String.eqb_refl.
Qed.

Lemma X25_save_load_roundtrip_witness :
  exists st',
    (save_chain_details sample_cache ;; load_chain_details) (fresh no_files [])
    = (Ok sample_cache, st') /\
    files st' CHAIN_DETAILS_PATH = Some (Json.dumps sample_cache).
Proof.
  apply (X25_save_load_roundtrip sample_cache (fresh no_files [])). reflexivity.
Defined.

(* ================================================================== *)
(** ** What the functions do to the world *)

Module Effects.

Lemma grows_refl P st : grows P st st.
Proof. exists []. now rewrite app_nil_r. Qed.

Lemma grows_trans P st1 st2 st3 : grows P st1 st2 -> grows P st2 st3 -> grows P st1 st3.
Proof.
  intros [evs [Hf [Ht [Hp Hk]]]] [evs' [Hf' [Ht' [Hp' Hk']]]].
  exists (evs ++ evs')%list. split; [congruence|].
  split; [now rewrite Ht', Ht, app_assoc|].
  split; [now rewrite forallb_app, Hp, Hp'|].
  rewrite Hk', Hk, skipn_skipn, filter_app, length_app. f_equal. lia.
Qed.

Lemma grows_extend P st evs :
  forallb P evs = true -> filter is_input evs = [] -> grows P st (extend st evs).
Proof. intros H Hi. exists evs. rewrite Hi. now repeat split. Qed.

Lemma grows_weaken (P Q : event -> bool) st st' :
  (forall e, P e = true -> Q e = true) -> grows P st st' -> grows Q st st'.
Proof.
  intros HPQ [evs [Hf [Ht [Hp Hk]]]]. exists evs. repeat split; auto.
  apply forallb_forall. intros e He. apply HPQ.
  rewrite forallb_forall in Hp. now apply Hp.
Qed.

Lemma runs_weaken {A} (P Q : event -> bool) (m : M A) :
  (forall e, P e = true -> Q e = true) -> runs P m -> runs Q m.
Proof. intros HPQ H st. eapply grows_weaken; [exact HPQ | apply H]. Qed.

Lemma runs_ret {A} P (a : A) : runs P (ret a).
Proof. intros st. apply grows_refl. Qed.

Lemma runs_raise {A} P e : runs P (@raise A e).
Proof. intros st. apply grows_refl. Qed.

Lemma runs_lift {A} P (r : res A) : runs P (lift r).
Proof. intros st. apply grows_refl. Qed.

Lemma runs_bind {A B} P (m : M A) (k : A -> M B) :
  runs P m -> (forall a, runs P (k a)) -> runs P (bind m k).
Proof.
  intros Hm Hk st. unfold bind. specialize (Hm st).
  destruct (m st) as [[a|e|] st1]; cbn [snd] in *; try exact Hm.
  eapply grows_trans; [exact Hm | apply Hk].
Qed.

Lemma runs_try_except {A} P (m : M A) (h : exn -> M A) :
  runs P m -> (forall e, runs P (h e)) -> runs P (try_except m h).
Proof.
  intros Hm Hh st. unfold try_except. specialize (Hm st).
  destruct (m st) as [[a|e|] st1]; cbn [snd] in *; try exact Hm.
  eapply grows_trans; [exact Hm | apply Hh].
Qed.

Lemma runs_emit P e : P e = true -> is_input e = false -> runs P (emit e).
Proof. intros H Hi st. apply grows_extend; cbn; [now rewrite H | now rewrite Hi]. Qed.

Lemma runs_print P m : P (EvPrint m) = true -> runs P (print m).
Proof. intros H. now apply runs_emit. Qed.

Lemma runs_sleep P n : P (EvSleep n) = true -> runs P (sleep n).
Proof. intros H. now apply runs_emit. Qed.

Lemma runs_http_get P net target : P (EvGet target) = true -> runs P (http_get net target).
Proof.
  intros H st. unfold http_get.
  destruct (on_get net (trace st) target); apply grows_extend; cbn; now rewrite ?H.
Qed.

Lemma runs_http_post P net target payload timeout :
  P (EvPost target payload timeout) = true -> runs P (http_post net target payload timeout).
Proof.
  intros H st. unfold http_post.
  destruct (on_post net (trace st) target); apply grows_extend; cbn; now rewrite ?H.
Qed.

Lemma runs_input P chain_id : P (EvInput chain_id) = true -> runs P (input chain_id).
Proof.
  intros H st. unfold input, bind, emit. cbn [stdin extend].
  exists [EvInput chain_id].
  destruct (stdin st) as [|line rest] eqn:E; cbn; rewrite H, ?E; repeat split.
Qed.

Lemma runs_response_json P r : runs P (response_json r).
Proof. unfold response_json. destruct (json_body r); [apply runs_ret | apply runs_raise]. Qed.

Lemma runs_read_file P path : runs P (read_file path).
Proof. intros st. unfold read_file. destruct (files st path); apply grows_refl. Qed.

Lemma runs_path_exists P path : runs P (path_exists path).
Proof. intros st. apply grows_refl. Qed.

Lemma runs_filterM {A} P (f : A -> M bool) l :
  (forall x, runs P (f x)) -> runs P (filterM f l).
Proof.
  intros Hf. induction l as [|x l IH]; cbn [filterM]; [apply runs_ret|].
  apply runs_bind; [apply Hf|]. intros keep.
  apply runs_bind; [exact IH|]. intros rest. apply runs_ret.
Qed.

Lemma runs_foldM {A B} P (f : A -> B -> M A) l :
  (forall a x, runs P (f a x)) -> forall a, runs P (foldM f a l).
Proof.
  intros Hf. induction l as [|x l IH]; intros a; cbn [foldM]; [apply runs_ret|].
  apply runs_bind; [apply Hf | exact IH].
Qed.

(** Break a computation into its steps. *)
Ltac runs_steps :=
  repeat match goal with
         | |- runs _ (ret _) => apply runs_ret
         | |- runs _ (raise _) => apply runs_raise
         | |- runs _ (lift _) => apply runs_lift
         | |- runs _ (response_json _) => apply runs_response_json
         | |- runs _ (read_file _) => apply runs_read_file
         | |- runs _ (path_exists _) => apply runs_path_exists
         | |- runs _ (print _) => apply runs_print; reflexivity
         | |- runs _ (sleep _) => apply runs_sleep; reflexivity
         | |- runs _ (http_get _ _) => apply runs_http_get; reflexivity
         | |- runs _ (http_post _ _ _ _) => apply runs_http_post; reflexivity
         | |- runs _ (input _) => apply runs_input; reflexivity
         | |- runs _ (bind _ _) => apply runs_bind; [| intros ?]
         | |- runs _ (try_except _ _) => apply runs_try_except; [| intros ?]
         | |- runs _ (if ?b then _ else _) => destruct b
         end.

Lemma check_rpc_runs net rpc : runs (fun e => is_print e || is_post e) (check_rpc net rpc).
Proof. unfold check_rpc. runs_steps. Qed.

Lemma get_chain_details_runs net chain_id :
  runs (fun e => is_print e || is_request e) (get_chain_details net chain_id).
Proof.
  unfold get_chain_details. runs_steps.
  apply runs_filterM. intros x.
  eapply runs_weaken; [| apply check_rpc_runs]. now intros [].
Qed.

Lemma icon_search_runs net all_names names :
  runs (fun e => is_print e || is_get e) (icon_search net all_names names).
Proof. induction names as [|name rest IH]; cbn [icon_search]; runs_steps. exact IH. Qed.

Lemma get_chain_icon_runs net names existing :
  runs (fun e => is_print e || is_get e) (get_chain_icon net names existing).
Proof. unfold get_chain_icon. runs_steps. apply icon_search_runs. Qed.

Lemma get_contracts_runs net : runs is_print (get_contracts net).
Proof.
  unfold get_contracts.
  change (PyStr.startswith CONTRACTS_URL "https://") with false. cbn iota.
  runs_steps.
Qed.

Lemma load_chain_details_runs : runs is_print load_chain_details.
Proof. unfold load_chain_details. runs_steps. Qed.

Lemma process_chain_runs net contracts chain_details chain_id :
  runs (fun e => negb (is_write e)) (process_chain net contracts chain_details chain_id).
Proof.
  unfold process_chain. runs_steps.
  - eapply runs_weaken; [| apply get_chain_details_runs]. now intros [].
  - eapply runs_weaken; [| apply get_chain_icon_runs]. now intros [].
Qed.

End Effects.

(* ================================================================== *)
(** ** More on the liveness filter and the fetched details (lines 29-91) *)

Lemma yields_ret {A} (Q : A -> Prop) a : Q a -> yields Q (ret a).
Proof. intros H st x st' E. injection E as <- _. exact H. Qed.

Lemma yields_lift {A} (Q : A -> Prop) (r : res A) :
  (forall a, r = Ok a -> Q a) -> yields Q (lift r).
Proof. intros H st x st' E. injection E as -> _. now apply H. Qed.

Lemma yields_bind {A B} (Q : B -> Prop) (m : M A) (k : A -> M B) :
  (forall a, yields Q (k a)) -> yields Q (bind m k).
Proof.
  intros H st b st' E. unfold bind in E.
  destruct (m st) as [[a|e|] st1]; try discriminate. exact (H a st1 b st' E).
Qed.

Lemma yields_bind_with {A B} (R : A -> Prop) (Q : B -> Prop) (m : M A) (k : A -> M B) :
  yields R m -> (forall a, R a -> yields Q (k a)) -> yields Q (bind m k).
Proof.
  intros HR H st b st' E. unfold bind in E.
  destruct (m st) as [[a|e|] st1] eqn:Em; try discriminate.
  exact (H a (HR st a st1 Em) st1 b st' E).
Qed.

(** On a list of addresses, over a network whose health-check answers do
    not change, the effectful filter is the plain filter. *)
Lemma filterM_check_rpc_stable net post targets :
  (forall tr target, on_post net tr target = post target) ->
  forall st, exists evs,
    filterM (check_rpc net) (map JStr targets) st
    = (Ok (map JStr (filter (expected_alive post) targets)), extend st evs) /\
    forallb (fun e => is_print e || is_post e) evs = true /\
    List.length (filter is_request evs) <= List.length targets.
Proof.
  intros Hpost. induction targets as [|u targets IH]; intros st.
  - exists []. rewrite extend_nil. repeat split. cbn. lia.
  - cbn [map filterM filter]. unfold bind at 1.
    assert (Hu : exists evs,
               check_rpc net (JStr u) st = (Ok (expected_alive post u), extend st evs) /\
               forallb (fun e => is_print e || is_post e) evs = true /\
               List.length (filter is_request evs) <= 1).
    { unfold check_rpc, expected_alive, bind, print, emit, lift, try_except, http_post.
      cbn [Py.as_str].
      destruct (PyStr.startswith u "wss://"); [eexists; repeat split; cbn; lia|].
      destruct (PyStr.contains "infura" (PyStr.lower u)); [eexists; repeat split; cbn; lia|].
      rewrite Hpost. destruct (post u) as [r|e].
      - destruct (status_code r =? 200)%Z; cbn [ret]; rewrite extend_extend;
          eexists; repeat split; cbn; lia.
      - cbn [ret]. rewrite !extend_extend. eexists; repeat split; cbn; lia. }
    destruct Hu as [evs [-> [Hp Hn]]].
    unfold bind at 1. destruct (IH (extend st evs)) as [evs' [-> [Hp' Hn']]].
    unfold ret. rewrite extend_extend. exists (evs ++ evs')%list.
    split; [destruct (expected_alive post u); reflexivity|].
    split; [now rewrite forallb_app, Hp, Hp'|].
    rewrite filter_app, length_app. cbn [List.length]. lia.
Qed.

(** What [get_chain_details] does after a 200 response with a JSON body. *)
Lemma get_chain_details_served net chain_id st r body :
  on_get net (trace st) (chain_url chain_id) = Responded r ->
  status_code r = 200%Z ->
  json_body r = Some body ->
  get_chain_details net chain_id st
  = (rpcs <- lift (Py.get body "rpc" (JArr [])) ;;
     candidates <- lift (Py.iter rpcs) ;;
     live_rpcs <- filterM (check_rpc net) candidates ;;
     details <- lift (Py.setitem body "rpc" (JArr live_rpcs)) ;;
     cid <- lift (Py.getitem details "chainId") ;;
     details <- lift (Py.setitem details "chainId" (JStr (PyRepr.str cid))) ;;
     (if Nat.eqb (List.length live_rpcs) 0
      then print (MsgNoLiveProviders chain_id) else ret tt) ;;
     ret details) (extend st [EvGet (chain_url chain_id)]).
Proof.
  intros Hget Hstatus Hbody.
  unfold get_chain_details. unfold bind at 1. unfold http_get.
  fold (chain_url chain_id). rewrite Hget, Hstatus. cbn [negb Z.eqb Pos.eqb].
  unfold response_json. rewrite Hbody. reflexivity.
Qed.

(** X1: when the details of a chain are served with a list of addresses
    and a chain id, over a network whose health-check answers do not change
    with time, the record returned is the body with its chain id turned
    into a string and its [rpc] list filtered, in order, by what the check
    decides for each address; one GET and at most one POST per address are
    sent. *)
Theorem X1_live_rpcs_are_the_filter (net : network) (post : string -> reply)
        (chain_id : string) (st : state) (r : response)
        (fields : list (string * json)) (targets : list string) (cid : json) :
  on_get net (trace st) (chain_url chain_id) = Responded r ->
  status_code r = 200%Z ->
  json_body r = Some (JObj fields) ->
  Dict.get "rpc" fields = Some (JArr (map JStr targets)) ->
  Dict.get "chainId" fields = Some cid ->
  (forall tr target, on_post net tr target = post target) ->
  exists evs,
    get_chain_details net chain_id st
    = (Ok (JObj (Dict.set "chainId" (JStr (PyRepr.str cid))
                   (Dict.set "rpc" (JArr (map JStr (filter (expected_alive post) targets)))
                             fields))),
       extend st evs) /\
    List.length (filter is_request evs) <= 1 + List.length targets.
Proof.
  intros Hget Hstatus Hbody Hrpc Hcid Hpost.
  rewrite (get_chain_details_served _ _ _ _ _ Hget Hstatus Hbody).
  unfold bind at 1. cbn [lift Py.get]. rewrite Hrpc.
  unfold bind at 1. cbn [lift Py.iter]. unfold bind at 1.
  destruct (filterM_check_rpc_stable net post targets Hpost
              (extend st [EvGet (chain_url chain_id)])) as [evs [-> [_ Hn]]].
  unfold bind at 1. cbn [lift Py.setitem].
  unfold bind at 1. cbn [Py.getitem].
  rewrite DictFacts.get_set_other by discriminate. rewrite Hcid.
  unfold bind at 1. cbn [lift Py.setitem]. unfold bind at 1.
  rewrite extend_extend.
  destruct (Nat.eqb _ 0).
  - unfold print, emit, ret. rewrite extend_extend. eexists. split; [reflexivity|].
    rewrite !filter_app, !length_app. cbn. lia.
  - unfold ret. eexists. split; [reflexivity|].
    rewrite !filter_app, !length_app. cbn. lia.
Qed.

Lemma X1_live_rpcs_are_the_filter_witness :
  exists evs,
    get_chain_details
      (net_serving (chain_url "1") (JObj sample_details) (post_only "https://ok.example"))
      "1" (fresh no_files [])
    = (Ok (JObj (Dict.set "chainId" (JStr "1")
                   (Dict.set "rpc" (JArr (map JStr ["https://mainnet.infura.io/v3/key";
                                                    "https://ok.example"]))
                             sample_details))),
       extend (fresh no_files []) evs) /\
    List.length (filter is_request evs) <= 5.
Proof.
  apply (X1_live_rpcs_are_the_filter
           (net_serving (chain_url "1") (JObj sample_details) (post_only "https://ok.example"))
           (post_only "https://ok.example") "1" (fresh no_files [])
           {| status_code := 200; url := chain_url "1"; json_body := Some (JObj sample_details) |}
           sample_details
           ["wss://node.example"; "https://mainnet.infura.io/v3/key";
            "https://ok.example"; "https://dead.example"]
           (JInt 1)); reflexivity.
Defined.

(** What the filter keeps, on any network: entries of the list it was
    given, each a string that does not start with [wss://]. *)
Lemma filterM_check_rpc_kept net l :
  forall st live st',
    filterM (check_rpc net) l st = (Ok live, st') ->
    Forall (fun x => In x l /\ exists s, x = JStr s /\ PyStr.startswith s "wss://" = false) live /\
    List.length live <= List.length l.
Proof.
  induction l as [|x l IH]; intros st live st' E.
  - injection E as <- _. split; [constructor | reflexivity].
  - cbn [filterM] in E. unfold bind at 1 in E.
    destruct (check_rpc net x st) as [[keep|e|] st1] eqn:Ex; try discriminate.
    unfold bind at 1 in E.
    destruct (filterM (check_rpc net) l st1) as [[rest|e|] st2] eqn:El; try discriminate.
    injection E as <- _.
    destruct (IH _ _ _ El) as [Hall Hlen].
    assert (Hrest : Forall (fun y => In y (x :: l) /\
                       exists s, y = JStr s /\ PyStr.startswith s "wss://" = false) rest).
    { eapply Forall_impl; [| exact Hall]. intros y [Hy Hs]. split; [now right | exact Hs]. }
    destruct keep; [| split; [exact Hrest | cbn; lia]].
    split; [| cbn; lia]. constructor; [| exact Hrest].
    split; [now left|].
    destruct x as [| b | z | s | l0 | d]; try discriminate Ex.
    exists s. split; [reflexivity|].
    unfold check_rpc, bind, print, emit, lift in Ex. cbn [Py.as_str] in Ex.
    destruct (PyStr.startswith s "wss://"); [discriminate Ex | reflexivity].
Qed.

(** X2: on any network, a record that [get_chain_details] returns for a
    served mapping is that mapping with two entries set: [chainId], now a
    string, and [rpc], a list of entries of the list served, none of them
    starting with [wss://]; every other entry is as served. *)
Theorem X2_details_change_two_entries (net : network) (chain_id : string) (st st' : state)
        (r : response) (fields : list (string * json)) (v : json) :
  on_get net (trace st) (chain_url chain_id) = Responded r ->
  status_code r = 200%Z ->
  json_body r = Some (JObj fields) ->
  get_chain_details net chain_id st = (Ok v, st') ->
  exists record live cid candidates,
    v = JObj record /\
    Dict.get "chainId" fields = Some cid /\
    Dict.get "chainId" record = Some (JStr (PyRepr.str cid)) /\
    Py.iter (match Dict.get "rpc" fields with Some x => x | None => JArr [] end) = Ok candidates /\
    Dict.get "rpc" record = Some (JArr live) /\
    Forall (fun x => In x candidates /\
                     exists s, x = JStr s /\ PyStr.startswith s "wss://" = false) live /\
    forall k, k <> "rpc" -> k <> "chainId" -> Dict.get k record = Dict.get k fields.
Proof.
  intros Hget Hstatus Hbody E.
  rewrite (get_chain_details_served _ _ _ _ _ Hget Hstatus Hbody) in E.
  unfold bind at 1 in E. cbn [lift Py.get] in E.
  unfold bind at 1 in E. cbn [lift] in E.
  destruct (Py.iter _) as [candidates|e|] eqn:Hiter; try discriminate.
  unfold bind at 1 in E.
  destruct (filterM (check_rpc net) candidates _) as [[live|e|] st1] eqn:Hf; try discriminate.
  unfold bind at 1 in E. cbn [lift Py.setitem] in E.
  unfold bind at 1 in E. cbn [Py.getitem] in E.
  rewrite DictFacts.get_set_other in E by discriminate.
  destruct (Dict.get "chainId" fields) as [cid|] eqn:Hcid; try discriminate.
  unfold bind at 1 in E. cbn [lift Py.setitem] in E. unfold bind at 1 in E.
  assert (Hv : v = JObj (Dict.set "chainId" (JStr (PyRepr.str cid))
                           (Dict.set "rpc" (JArr live) fields))).
  { destruct (Nat.eqb _ 0); unfold print, emit, ret in E; now injection E as <- _. }
  subst v. eexists _, live, cid, candidates.
  split; [reflexivity|]. split; [reflexivity|].
  split; [apply DictFacts.get_set_same|].
  split; [reflexivity|].
  split; [rewrite DictFacts.get_set_other by discriminate; apply DictFacts.get_set_same|].
  split; [apply (filterM_check_rpc_kept _ _ _ _ _ Hf)|].
  intros k Hr Hc. rewrite !DictFacts.get_set_other by congruence. reflexivity.
Qed.

(* ================================================================== *)
(** ** Counting requests *)

Lemma within_weaken {A} n n' P (m : M A) : n <= n' -> within n P m -> within n' P m.
Proof.
  intros Hn H st. destruct (H st) as [evs [E [Hp Hl]]].
  exists evs. repeat split; auto. lia.
Qed.

Lemma within_ret {A} P (a : A) : within 0 P (ret a).
Proof. intros st. exists []. now rewrite extend_nil. Qed.

Lemma within_raise {A} P e : within 0 P (@raise A e).
Proof. intros st. exists []. now rewrite extend_nil. Qed.

Lemma within_lift {A} P (r : res A) : within 0 P (lift r).
Proof. intros st. exists []. now rewrite extend_nil. Qed.

Lemma within_response_json P r : within 0 P (response_json r).
Proof. unfold response_json. destruct (json_body r); [apply within_ret | apply within_raise]. Qed.

Lemma within_print P m : P (EvPrint m) = true -> within 0 P (print m).
Proof. intros H st. exists [EvPrint m]. cbn. now rewrite H. Qed.

Lemma within_http_get P net target : P (EvGet target) = true -> within 1 P (http_get net target).
Proof.
  intros H st. exists [EvGet target]. unfold http_get.
  destruct (on_get net (trace st) target); cbn; now rewrite H.
Qed.

Lemma within_http_post P net target payload timeout :
  P (EvPost target payload timeout) = true ->
  within 1 P (http_post net target payload timeout).
Proof.
  intros H st. exists [EvPost target payload timeout]. unfold http_post.
  destruct (on_post net (trace st) target); cbn; now rewrite H.
Qed.

Lemma within_bind {A B} a b P (m : M A) (k : A -> M B) :
  within a P m -> (forall x, within b P (k x)) -> within (a + b) P (bind m k).
Proof.
  intros Hm Hk st. unfold bind. destruct (Hm st) as [evs [E [Hp Hl]]].
  destruct (m st) as [[x|e|] st1]; cbn [snd] in *; subst st1;
    try (exists evs; repeat split; auto; lia).
  destruct (Hk x (extend st evs)) as [evs' [E' [Hp' Hl']]].
  exists (evs ++ evs')%list. rewrite E', extend_extend. split; [reflexivity|].
  split; [now rewrite forallb_app, Hp, Hp'|].
  rewrite filter_app, length_app. lia.
Qed.

Lemma within_try_except {A} a b P (m : M A) (h : exn -> M A) :
  within a P m -> (forall e, within b P (h e)) -> within (a + b) P (try_except m h).
Proof.
  intros Hm Hh st. unfold try_except. destruct (Hm st) as [evs [E [Hp Hl]]].
  destruct (m st) as [[x|e|] st1]; cbn [snd] in *; subst st1;
    try (exists evs; repeat split; auto; lia).
  destruct (Hh e (extend st evs)) as [evs' [E' [Hp' Hl']]].
  exists (evs ++ evs')%list. rewrite E', extend_extend. split; [reflexivity|].
  split; [now rewrite forallb_app, Hp, Hp'|].
  rewrite filter_app, length_app. lia.
Qed.

Lemma within_if {A} n P (b : bool) (m1 m2 : M A) :
  within n P m1 -> within n P m2 -> within n P (if b then m1 else m2).
Proof. now destruct b. Qed.

(** A step that asks nothing, then the rest. *)
Lemma within_then {A B} n P (m : M A) (k : A -> M B) :
  within 0 P m -> (forall x, within n P (k x)) -> within n P (bind m k).
Proof. intros Hm Hk. change n with (0 + n). now apply within_bind. Qed.

Lemma check_rpc_within net rpc :
  within 1 (fun e => is_print e || is_post e) (check_rpc net rpc).
Proof.
  unfold check_rpc.
  apply within_then; [now apply within_print|]. intros _.
  apply within_then; [apply within_lift|]. intros s.
  apply within_if; [eapply within_weaken; [| apply within_ret]; lia|].
  apply within_if; [eapply within_weaken; [| apply within_ret]; lia|].
  change 1 with (1 + 0). apply within_try_except.
  - change 1 with (1 + 0). apply within_bind; [now apply within_http_post|].
    intros r. apply within_if; apply within_ret.
  - intros e. apply within_then; [now apply within_print | intros _; apply within_ret].
Qed.

Lemma filterM_check_rpc_within net l :
  within (List.length l) (fun e => is_print e || is_post e) (filterM (check_rpc net) l).
Proof.
  induction l as [|x l IH]; cbn [filterM List.length]; [apply within_ret|].
  change (S (List.length l)) with (1 + List.length l).
  apply within_bind; [apply check_rpc_within|]. intros keep.
  rewrite <- (Nat.add_0_r (List.length l)).
  apply within_bind; [exact IH | intros rest; apply within_ret].
Qed.

Lemma icon_search_within net all_names names :
  within (3 * List.length names) (fun e => is_print e || is_get e)
         (icon_search net all_names names).
Proof.
  induction names as [|name rest IH]; cbn [icon_search].
  - apply within_then; [now apply within_print | intros _; apply within_ret].
  - replace (3 * List.length (name :: rest)) with (1 + (1 + (1 + 3 * List.length rest)))
      by (cbn [List.length]; lia).
    apply within_then; [now apply within_print|]. intros _.
    apply within_bind; [now apply within_http_get|]. intros r1.
    apply within_if.
    { eapply within_weaken with (n := 0); [lia|].
      repeat (apply within_then;
              [first [apply within_response_json | apply within_lift | now apply within_print]
              | intros ?]).
      apply within_ret. }
    apply within_bind; [now apply within_http_get|]. intros r2.
    apply within_if.
    { eapply within_weaken with (n := 0); [lia|].
      apply within_then; [now apply within_print | intros _; apply within_ret]. }
    apply within_bind; [now apply within_http_get|]. intros r3.
    apply within_if; [| exact IH].
    eapply within_weaken with (n := 0); [lia|].
    apply within_then; [now apply within_print | intros _; apply within_ret].
Qed.

(* ================================================================== *)
(** ** More on the icon of a chain (lines 94-136) *)

(** X6: whatever the network answers and however it ends, [get_chain_icon]
    leaves files and standard input alone, prints and sends GET requests
    only, and sends at most three requests per candidate name. *)
Theorem X6_icon_requests_bounded (net : network) (names : list string)
        (existing : json) (st : state) :
  exists evs,
    snd (get_chain_icon net names existing st) = extend st evs /\
    forallb (fun e => is_print e || is_get e) evs = true /\
    List.length (filter is_request evs) <= 3 * List.length names.
Proof.
  revert st. change (within (3 * List.length names) (fun e => is_print e || is_get e)
                            (get_chain_icon net names existing)).
  unfold get_chain_icon.
  apply within_then; [apply within_lift|]. intros icon.
  apply within_if; [| apply icon_search_within].
  eapply within_weaken with (n := 0); [lia|].
  apply within_then; [apply within_lift|]. intros name.
  apply within_then; [now apply within_print | intros _; apply within_ret].
Qed.

Lemma yields_if {A} (Q : A -> Prop) (b : bool) (m1 m2 : M A) :
  yields Q m1 -> yields Q m2 -> yields Q (if b then m1 else m2).
Proof. now destruct b. Qed.

Lemma icon_search_descriptor net all_names names :
  yields (fun v => exists u format, v = JObj [("url", JStr u); ("format", format)])
         (icon_search net all_names names).
Proof.
  induction names as [|name rest IH]; cbn [icon_search].
  - apply yields_bind. intros _. apply yields_ret. unfold default_icon. eauto.
  - repeat (apply yields_bind; intros ?).
    repeat (apply yields_if; repeat (apply yields_bind; intros ?));
      try (apply yields_ret; eauto).
    exact IH.
Qed.

(** X5: on any network, for an existing record without an icon, what
    [get_chain_icon] returns is always a descriptor, a mapping with exactly
    a [url], a string, and a [format]; it is never [None]. *)
Theorem X5_icon_is_a_descriptor (net : network) (names : list string)
        (existing : list (string * json)) (st st' : state) (v : json) :
  Py.truthy (icon_of existing) = false ->
  get_chain_icon net names (JObj existing) st = (Ok v, st') ->
  exists u format, v = JObj [("url", JStr u); ("format", format)].
Proof.
  intros Hicon E. unfold get_chain_icon in E. unfold bind at 1 in E.
  cbn [lift Py.get] in E. fold (icon_of existing) in E. rewrite Hicon in E.
  exact (icon_search_descriptor net names names st v st' E).
Qed.

Lemma X5_icon_is_a_descriptor_witness :
  exists u format,
    JObj [("url", JStr (PyStr.path_join CRYPTO_ICONS_URL "eth.svg")); ("format", JStr "svg")]
    = JObj [("url", JStr u); ("format", format)].
Proof.
  apply (X5_icon_is_a_descriptor
           (net_only (PyStr.path_join CRYPTO_ICONS_URL "eth.svg") None)
           ["ETH"; "eth"] [("chainId", JStr "1")] (fresh no_files [])
           (snd (get_chain_icon (net_only (PyStr.path_join CRYPTO_ICONS_URL "eth.svg") None)
                                ["ETH"; "eth"] (JObj [("chainId", JStr "1")])
                                (fresh no_files []))));
    reflexivity.
Defined.

Lemma refused_get net name target st :
  refused net name -> In target (icon_urls name) ->
  exists r, http_get net target st = (Ok r, extend st [EvGet target]) /\
            (status_code r =? 200)%Z = false.
Proof.
  intros H Hin. destruct (H target (trace st) Hin) as [r [Hr Hs]].
  exists r. unfold http_get. rewrite Hr. split; [reflexivity | now apply Z.eqb_neq].
Qed.

(** The search passes over a name whose three addresses are refused. *)
Lemma icon_search_refused net all_names name rest st :
  refused net name ->
  exists evs,
    icon_search net all_names (name :: rest) st
    = icon_search net all_names rest (extend st evs) /\
    List.length (filter is_request evs) = 3.
Proof.
  intros H. cbn [icon_search]. unfold bind at 1. cbn [print emit]. unfold bind at 1.
  destruct (refused_get net name _ (extend st [EvPrint (MsgTryingIcon name)]) H
              (or_introl eq_refl)) as [r1 [-> ->]].
  unfold bind at 1.
  destruct (refused_get net name _
              (extend (extend st [EvPrint (MsgTryingIcon name)])
                      [EvGet (PyStr.path_join ICONS_URL (name ++ ".json"))]) H
              (or_intror (or_introl eq_refl))) as [r2 [-> ->]].
  unfold bind at 1.
  destruct (refused_get net name _
              (extend (extend (extend st [EvPrint (MsgTryingIcon name)])
                      [EvGet (PyStr.path_join ICONS_URL (name ++ ".json"))])
                      [EvGet (PyStr.path_join CRYPTO_ICONS_URL (name ++ ".svg"))]) H
              (or_intror (or_intror (or_introl eq_refl)))) as [r3 [-> ->]].
  rewrite !extend_extend. eexists. split; reflexivity.
Qed.

Lemma icon_search_skip net all_names pre rest :
  Forall (refused net) pre ->
  forall st, exists evs,
    icon_search net all_names (pre ++ rest) st
    = icon_search net all_names rest (extend st evs) /\
    List.length (filter is_request evs) = 3 * List.length pre.
Proof.
  induction 1 as [|name pre Hname Hpre IH]; intros st.
  - exists []. now rewrite extend_nil.
  - cbn [app].
    destruct (icon_search_refused net all_names name (pre ++ rest) st Hname) as [evs [-> Hn]].
    destruct (IH (extend st evs)) as [evs' [-> Hn']].
    rewrite extend_extend. exists (evs ++ evs')%list. split; [reflexivity|].
    rewrite filter_app, length_app, Hn, Hn'. cbn [List.length]. lia.
Qed.

Lemma prefix_app a b : String.prefix a (a ++ b) = true.
Proof.
  induction a as [|c a IH]; cbn; [now destruct b|].
  destruct (ascii_dec c c); [exact IH | contradiction].
Qed.

(** A text without the old piece is left as it is. *)
Lemma replace_absent old new s :
  PyStr.contains old s = false -> PyStr.replace s old new = s.
Proof.
  unfold PyStr.replace. induction s as [|c s IH]; [reflexivity|].
  cbn [PyStr.contains PyStr.replace_from]. intros H.
  apply orb_false_iff in H. destruct H as [Hp Hc].
  rewrite Hp. f_equal. now apply IH.
Qed.

Lemma replace_from_skip old new k a b :
  String.length a = k ->
  PyStr.replace_from old new k (a ++ b) = PyStr.replace_from old new 0 b.
Proof.
  revert k. induction a as [|c a IH]; intros k Hk; cbn in Hk; subst k; [reflexivity|].
  cbn [append PyStr.replace_from String.length]. now apply IH.
Qed.

(** An IPFS address is rewritten to the gateway. *)
Lemma replace_ipfs cid :
  PyStr.contains "ipfs://" cid = false ->
  PyStr.replace ("ipfs://" ++ cid) "ipfs://" "https://ipfs.io/ipfs/"
  = "https://ipfs.io/ipfs/" ++ cid.
Proof.
  intros H. unfold PyStr.replace.
  change ("ipfs://" ++ cid) with (String "i" ("pfs://" ++ cid)).
  cbn [PyStr.replace_from].
  change (String "i" ("pfs://" ++ cid)) with ("ipfs://" ++ cid).
  rewrite prefix_app.
  change (String.length "ipfs://" - 1) with 6.
  rewrite (replace_from_skip _ _ 6 "pfs://" cid eq_refl).
  f_equal. now apply replace_absent.
Qed.

(** X7: the first name whose entry in the icon index is served decides the
    icon, however many names were refused before it: the descriptor has the
    [format] of the first element served and its [url], with an [ipfs://]
    prefix rewritten to the HTTPS gateway; three requests were sent for
    each name passed over and one for this name, and the names after it
    are never asked. *)
Theorem X7_icon_from_index (net : network) (pre post : list string) (name : string)
        (existing info : list (string * json)) (more : list json)
        (r : response) (cid : string) (format : json) (st : state) :
  Py.truthy (icon_of existing) = false ->
  Forall (refused net) pre ->
  (forall tr, on_get net tr (PyStr.path_join ICONS_URL (name ++ ".json")) = Responded r) ->
  status_code r = 200%Z ->
  json_body r = Some (JArr (JObj info :: more)) ->
  Dict.get "url" info = Some (JStr ("ipfs://" ++ cid)) ->
  PyStr.contains "ipfs://" cid = false ->
  Dict.get "format" info = Some format ->
  exists evs,
    get_chain_icon net (pre ++ name :: post) (JObj existing) st
    = (Ok (JObj [("url", JStr ("https://ipfs.io/ipfs/" ++ cid)); ("format", format)]),
       extend st evs) /\
    List.length (filter is_request evs) = 3 * List.length pre + 1.
Proof.
  intros Hicon Hpre Hget Hstatus Hbody Hurl Hcid Hformat.
  unfold get_chain_icon. unfold bind at 1. cbn [lift Py.get].
  fold (icon_of existing). rewrite Hicon.
  destruct (icon_search_skip net (pre ++ name :: post) pre (name :: post) Hpre st)
    as [evs [-> Hn]].
  cbn [icon_search]. unfold bind at 1. cbn [print emit]. rewrite extend_extend.
  unfold bind at 1. unfold http_get. rewrite Hget, Hstatus. cbn [Z.eqb Pos.eqb].
  unfold response_json. rewrite Hbody.
  unfold bind, lift, ret, print, emit. cbn [Py.getitem_int nth_error Py.getitem].
  rewrite Hurl. cbn [Py.as_str]. rewrite Hformat, (replace_ipfs cid Hcid).
  rewrite !extend_extend. eexists. split; [reflexivity|].
  rewrite !filter_app, !length_app, Hn. cbn. lia.
Qed.

Lemma X7_icon_from_index_witness :
  exists evs,
    get_chain_icon
      (net_only (PyStr.path_join ICONS_URL "eth.json")
                (Some (JArr [JObj [("url", JStr "ipfs://QmHash"); ("width", JInt 512);
                                   ("format", JStr "png")]])))
      (["ethereum"] ++ "eth" :: ["ETH"]) (JObj [("chainId", JStr "1")]) (fresh no_files [])
    = (Ok (JObj [("url", JStr "https://ipfs.io/ipfs/QmHash"); ("format", JStr "png")]),
       extend (fresh no_files []) evs) /\
    List.length (filter is_request evs) = 3 * 1 + 1.
Proof.
  apply (X7_icon_from_index
           (net_only (PyStr.path_join ICONS_URL "eth.json")
                     (Some (JArr [JObj [("url", JStr "ipfs://QmHash"); ("width", JInt 512);
                                        ("format", JStr "png")]])))
           ["ethereum"] ["ETH"] "eth" [("chainId", JStr "1")]
           [("url", JStr "ipfs://QmHash"); ("width", JInt 512); ("format", JStr "png")] []
           {| status_code := 200; url := PyStr.path_join ICONS_URL "eth.json";
              json_body := Some (JArr [JObj [("url", JStr "ipfs://QmHash"); ("width", JInt 512);
                                             ("format", JStr "png")]]) |}
           "QmHash" (JStr "png") (fresh no_files [])); try reflexivity.
  constructor; [| constructor].
  intros target tr [<-|[<-|[<-|[]]]]; eexists; (split; [reflexivity | discriminate]).
Defined.

(** X8: when the icon index has no entry for a name but the SVG icon set
    answers, the descriptor is the address the response came from with
    format [svg]; the PNG source is not asked for this name and the names
    after it are never asked. *)
Theorem X8_icon_from_svg_set (net : network) (pre post : list string) (name : string)
        (existing : list (string * json)) (r0 r : response) (st : state) :
  Py.truthy (icon_of existing) = false ->
  Forall (refused net) pre ->
  (forall tr, on_get net tr (PyStr.path_join ICONS_URL (name ++ ".json")) = Responded r0) ->
  status_code r0 <> 200%Z ->
  (forall tr, on_get net tr (PyStr.path_join CRYPTO_ICONS_URL (name ++ ".svg")) = Responded r) ->
  status_code r = 200%Z ->
  exists evs,
    get_chain_icon net (pre ++ name :: post) (JObj existing) st
    = (Ok (JObj [("url", JStr (url r)); ("format", JStr "svg")]), extend st evs) /\
    List.length (filter is_request evs) = 3 * List.length pre + 2.
Proof.
  intros Hicon Hpre Hget0 Hstatus0 Hget Hstatus.
  unfold get_chain_icon. unfold bind at 1. cbn [lift Py.get].
  fold (icon_of existing). rewrite Hicon.
  destruct (icon_search_skip net (pre ++ name :: post) pre (name :: post) Hpre st)
    as [evs [-> Hn]].
  cbn [icon_search]. unfold bind at 1. cbn [print emit]. rewrite extend_extend.
  unfold bind at 1. unfold http_get at 1. rewrite Hget0.
  apply Z.eqb_neq in Hstatus0. rewrite Hstatus0.
  unfold bind at 1. unfold http_get at 1. rewrite Hget, Hstatus. cbn [Z.eqb Pos.eqb].
  unfold bind, print, emit, ret.
  rewrite !extend_extend. eexists. split; [reflexivity|].
  rewrite !filter_app, !length_app, Hn. cbn. lia.
Qed.

Lemma X8_icon_from_svg_set_witness :
  exists evs,
    get_chain_icon (net_only (PyStr.path_join CRYPTO_ICONS_URL "eth.svg") None)
                   (["ETH"] ++ "eth" :: []) (JObj [("chainId", JStr "1")]) (fresh no_files [])
    = (Ok (JObj [("url", JStr (PyStr.path_join CRYPTO_ICONS_URL "eth.svg"));
                 ("format", JStr "svg")]),
       extend (fresh no_files []) evs) /\
    List.length (filter is_request evs) = 3 * 1 + 2.
Proof.
  apply (X8_icon_from_svg_set
           (net_only (PyStr.path_join CRYPTO_ICONS_URL "eth.svg") None)
           ["ETH"] [] "eth" [("chainId", JStr "1")]
           {| status_code := 404; url := PyStr.path_join ICONS_URL "eth.json"; json_body := None |}
           {| status_code := 200; url := PyStr.path_join CRYPTO_ICONS_URL "eth.svg";
              json_body := None |}
           (fresh no_files [])); try reflexivity; try discriminate.
  constructor; [| constructor].
  intros target tr [<-|[<-|[<-|[]]]]; eexists; (split; [reflexivity | discriminate]).
Defined.

(** The first entry that is not a string ends the filter with
    [AttributeError]. *)
Lemma filterM_check_rpc_not_text net l :
  forallb is_text l = false ->
  forall st, exists evs,
    filterM (check_rpc net) l st = (Raise AttributeError, extend st evs).
Proof.
  induction l as [|x l IH]; intros H st; [discriminate|].
  cbn [forallb] in H. cbn [filterM]. unfold bind at 1.
  destruct (check_rpc_settles net x st) as [r [evs [Hx Hr]]]. rewrite Hx.
  destruct x as [| b | z | s | l0 | d]; try (subst r; eauto).
  destruct Hr as [alive ->]. cbn [is_text andb] in H.
  unfold bind at 1. destruct (IH H (extend st evs)) as [evs' ->].
  rewrite extend_extend. eauto.
Qed.

(** X3: when the list of addresses served for a chain holds an entry that
    is not a string, [get_chain_details] does not drop the entry: it raises
    [AttributeError] and returns no record. *)
Theorem X3_rpc_entry_not_text (net : network) (chain_id : string) (st : state)
        (r : response) (fields : list (string * json)) (entries : list json) :
  on_get net (trace st) (chain_url chain_id) = Responded r ->
  status_code r = 200%Z ->
  json_body r = Some (JObj fields) ->
  Dict.get "rpc" fields = Some (JArr entries) ->
  forallb is_text entries = false ->
  exists evs,
    get_chain_details net chain_id st = (Raise AttributeError, extend st evs).
Proof.
  intros Hget Hstatus Hbody Hrpc Htext.
  rewrite (get_chain_details_served _ _ _ _ _ Hget Hstatus Hbody).
  unfold bind at 1. cbn [lift Py.get]. rewrite Hrpc.
  unfold bind at 1. cbn [lift Py.iter]. unfold bind at 1.
  destruct (filterM_check_rpc_not_text net entries Htext
              (extend st [EvGet (chain_url chain_id)])) as [evs ->].
  rewrite extend_extend. eauto.
Qed.

Lemma X3_rpc_entry_not_text_witness :
  exists evs,
    get_chain_details
      (net_body (JObj [("chainId", JInt 1); ("rpc", JArr [JStr "wss://node.example"; JInt 8545])]))
      "1" (fresh no_files [])
    = (Raise AttributeError, extend (fresh no_files []) evs).
Proof.
  apply (X3_rpc_entry_not_text
           (net_body (JObj [("chainId", JInt 1);
                            ("rpc", JArr [JStr "wss://node.example"; JInt 8545])]))
           "1" (fresh no_files [])
           {| status_code := 200; url := chain_url "1";
              json_body := Some (JObj [("chainId", JInt 1);
                                       ("rpc", JArr [JStr "wss://node.example"; JInt 8545])]) |}
           [("chainId", JInt 1); ("rpc", JArr [JStr "wss://node.example"; JInt 8545])]
           [JStr "wss://node.example"; JInt 8545]); reflexivity.
Defined.

Lemma X2_details_change_two_entries_witness :
  exists record live cid candidates,
    JObj (Dict.set "chainId" (JStr "1")
            (Dict.set "rpc" (JArr (map JStr ["https://mainnet.infura.io/v3/key";
                                             "https://ok.example"]))
                      sample_details))
    = JObj record /\
    Dict.get "chainId" sample_details = Some cid /\
    Dict.get "chainId" record = Some (JStr (PyRepr.str cid)) /\
    Py.iter (match Dict.get "rpc" sample_details with Some x => x | None => JArr [] end)
    = Ok candidates /\
    Dict.get "rpc" record = Some (JArr live) /\
    Forall (fun x => In x candidates /\
                     exists s, x = JStr s /\ PyStr.startswith s "wss://" = false) live /\
    forall k, k <> "rpc" -> k <> "chainId" -> Dict.get k record = Dict.get k sample_details.
Proof.
  apply (X2_details_change_two_entries
           (net_serving (chain_url "1") (JObj sample_details) (post_only "https://ok.example"))
           "1" (fresh no_files [])
           (snd (get_chain_details
                   (net_serving (chain_url "1") (JObj sample_details)
                                (post_only "https://ok.example"))
                   "1" (fresh no_files [])))
           {| status_code := 200; url := chain_url "1"; json_body := Some (JObj sample_details) |}
           sample_details); reflexivity.
Defined.

(* ================================================================== *)
(** ** The candidate names (lines 201-214) *)

Lemma candidate_step (details : list (string * json)) key (names : list json) :
  res_bind (Py.get (JObj details) key JNull)
    (fun v => if Py.truthy v
              then res_bind (Py.getitem (JObj details) key) (fun x => Ok (names ++ [x])%list)
              else Ok names)
  = Ok (names ++ match Dict.get key details with
                 | Some v => if Py.truthy v then [v] else []
                 | None => []
                 end)%list.
Proof.
  cbn [Py.get Py.getitem res_bind].
  destruct (Dict.get key details) as [v|]; cbn [Py.truthy res_bind].
  - destruct (Py.truthy v); cbn [res_bind]; [reflexivity | now rewrite app_nil_r].
  - now rewrite app_nil_r.
Qed.

(** The candidates are the present name fields, read as strings, then
    their lower-case forms. *)
Lemma possible_chain_names_eq (details : list (string * json)) :
  possible_chain_names (JObj details)
  = res_bind (mapR Py.as_str (present_names details))
             (fun strs => Ok (strs ++ map PyStr.lower strs)%list).
Proof.
  unfold possible_chain_names.
  rewrite (candidate_step details "icon" []). cbn [res_bind].
  rewrite (candidate_step details "short_name"). cbn [res_bind].
  rewrite (candidate_step details "shortName"). cbn [res_bind].
  rewrite (candidate_step details "name"). cbn [res_bind].
  rewrite (candidate_step details "chain"). cbn [res_bind].
  unfold present_names, name_fields. cbn [flat_map app].
  rewrite app_nil_r, <- !app_assoc. reflexivity.
Qed.

Lemma mapR_as_str_ok l strs :
  mapR Py.as_str l = Ok strs -> l = map JStr strs.
Proof.
  revert strs. induction l as [|x l IH]; intros strs H; cbn in H.
  - now injection H as <-.
  - destruct x as [| | |s| |]; try discriminate. cbn [res_bind] in H.
    destruct (mapR Py.as_str l) as [ys| |]; try discriminate.
    injection H as <-. cbn. f_equal. now apply IH.
Qed.

Lemma mapR_as_str_raise l e : mapR Py.as_str l = Raise e -> e = AttributeError.
Proof.
  induction l as [|x l IH]; intros H; cbn in H; [discriminate|].
  destruct x as [| | |s| |]; cbn in H; try (now injection H as <-).
  destruct (mapR Py.as_str l) as [ys|e'|]; try discriminate.
  cbn in H. injection H as <-. now apply IH.
Qed.

Lemma present_names_length details : List.length (present_names details) <= 5.
Proof.
  assert (H : forall key, List.length (match Dict.get key details with
                                       | Some v => if Py.truthy v then [v] else []
                                       | None => []
                                       end) <= 1).
  { intros key. destruct (Dict.get key details) as [v|]; [destruct (Py.truthy v)|]; cbn; lia. }
  unfold present_names, name_fields. cbn [flat_map]. rewrite !length_app.
  pose proof (H "icon"). pose proof (H "short_name"). pose proof (H "shortName").
  pose proof (H "name"). pose proof (H "chain"). cbn [List.length]. lia.
Qed.

Lemma lower_char_idempotent c : PyStr.lower_char (PyStr.lower_char c) = PyStr.lower_char c.
Proof. destruct c as [[] [] [] [] [] [] [] []]; reflexivity. Qed.

Lemma lower_idempotent s : PyStr.lower (PyStr.lower s) = PyStr.lower s.
Proof.
  induction s as [|c s IH]; cbn; [reflexivity|]. now rewrite lower_char_idempotent, IH.
Qed.

(** X9: the candidate names built for a new chain are the values of the
    fields [icon], [short_name], [shortName], [name] and [chain] that are
    present and not empty, in that order, followed by the lower-case forms
    of the same values: at most ten names, the second half unchanged by
    lowercasing; and the only way the construction fails is the
    [AttributeError] of a value that is not a string. *)
Theorem X9_candidate_names (details : list (string * json)) :
  match possible_chain_names (JObj details) with
  | Ok names =>
      exists strs,
        present_names details = map JStr strs /\
        names = (strs ++ map PyStr.lower strs)%list /\
        List.length names <= 10 /\
        map PyStr.lower (map PyStr.lower strs) = map PyStr.lower strs
  | Raise e => e = AttributeError /\ forallb is_text (present_names details) = false
  | OutOfModel => False
  end.
Proof.
  rewrite possible_chain_names_eq.
  destruct (mapR Py.as_str (present_names details)) as [strs|e|] eqn:E; cbn [res_bind].
  - exists strs. pose proof (mapR_as_str_ok _ _ E) as Hs.
    split; [exact Hs|]. split; [reflexivity|]. split.
    + pose proof (present_names_length details) as Hl.
      rewrite Hs, length_map in Hl. rewrite length_app, length_map. lia.
    + rewrite map_map. apply map_ext. intros s. apply lower_idempotent.
  - split; [exact (mapR_as_str_raise _ _ E)|].
    destruct (forallb is_text (present_names details)) eqn:F; [|reflexivity].
    exfalso. clear -E F. induction (present_names details) as [|x l IH]; [discriminate|].
    cbn in F. apply andb_true_iff in F. destruct F as [Fx Fl].
    destruct x as [| | |s| |]; try discriminate. cbn in E.
    destruct (mapR Py.as_str l) as [ys|e'|]; try discriminate.
    cbn in E. injection E as <-. now apply IH.
  - clear -E. induction (present_names details) as [|x l IH]; [discriminate|].
    cbn in E. destruct x as [| | |s| |]; try discriminate. cbn in E.
    destruct (mapR Py.as_str l) as [ys|e'|]; try discriminate. now apply IH.
Qed.

(* ================================================================== *)
(** ** More on the merge (lines 185-197) *)

Lemma mem_set {V} k k' (v : V) d :
  Dict.mem k' (Dict.set k v d) = (k =? k') || Dict.mem k' d.
Proof.
  unfold Dict.mem. rewrite DictFacts.get_set.
  destruct (k =? k'); [reflexivity|]. now destruct (Dict.get k' d).
Qed.

Lemma mem_update {V} (a b : list (string * V)) k :
  Dict.mem k (Dict.update a b) = Dict.mem k a || Dict.mem k b.
Proof.
  unfold Dict.update. revert a.
  induction b as [|[kb vb] b IH]; intros a; cbn [fold_left fst snd].
  - unfold Dict.mem at 3. cbn. now rewrite orb_false_r.
  - rewrite IH, mem_set. unfold Dict.mem at 4. cbn [Dict.get].
    fold (Dict.mem k b).
    destruct (kb =? k); cbn; [now rewrite orb_true_r|].
    reflexivity.
Qed.

Lemma unique_keys_set {V} k (v : V) d :
  Dict.unique_keys d = true -> Dict.unique_keys (Dict.set k v d) = true.
Proof.
  induction d as [|[k' v'] d IH]; [reflexivity|].
  cbn [Dict.unique_keys Dict.set]. intros H.
  apply andb_true_iff in H. destruct H as [Hk Hd].
  destruct (String.eqb_spec k' k) as [->|Hne]; cbn [Dict.unique_keys];
    apply andb_true_iff; split; auto.
  rewrite mem_set. destruct (String.eqb_spec k k') as [->|_]; [contradiction | exact Hk].
Qed.

Lemma unique_keys_update {V} (a b : list (string * V)) :
  Dict.unique_keys a = true -> Dict.unique_keys (Dict.update a b) = true.
Proof.
  unfold Dict.update. revert a.
  induction b as [|[kb vb] b IH]; intros a H; cbn [fold_left fst snd]; [exact H|].
  apply IH. now apply unique_keys_set.
Qed.

(** When the merge succeeds, the four refreshed fields were in the
    fetched details, and the merged record is the union with them set. *)
Lemma merge_details_inv details cached merged :
  merge_details (JObj details) (JObj cached) = Ok (JObj merged) ->
  exists v1 v2 v3 v4,
    Dict.get "rpc" details = Some v1 /\ Dict.get "faucets" details = Some v2 /\
    Dict.get "explorers" details = Some v3 /\ Dict.get "infoURL" details = Some v4 /\
    merged = Dict.set "infoURL" v4 (Dict.set "explorers" v3 (Dict.set "faucets" v2
               (Dict.set "rpc" v1 (Dict.update details cached)))).
Proof.
  unfold merge_details, copy_field. cbn [Py.merge res_bind Py.getitem].
  destruct (Dict.get "rpc" details) as [v1|]; [|discriminate]. cbn [res_bind Py.setitem].
  destruct (Dict.get "faucets" details) as [v2|]; [|discriminate]. cbn [res_bind Py.setitem].
  destruct (Dict.get "explorers" details) as [v3|]; [|discriminate]. cbn [res_bind Py.setitem].
  destruct (Dict.get "infoURL" details) as [v4|]; [|discriminate]. cbn [res_bind Py.setitem].
  intros H. injection H as <-. now exists v1, v2, v3, v4.
Qed.

Lemma merged_unique (details cached merged : list (string * json)) :
  Dict.unique_keys details = true ->
  merge_details (JObj details) (JObj cached) = Ok (JObj merged) ->
  Dict.unique_keys merged = true.
Proof.
  intros Hu H.
  destruct (merge_details_inv _ _ _ H) as [v1 [v2 [v3 [v4 [E1 [E2 [E3 [E4 ->]]]]]]]].
  repeat apply unique_keys_set. now apply unique_keys_update.
Qed.

Lemma merged_mem (details cached merged : list (string * json)) :
  merge_details (JObj details) (JObj cached) = Ok (JObj merged) ->
  forall k, Dict.mem k merged = Dict.mem k details || Dict.mem k cached.
Proof.
  intros H.
  destruct (merge_details_inv _ _ _ H) as [v1 [v2 [v3 [v4 [E1 [E2 [E3 [E4 ->]]]]]]]].
  intros k. rewrite !mem_set, mem_update.
  assert (Hin : forall key v, Dict.get key details = Some v ->
                  (key =? k) = true -> Dict.mem k details = true).
  { intros key v Hg Hk. apply String.eqb_eq in Hk. subst. unfold Dict.mem. now rewrite Hg. }
  destruct ("infoURL" =? k) eqn:K4; [now rewrite (Hin _ _ E4 K4)|].
  destruct ("explorers" =? k) eqn:K3; [now rewrite (Hin _ _ E3 K3)|].
  destruct ("faucets" =? k) eqn:K2; [now rewrite (Hin _ _ E2 K2)|].
  destruct ("rpc" =? k) eqn:K1; [now rewrite (Hin _ _ E1 K1)|].
  reflexivity.
Qed.

(** X10: a merged record is again a proper mapping: when the fetched
    details have no key twice, neither has the merged record, and its keys
    are exactly the keys of the fetched details and of the cached record;
    nothing is dropped. *)
Theorem X10_merged_keys (details cached merged : list (string * json)) :
  Dict.unique_keys details = true ->
  merge_details (JObj details) (JObj cached) = Ok (JObj merged) ->
  Dict.unique_keys merged = true /\
  forall k, Dict.mem k merged = Dict.mem k details || Dict.mem k cached.
Proof.
  intros Hu H. split; [exact (merged_unique _ _ _ Hu H) | exact (merged_mem _ _ _ H)].
Qed.

Lemma X10_merged_keys_witness :
  Dict.unique_keys [("a", JInt 1); ("rpc", JArr [JStr "new"]); ("faucets", JArr [JStr "f"]);
                    ("explorers", JArr [JStr "e"]); ("infoURL", JStr "u"); ("b", JInt 2)]
  = true /\
  forall k,
    Dict.mem k [("a", JInt 1); ("rpc", JArr [JStr "new"]); ("faucets", JArr [JStr "f"]);
                ("explorers", JArr [JStr "e"]); ("infoURL", JStr "u"); ("b", JInt 2)]
    = Dict.mem k example_fetched || Dict.mem k example_cached.
Proof.
  apply (X10_merged_keys example_fetched example_cached); reflexivity.
Defined.

(** X11: merging is idempotent: a record merged with the fetched details
    and merged again with the same details has the same entries as after
    the first merge. *)
Theorem X11_merge_twice (details cached merged again : list (string * json)) :
  Dict.unique_keys details = true ->
  merge_details (JObj details) (JObj cached) = Ok (JObj merged) ->
  merge_details (JObj details) (JObj merged) = Ok (JObj again) ->
  forall k, Dict.get k again = Dict.get k merged.
Proof.
  intros Hu H1 H2 k.
  pose proof (merged_unique _ _ _ Hu H1) as Hum.
  pose proof (merged_mem _ _ _ H1) as Hmem.
  destruct (merge_details_inv _ _ _ H1) as [v1 [v2 [v3 [v4 [E1 [E2 [E3 [E4 Em]]]]]]]].
  destruct (merge_details_inv _ _ _ H2) as [w1 [w2 [w3 [w4 [F1 [F2 [F3 [F4 ->]]]]]]]].
  assert (w1 = v1) by congruence. assert (w2 = v2) by congruence.
  assert (w3 = v3) by congruence. assert (w4 = v4) by congruence. subst w1 w2 w3 w4.
  assert (G4 : Dict.get "infoURL" merged = Some v4)
    by (rewrite Em; apply DictFacts.get_set_same).
  assert (G3 : Dict.get "explorers" merged = Some v3)
    by (rewrite Em, DictFacts.get_set_other by discriminate; apply DictFacts.get_set_same).
  assert (G2 : Dict.get "faucets" merged = Some v2)
    by (rewrite Em, !DictFacts.get_set_other by discriminate; apply DictFacts.get_set_same).
  assert (G1 : Dict.get "rpc" merged = Some v1)
    by (rewrite Em, !DictFacts.get_set_other by discriminate; apply DictFacts.get_set_same).
  clear Em. rewrite !DictFacts.get_set, (DictFacts.get_update _ _ Hum).
  destruct (String.eqb_spec "infoURL" k) as [<-|_]; [now rewrite G4|].
  destruct (String.eqb_spec "explorers" k) as [<-|_]; [now rewrite G3|].
  destruct (String.eqb_spec "faucets" k) as [<-|_]; [now rewrite G2|].
  destruct (String.eqb_spec "rpc" k) as [<-|_]; [now rewrite G1|].
  specialize (Hmem k). unfold Dict.mem in Hmem.
  destruct (Dict.get k merged) as [x|]; [reflexivity|].
  destruct (Dict.get k details); [discriminate | reflexivity].
Qed.

Lemma X11_merge_twice_witness :
  Dict.get "rpc" [("a", JInt 1); ("rpc", JArr [JStr "new"]); ("faucets", JArr [JStr "f"]);
                  ("explorers", JArr [JStr "e"]); ("infoURL", JStr "u"); ("b", JInt 2)]
  = Dict.get "rpc" [("a", JInt 1); ("rpc", JArr [JStr "new"]); ("faucets", JArr [JStr "f"]);
                    ("explorers", JArr [JStr "e"]); ("infoURL", JStr "u"); ("b", JInt 2)].
Proof.
  apply (X11_merge_twice example_fetched example_cached); reflexivity.
Defined.

(* ================================================================== *)
(** ** More on the rounds of the loop (lines 164-218) *)

(** Break a computation into its steps, for what it can return. *)
Ltac yields_steps :=
  repeat match goal with
         | |- yields _ (bind _ _) => apply yields_bind; intros ?
         | |- yields _ (if ?b then _ else _) => apply yields_if
         end.

(** A round returns the cache it was given, or that cache with the entry
    of its chain id set. *)
Lemma process_chain_yields net contracts cache chain_id :
  yields (fun v => v = JObj cache \/ exists record, v = JObj (Dict.set chain_id record cache))
         (process_chain net contracts (JObj cache) chain_id).
Proof.
  unfold process_chain. yields_steps;
    try (apply yields_ret; now left);
    apply yields_lift; intros v E; cbn [Py.setitem] in E; injection E as <-; right; eauto.
Qed.

(** X12: a round of the loop that ends normally returns the cache with at
    most the entry of its own chain id changed: every other entry is as it
    was, and no key is lost. *)
Theorem X12_round_touches_one_entry (net : network) (contracts : json)
        (cache : list (string * json)) (chain_id : string) (st st' : state) (v : json) :
  process_chain net contracts (JObj cache) chain_id st = (Ok v, st') ->
  exists cache',
    v = JObj cache' /\
    (forall k, k <> chain_id -> Dict.get k cache' = Dict.get k cache) /\
    (forall k, Dict.mem k cache = true -> Dict.mem k cache' = true).
Proof.
  intros E. destruct (process_chain_yields net contracts cache chain_id st v st' E)
    as [-> | [record ->]].
  - exists cache. auto.
  - eexists. split; [reflexivity|]. split.
    + intros k Hk. apply DictFacts.get_set_other. congruence.
    + intros k Hk. rewrite mem_set, Hk. apply orb_true_r.
Qed.

Lemma X12_round_touches_one_entry_witness :
  exists cache',
    sample_cache = JObj cache' /\
    (forall k, k <> "1" ->
               Dict.get k cache'
               = Dict.get k [("1", JObj [("chainId", JStr "1"); ("icon", sample_icon)])]) /\
    (forall k, Dict.mem k [("1", JObj [("chainId", JStr "1"); ("icon", sample_icon)])] = true ->
               Dict.mem k cache' = true).
Proof.
  apply (X12_round_touches_one_entry (net_status 404) sample_registry
           [("1", JObj [("chainId", JStr "1"); ("icon", sample_icon)])] "1"
           (fresh no_files ["no"])
           (snd (process_chain (net_status 404) sample_registry sample_cache "1"
                               (fresh no_files ["no"])))).
  reflexivity.
Defined.

(** X13: the loop only adds or replaces the entries of the chain ids it is
    given: when it ends normally, the entry of every other chain id is as
    it was in the cache loaded, and every key of the cache loaded is still
    a key. *)
Theorem X13_loop_keeps_other_entries (net : network) (contracts : json)
        (chain_ids : list string) :
  forall (cache : list (string * json)) (st st' : state) (v : json),
    foldM (process_chain net contracts) (JObj cache) chain_ids st = (Ok v, st') ->
    exists cache',
      v = JObj cache' /\
      (forall k, ~ In k chain_ids -> Dict.get k cache' = Dict.get k cache) /\
      (forall k, Dict.mem k cache = true -> Dict.mem k cache' = true).
Proof.
  induction chain_ids as [|chain_id rest IH]; intros cache st st' v E.
  - cbn in E. injection E as <- _. exists cache. auto.
  - cbn [foldM] in E. unfold bind at 1 in E.
    destruct (process_chain net contracts (JObj cache) chain_id st) as [[v1|e|] st1] eqn:E1;
      try discriminate.
    assert (H1 : exists cache1, v1 = JObj cache1 /\
                   (forall k, k <> chain_id -> Dict.get k cache1 = Dict.get k cache) /\
                   (forall k, Dict.mem k cache = true -> Dict.mem k cache1 = true)).
    { destruct (process_chain_yields net contracts cache chain_id st v1 st1 E1)
        as [-> | [record ->]].
      - exists cache. auto.
      - eexists. split; [reflexivity|]. split.
        + intros k Hk. apply DictFacts.get_set_other. congruence.
        + intros k Hk. rewrite mem_set, Hk. apply orb_true_r. }
    destruct H1 as [cache1 [-> [Hget1 Hmem1]]].
    destruct (IH cache1 st1 st' v E) as [cache' [-> [Hget Hmem]]].
    exists cache'. split; [reflexivity|]. split.
    + intros k Hk. rewrite Hget by (intros Hin; apply Hk; now right).
      apply Hget1. intros ->. apply Hk. now left.
    + intros k Hk. auto.
Qed.

Lemma X13_loop_keeps_other_entries_witness :
  exists cache',
    sample_cache = JObj cache' /\
    (forall k, ~ In k ["1"] ->
               Dict.get k cache'
               = Dict.get k [("1", JObj [("chainId", JStr "1"); ("icon", sample_icon)])]) /\
    (forall k, Dict.mem k [("1", JObj [("chainId", JStr "1"); ("icon", sample_icon)])] = true ->
               Dict.mem k cache' = true).
Proof.
  apply (X13_loop_keeps_other_entries (net_status 404) sample_registry ["1"]
           [("1", JObj [("chainId", JStr "1"); ("icon", sample_icon)])]
           (fresh no_files ["no"])
           (snd (foldM (process_chain (net_status 404) sample_registry) sample_cache ["1"]
                       (fresh no_files ["no"])))).
  reflexivity.
Defined.

Lemma get_chain_details_overwrite_runs net chain_id :
  runs (overwrite_event chain_id) (get_chain_details net chain_id).
Proof.
  unfold get_chain_details. fold (chain_url chain_id).
  apply Effects.runs_bind; [apply Effects.runs_http_get; apply String.eqb_refl|]. intros r.
  Effects.runs_steps.
  apply Effects.runs_filterM. intros x.
  eapply Effects.runs_weaken; [| apply Effects.check_rpc_runs]. now intros [].
Qed.

(** X14: a round for a chain id that is already in the cache never asks
    for an icon: whatever the answers and however the round ends, the only
    GET it can send is the one for the details of the chain, and it writes
    no file. *)
Theorem X14_overwrite_asks_no_icon (net : network) (contracts chain_details : json)
        (chain_id : string) (st : state) :
  Py.contains chain_details chain_id = Ok true ->
  exists evs,
    trace (snd (process_chain net contracts chain_details chain_id st))
    = (trace st ++ evs)%list /\
    files (snd (process_chain net contracts chain_details chain_id st)) = files st /\
    (forall target, In (EvGet target) evs -> target = chain_url chain_id) /\
    (forall path content, ~ In (EvWrite path content) evs).
Proof.
  intros Hin.
  assert (Hstep : forall (k : bool -> M json),
             runs (overwrite_event chain_id) (k true) ->
             runs (overwrite_event chain_id) (bind (lift (Ok true)) k)).
  { intros k Hk st0. exact (Hk st0). }
  assert (H : runs (overwrite_event chain_id)
                   (process_chain net contracts chain_details chain_id)).
  { unfold process_chain. rewrite Hin.
    apply Hstep. cbn iota.
    apply Effects.runs_bind; [Effects.runs_steps|]. intros overwrite.
    destruct overwrite; cbn [negb]; [| apply Effects.runs_ret].
    apply Effects.runs_bind; [Effects.runs_steps|]. intros _.
    apply Effects.runs_bind; [Effects.runs_steps|]. intros _.
    apply Effects.runs_bind; [apply get_chain_details_overwrite_runs|]. intros details.
    apply Effects.runs_bind; [Effects.runs_steps|]. intros details'.
    destruct (negb (Py.truthy details')); [apply Effects.runs_ret|].
    apply Hstep. cbn iota. Effects.runs_steps. }
  destruct (H st) as [evs [Hf [Ht [Hp _]]]].
  exists evs. split; [exact Ht|]. split; [exact Hf|].
  rewrite forallb_forall in Hp. split.
  - intros target Ht'. apply Hp in Ht'. now apply String.eqb_eq in Ht'.
  - intros path content Hw. apply Hp in Hw. discriminate.
Qed.

Lemma X14_overwrite_asks_no_icon_witness :
  exists evs,
    trace (snd (process_chain (net_body (JObj sample_details)) sample_registry sample_cache "1"
                              (fresh no_files ["y"])))
    = ([] ++ evs)%list /\
    files (snd (process_chain (net_body (JObj sample_details)) sample_registry sample_cache "1"
                              (fresh no_files ["y"]))) = no_files /\
    (forall target, In (EvGet target) evs -> target = chain_url "1") /\
    (forall path content, ~ In (EvWrite path content) evs).
Proof.
  apply (X14_overwrite_asks_no_icon (net_body (JObj sample_details)) sample_registry
           sample_cache "1" (fresh no_files ["y"])).
  reflexivity.
Defined.

(** X4: there are no retries: for a served mapping with a list of
    addresses, whatever the network answers and however the call ends,
    [get_chain_details] leaves files and standard input alone and sends at
    most one request per address besides its GET. *)
Theorem X4_one_request_per_address (net : network) (chain_id : string) (st : state)
        (r : response) (fields : list (string * json)) (entries : list json) :
  on_get net (trace st) (chain_url chain_id) = Responded r ->
  status_code r = 200%Z ->
  json_body r = Some (JObj fields) ->
  Dict.get "rpc" fields = Some (JArr entries) ->
  exists evs,
    snd (get_chain_details net chain_id st) = extend st evs /\
    forallb (fun e => is_print e || is_request e) evs = true /\
    List.length (filter is_request evs) <= 1 + List.length entries.
Proof.
  intros Hget Hstatus Hbody Hrpc.
  rewrite (get_chain_details_served _ _ _ _ _ Hget Hstatus Hbody).
  unfold bind at 1. cbn [lift Py.get]. rewrite Hrpc.
  unfold bind at 1. cbn [lift Py.iter].
  assert (H : within (List.length entries) (fun e => is_print e || is_request e)
                (live_rpcs <- filterM (check_rpc net) entries ;;
                 details <- lift (Py.setitem (JObj fields) "rpc" (JArr live_rpcs)) ;;
                 cid <- lift (Py.getitem details "chainId") ;;
                 details <- lift (Py.setitem details "chainId" (JStr (PyRepr.str cid))) ;;
                 (if Nat.eqb (List.length live_rpcs) 0
                  then print (MsgNoLiveProviders chain_id) else ret tt) ;;
                 ret details)).
  { rewrite <- (Nat.add_0_r (List.length entries)).
    apply within_bind.
    - intros st0. destruct (filterM_check_rpc_within net entries st0) as [evs [E [Hp Hn]]].
      exists evs. split; [exact E|]. split; [|exact Hn].
      apply forallb_forall. intros e He. rewrite forallb_forall in Hp.
      specialize (Hp e He). now destruct e.
    - intros live.
      repeat (apply within_then; [apply within_lift | intros ?]).
      apply within_then; [| intros _; apply within_ret].
      apply within_if; [now apply within_print | apply within_ret]. }
  destruct (H (extend st [EvGet (chain_url chain_id)])) as [evs [E [Hp Hn]]].
  rewrite E, extend_extend. eexists. split; [reflexivity|].
  split; [cbn; exact Hp|]. rewrite filter_app, length_app. cbn. lia.
Qed.

Lemma X4_one_request_per_address_witness :
  exists evs,
    snd (get_chain_details
           (net_serving (chain_url "1") (JObj sample_details) (post_only "https://ok.example"))
           "1" (fresh no_files []))
    = extend (fresh no_files []) evs /\
    forallb (fun e => is_print e || is_request e) evs = true /\
    List.length (filter is_request evs) <= 1 + 4.
Proof.
  apply (X4_one_request_per_address
           (net_serving (chain_url "1") (JObj sample_details) (post_only "https://ok.example"))
           "1" (fresh no_files [])
           {| status_code := 200; url := chain_url "1"; json_body := Some (JObj sample_details) |}
           sample_details
           (map JStr ["wss://node.example"; "https://mainnet.infura.io/v3/key";
                      "https://ok.example"; "https://dead.example"])); reflexivity.
Defined.

(* ================================================================== *)
(** ** More on [main] (lines 139-223) *)

Lemma touches_refl st : touches_cache_only st st.
Proof. split; auto. Qed.

Lemma touches_trans st1 st2 st3 :
  touches_cache_only st1 st2 -> touches_cache_only st2 st3 -> touches_cache_only st1 st3.
Proof.
  intros [Ho [Hc|Hc]] [Ho' [Hc'|Hc']]; (split; [intros p Hp; now rewrite Ho', Ho|]).
  - left. congruence.
  - now right.
  - right. destruct Hc as [v Hv]. exists v. congruence.
  - now right.
Qed.

Lemma grows_touches P st st' : grows P st st' -> touches_cache_only st st'.
Proof.
  intros [evs [Hf _]]. split; [intros p _; now rewrite Hf | left; now rewrite Hf].
Qed.

Lemma saves_of_runs {A} P (m : M A) : runs P m -> saves m.
Proof. intros H st. eapply grows_touches, H. Qed.

Lemma saves_bind {A B} (m : M A) (k : A -> M B) :
  saves m -> (forall a, saves (k a)) -> saves (bind m k).
Proof.
  intros Hm Hk st. unfold bind. specialize (Hm st).
  destruct (m st) as [[a|e|] st1]; cbn [snd] in *; try exact Hm.
  eapply touches_trans; [exact Hm | apply Hk].
Qed.

Lemma saves_save v : saves (save_chain_details v).
Proof.
  intros st. unfold save_chain_details, write_file, bind, emit. cbn [snd files extend].
  split.
  - intros p Hp. cbn [files]. apply String.eqb_neq in Hp. now rewrite Hp.
  - right. exists v. cbn [files]. now rewrite String.eqb_refl.
Qed.

(** X16: whatever the network answers, whatever is typed and however the
    run ends, [main] leaves every file other than the cache file as it was,
    the registry among them, and the cache file is either what it was or a
    complete dump of a value. *)
Theorem X16_main_touches_cache_only (net : network) (st : state) :
  (forall path, path <> CHAIN_DETAILS_PATH -> files (snd (main net st)) path = files st path) /\
  (files (snd (main net st)) CHAIN_DETAILS_PATH = files st CHAIN_DETAILS_PATH \/
   exists v, files (snd (main net st)) CHAIN_DETAILS_PATH = Some (Json.dumps v)).
Proof.
  change (touches_cache_only st (snd (main net st))). revert st.
  change (saves (main net)).
  unfold main.
  apply saves_bind; [eapply saves_of_runs, Effects.get_contracts_runs|]. intros contracts.
  destruct (negb (Py.truthy contracts)).
  { apply (saves_of_runs is_print). now apply Effects.runs_print. }
  apply saves_bind; [apply (saves_of_runs is_print), Effects.runs_lift|]. intros items.
  apply saves_bind; [apply (saves_of_runs is_print), Effects.runs_lift|]. intros testnets.
  apply saves_bind; [apply (saves_of_runs is_print); now apply Effects.runs_print|]. intros _.
  apply saves_bind; [apply (saves_of_runs is_print), Effects.runs_lift|]. intros chain_ids.
  apply saves_bind; [apply (saves_of_runs is_print); now apply Effects.runs_print|]. intros _.
  apply saves_bind; [eapply saves_of_runs, Effects.load_chain_details_runs|]. intros cache.
  apply saves_bind.
  { eapply saves_of_runs. apply Effects.runs_foldM. intros a x.
    apply Effects.process_chain_runs. }
  intros cache'.
  apply saves_bind; [apply saves_save|]. intros _.
  apply saves_bind; [apply (saves_of_runs is_print), Effects.runs_lift|]. intros n.
  apply saves_bind; [apply (saves_of_runs is_print), Effects.runs_lift|]. intros keys.
  apply (saves_of_runs is_print). now apply Effects.runs_print.
Qed.

(** What [get_contracts] returns when the registry file holds JSON. *)
Lemma get_contracts_parsed net st content v :
  files st CONTRACTS_URL = Some content ->
  Json.loads content = Ok v ->
  get_contracts net st = (Ok v, st).
Proof.
  intros Hf Hl. unfold get_contracts.
  change (PyStr.startswith CONTRACTS_URL "https://") with false. cbn iota.
  unfold try_except, bind, read_file, lift. now rewrite Hf, Hl.
Qed.

(** X15: a registry file that parses to an empty mapping, or to any other
    falsy value, is treated like a registry that could not be loaded:
    [main] prints its message and returns, with no request and no file
    changed. *)
Theorem X15_empty_registry_is_failure (net : network) (st : state)
        (content : string) (contracts : json) :
  files st CONTRACTS_URL = Some content ->
  Json.loads content = Ok contracts ->
  Py.truthy contracts = false ->
  main net st = (Ok tt, extend st [EvPrint MsgFailedContracts]).
Proof.
  intros Hf Hl Ht. unfold main. unfold bind at 1.
  rewrite (get_contracts_parsed net st content contracts Hf Hl), Ht. reflexivity.
Qed.

Lemma X15_empty_registry_is_failure_witness :
  main (net_status 200) (fresh (one_file CONTRACTS_URL (Json.dumps (JObj []))) [])
  = (Ok tt, extend (fresh (one_file CONTRACTS_URL (Json.dumps (JObj []))) [])
                   [EvPrint MsgFailedContracts]).
Proof.
  apply (X15_empty_registry_is_failure (net_status 200)
           (fresh (one_file CONTRACTS_URL (Json.dumps (JObj []))) [])
           (Json.dumps (JObj [])) (JObj [])); reflexivity.
Defined.

(** The count of testnets, for a registry whose records are mappings. *)
Lemma count_testnets_eq items :
  forallb is_mapping (map snd items) = true ->
  count_testnets items
  = if forallb (fun entry => negb (counted_testnet entry) || PyRepr.int_ok (fst entry)) items
    then Ok (List.length (filter counted_testnet items))
    else Raise ValueError.
Proof.
  induction items as [|[chain_id record] items IH]; [reflexivity|].
  cbn [map snd forallb]. intros H. apply andb_true_iff in H. destruct H as [Hm Hrest].
  destruct record as [| | | | |fields]; try discriminate.
  cbn [count_testnets Py.get res_bind filter forallb fst].
  unfold counted_testnet at 1 3. cbn [snd mainnet_of].
  rewrite (IH Hrest).
  destruct (Py.truthy _); cbn [negb orb andb].
  - reflexivity.
  - destruct (PyRepr.int_ok chain_id); cbn [andb]; [|reflexivity].
    destruct (forallb _ items); reflexivity.
Qed.

(** X19: for a registry whose records are mappings, the number of testnets
    [main] reports is the number of records whose [mainnet] is missing or
    falsy, so a record whose [mainnet] is the string ["false"] is not
    counted; and the count raises [ValueError] exactly when the key of such
    a record is not the text of an integer. *)
Theorem X19_testnets_counted (items : list (string * json)) :
  forallb is_mapping (map snd items) = true ->
  (forallb (fun entry => negb (counted_testnet entry) || PyRepr.int_ok (fst entry)) items = true ->
   count_testnets items = Ok (List.length (filter counted_testnet items))) /\
  (forallb (fun entry => negb (counted_testnet entry) || PyRepr.int_ok (fst entry)) items = false ->
   count_testnets items = Raise ValueError) /\
  (forall chain_id fields,
     Dict.get "mainnet" fields = Some (JStr "false") ->
     counted_testnet (chain_id, JObj fields) = false).
Proof.
  intros H. rewrite (count_testnets_eq items H).
  split; [now intros -> | split; [now intros -> |]].
  intros chain_id fields Hm. unfold counted_testnet. cbn [snd mainnet_of]. now rewrite Hm.
Qed.

Lemma X19_testnets_counted_witness :
  count_testnets [("1", JObj [("mainnet", JStr "true")]); ("5", JObj [("mainnet", JStr "false")]);
                  ("10", JObj [("version", JStr "v4")])]
  = Ok 1.
Proof.
  apply (X19_testnets_counted
           [("1", JObj [("mainnet", JStr "true")]); ("5", JObj [("mainnet", JStr "false")]);
            ("10", JObj [("version", JStr "v4")])]); reflexivity.
Defined.

(** X18: when the registry has a record without a truthy [mainnet] under a
    key that is not the text of an integer, [main] ends with [ValueError]
    before it prints, asks or writes anything. *)
Theorem X18_chain_id_not_a_number (net : network) (st : state) (content : string)
        (items : list (string * json)) :
  files st CONTRACTS_URL = Some content ->
  Json.loads content = Ok (JObj items) ->
  forallb is_mapping (map snd items) = true ->
  forallb (fun entry => negb (counted_testnet entry) || PyRepr.int_ok (fst entry)) items = false ->
  main net st = (Raise ValueError, st).
Proof.
  intros Hf Hl Hm Hbad. unfold main. unfold bind at 1.
  rewrite (get_contracts_parsed net st content (JObj items) Hf Hl).
  assert (Ht : Py.truthy (JObj items) = true) by (destruct items; [discriminate | reflexivity]).
  rewrite Ht. cbn [negb]. unfold bind at 1. cbn [lift Py.items]. unfold bind at 1.
  rewrite (count_testnets_eq items Hm), Hbad. reflexivity.
Qed.

Lemma X18_chain_id_not_a_number_witness :
  main (net_status 200)
       (fresh (one_file CONTRACTS_URL (Json.dumps (JObj [("sepolia", JObj [("version", JStr "v4")])])))
              [])
  = (Raise ValueError,
     fresh (one_file CONTRACTS_URL (Json.dumps (JObj [("sepolia", JObj [("version", JStr "v4")])])))
           []).
Proof.
  apply (X18_chain_id_not_a_number (net_status 200)
           (fresh (one_file CONTRACTS_URL
                     (Json.dumps (JObj [("sepolia", JObj [("version", JStr "v4")])]))) [])
           (Json.dumps (JObj [("sepolia", JObj [("version", JStr "v4")])]))
           [("sepolia", JObj [("version", JStr "v4")])]); reflexivity.
Defined.

(** X17: a cache file that is not JSON ends the run: the error of
    [json.load] leaves [main] after the two counts are printed and before
    any request, and the file stays as it is. *)
Theorem X17_corrupt_cache_ends_run (net : network) (st : state) (content cached : string)
        (items : list (string * json)) (testnets : nat) (e : exn) :
  files st CONTRACTS_URL = Some content ->
  Json.loads content = Ok (JObj items) ->
  items <> [] ->
  count_testnets items = Ok testnets ->
  files st CHAIN_DETAILS_PATH = Some cached ->
  Json.loads cached = Raise e ->
  main net st
  = (Raise e, extend st [EvPrint (MsgFoundTestnets testnets);
                         EvPrint (MsgFoundChainIds (List.length items))]).
Proof.
  intros Hf Hl Hne Hc Hcache Hbad. unfold main. unfold bind at 1.
  rewrite (get_contracts_parsed net st content (JObj items) Hf Hl).
  assert (Ht : Py.truthy (JObj items) = true) by (destruct items; [contradiction | reflexivity]).
  rewrite Ht. cbn [negb]. unfold bind at 1. cbn [lift Py.items]. unfold bind at 1. rewrite Hc.
  unfold bind at 1. cbn [print emit]. unfold bind at 1.
  unfold get_chain_ids. cbn [lift Py.keys]. unfold bind at 1. cbn [print emit].
  rewrite extend_extend. unfold bind at 1.
  unfold load_chain_details, bind, path_exists, read_file, lift. cbn [files extend].
  rewrite Hcache. cbn iota beta. cbn [files extend]. rewrite Hcache, Hbad.
  unfold Dict.keys. now rewrite length_map.
Qed.

Lemma X17_corrupt_cache_ends_run_witness :
  main (net_status 200)
       (fresh (fun p => if p =? CONTRACTS_URL then Some (Json.dumps sample_registry)
                        else if p =? CHAIN_DETAILS_PATH then Some "{" else None) [])
  = (Raise JSONDecodeError,
     extend (fresh (fun p => if p =? CONTRACTS_URL then Some (Json.dumps sample_registry)
                             else if p =? CHAIN_DETAILS_PATH then Some "{" else None) [])
            [EvPrint (MsgFoundTestnets 0); EvPrint (MsgFoundChainIds 2)]).
Proof.
  apply (X17_corrupt_cache_ends_run (net_status 200)
           (fresh (fun p => if p =? CONTRACTS_URL then Some (Json.dumps sample_registry)
                            else if p =? CHAIN_DETAILS_PATH then Some "{" else None) [])
           (Json.dumps sample_registry) "{"
           [("1", JObj [("mainnet", JStr "true")]); ("5", JObj [("mainnet", JStr "false")])]
           0 JSONDecodeError); try reflexivity. discriminate.
Defined.

(** X22: [get_contracts] never raises: a registry file that is missing or
    is not JSON gives [None]; it asks nothing of the network, reads no
    input and changes no file. *)
Theorem X22_get_contracts_never_raises (net : network) (st : state) :
  (forall e, fst (get_contracts net st) <> Raise e) /\
  (files st CONTRACTS_URL = None -> fst (get_contracts net st) = Ok JNull) /\
  (forall content e, files st CONTRACTS_URL = Some content -> Json.loads content = Raise e ->
                     fst (get_contracts net st) = Ok JNull) /\
  exists evs, snd (get_contracts net st) = extend st evs /\ forallb is_print evs = true.
Proof.
  unfold get_contracts.
  change (PyStr.startswith CONTRACTS_URL "https://") with false. cbn iota.
  unfold try_except, bind, read_file, lift, print, emit, ret.
  destruct (files st CONTRACTS_URL) as [content|].
  - destruct (Json.loads content) as [v|e|] eqn:El; cbn [fst snd].
    + split; [discriminate|]. split; [discriminate|]. split.
      * intros c e Hc Hl. injection Hc as <-. congruence.
      * exists []. now rewrite extend_nil.
    + split; [discriminate|]. split; [discriminate|]. split; [reflexivity|].
      eexists. split; reflexivity.
    + split; [discriminate|]. split; [discriminate|]. split.
      * intros c e Hc Hl. injection Hc as <-. congruence.
      * exists []. now rewrite extend_nil.
  - cbn [fst snd]. split; [discriminate|]. split; [reflexivity|]. split; [discriminate|].
    eexists. split; reflexivity.
Qed.

(* ================================================================== *)
(** ** More on the cache file (lines 158-162, 220-221) *)

Module DumpFacts.
Import PyStr Json JsonAux.

Lemma plain_text_app a b : plain_text (a ++ b) = plain_text a && plain_text b.
Proof. induction a as [|c a IH]; cbn; [reflexivity | now rewrite IH, andb_assoc]. Qed.

Lemma plain_encode_char c : plain_text (encode_char c) = true.
Proof. destruct c as [[] [] [] [] [] [] [] []]; reflexivity. Qed.

Lemma plain_encode_chars s : plain_text (encode_chars s) = true.
Proof.
  induction s as [|c s IH]; [reflexivity|].
  cbn [encode_chars]. now rewrite plain_text_app, plain_encode_char, IH.
Qed.

Lemma plain_encode_string s : plain_text (encode_string s) = true.
Proof.
  unfold encode_string. cbn [plain_text]. now rewrite plain_text_app, plain_encode_chars.
Qed.

Lemma plain_digit c : Dec.is_digit c = true -> plain_char c = true.
Proof.
  unfold Dec.is_digit, plain_char. intros H. apply andb_true_iff in H. destruct H as [H1 H2].
  apply N.leb_le in H1, H2.
  apply orb_true_iff. left. apply orb_true_iff. left.
  apply andb_true_iff. split; apply N.leb_le; lia.
Qed.

Lemma plain_digits ds : all_digits ds = true -> plain_text ds = true.
Proof.
  induction ds as [|c ds IH]; [reflexivity|]. cbn. intros H.
  apply andb_true_iff in H. destruct H as [Hc Hd]. now rewrite (plain_digit c Hc), IH.
Qed.

Lemma plain_of_N n : plain_text (Dec.of_N n) = true.
Proof.
  destruct (JsonFacts.of_N_spec n) as [ds [-> [Hall _]]]. now apply plain_digits.
Qed.

Lemma plain_of_Z z : plain_text (Dec.of_Z z) = true.
Proof. destruct z; cbn [Dec.of_Z append plain_text]; [reflexivity | |]; now rewrite plain_of_N. Qed.

Lemma plain_newline_indent k : plain_text (newline_indent k) = true.
Proof. unfold newline_indent. cbn. induction k; [reflexivity | exact IHk]. Qed.

Lemma plain_join {A} (enc : A -> string) sep l :
  plain_text sep = true -> Forall (fun x => plain_text (enc x) = true) l ->
  plain_text (join_with enc sep l) = true.
Proof.
  intros Hsep Hall. induction Hall as [|x l Hx Hall IH]; [reflexivity|].
  rewrite JsonFacts.join_with_cons, plain_text_app, Hx.
  destruct l; [reflexivity|]. now rewrite plain_text_app, Hsep, IH.
Qed.

Lemma plain_encode : forall v level, plain_text (encode level v) = true.
Proof.
  apply (json_induction (fun v => forall level, plain_text (encode level v) = true)).
  - reflexivity.
  - intros []; reflexivity.
  - intros z level. apply plain_of_Z.
  - intros s level. apply plain_encode_string.
  - intros [|x l] Hall level; [reflexivity|].
    cbn [encode]. rewrite !plain_text_app, !plain_newline_indent.
    rewrite plain_join; [reflexivity | |].
    + cbn [append plain_text]. now rewrite plain_newline_indent.
    + eapply Forall_impl; [| exact Hall]. intros a Ha. apply Ha.
  - intros [|kv d] Hall level; [reflexivity|].
    cbn [encode]. rewrite !plain_text_app, !plain_newline_indent.
    rewrite plain_join; [reflexivity | |].
    + cbn [append plain_text]. now rewrite plain_newline_indent.
    + eapply Forall_impl; [| exact Hall]. intros a Ha. cbn beta.
      now rewrite !plain_text_app, plain_encode_string, Ha.
Qed.

End DumpFacts.

(** X20: what is saved is plain text: for every cache, the content written
    to the cache file holds only printable ASCII characters, line feeds
    and tabs, whatever characters the strings of the cache hold. *)
Theorem X20_saved_file_is_plain_text (chain_details : json) (st : state) :
  exists content,
    files (snd (save_chain_details chain_details st)) CHAIN_DETAILS_PATH = Some content /\
    plain_text content = true.
Proof.
  exists (Json.dumps chain_details). split.
  - unfold save_chain_details, write_file, bind, emit. cbn [snd files].
    now rewrite String.eqb_refl.
  - apply DumpFacts.plain_encode.
Qed.

(** X21: the dump loses nothing: two values without repeated keys that are
    written as the same text are the same value. *)
Theorem X21_dumps_injective (v w : json) :
  Json.wf v = true -> Json.wf w = true ->
  Json.dumps v = Json.dumps w -> v = w.
Proof.
  intros Hv Hw E.
  pose proof (JsonFacts.loads_dumps v Hv) as Lv.
  rewrite E, (JsonFacts.loads_dumps w Hw) in Lv. now injection Lv.
Qed.

Lemma X21_dumps_injective_witness : sample_cache = sample_cache.
Proof. apply (X21_dumps_injective sample_cache sample_cache); reflexivity. Defined.

(* ================================================================== *)
(** ** Whole rounds and whole runs *)

(** X24: a round for a chain that is not in the cache, whose details are
    served and whose icon no source has, stores the chain: the cache gets,
    under the chain id, the served mapping with [rpc] filtered, [chainId]
    as a string, the [mainnet] flag of the registry and the default icon. *)
Theorem X24_new_chain_is_stored (net : network) (post : string -> reply)
        (contracts : json) (cache : list (string * json)) (chain_id : string) (st : state)
        (r : response) (fields : list (string * json)) (targets : list string)
        (cid : json) (flag : bool) (names : list string) :
  Dict.mem chain_id cache = false ->
  on_get net (trace st ++ [EvPrint (MsgFetching chain_id); EvSleep 1])%list (chain_url chain_id)
  = Responded r ->
  status_code r = 200%Z ->
  json_body r = Some (JObj fields) ->
  Dict.get "rpc" fields = Some (JArr (map JStr targets)) ->
  Dict.get "chainId" fields = Some cid ->
  (forall tr target, on_post net tr target = post target) ->
  mainnet_flag contracts chain_id = Ok flag ->
  possible_chain_names
    (JObj (Dict.set "mainnet" (JBool flag)
             (Dict.set "chainId" (JStr (PyRepr.str cid))
                (Dict.set "rpc" (JArr (map JStr (filter (expected_alive post) targets)))
                          fields)))) = Ok names ->
  Forall (refused net) names ->
  exists evs,
    process_chain net contracts (JObj cache) chain_id st
    = (Ok (JObj (Dict.set chain_id
                   (JObj (Dict.set "icon" default_icon
                            (Dict.set "mainnet" (JBool flag)
                               (Dict.set "chainId" (JStr (PyRepr.str cid))
                                  (Dict.set "rpc"
                                     (JArr (map JStr (filter (expected_alive post) targets)))
                                     fields)))))
                   cache)),
       extend st evs) /\
    List.length (filter is_request evs) <= 1 + List.length targets + 3 * List.length names.
Proof.
  intros Hnew Hget Hstatus Hbody Hrpc Hcid Hpost Hflag Hnames Hrefused.
  assert (Hmiss : Dict.get chain_id cache = None).
  { unfold Dict.mem in Hnew. destruct (Dict.get chain_id cache); [discriminate | reflexivity]. }
  unfold process_chain. cbn [Py.contains]. rewrite Hnew.
  unfold bind at 1. cbn [lift]. unfold bind at 1. cbn [ret negb].
  unfold bind at 1. cbn [print emit]. unfold bind at 1. cbn [sleep emit].
  rewrite extend_extend. cbn [app].
  unfold bind at 1.
  rewrite (get_chain_details_served net chain_id
             (extend st [EvPrint (MsgFetching chain_id); EvSleep 1]) r (JObj fields)
             Hget Hstatus Hbody).
  unfold bind at 1. cbn [lift Py.get]. rewrite Hrpc.
  unfold bind at 1. cbn [lift Py.iter]. unfold bind at 1.
  destruct (filterM_check_rpc_stable net post targets Hpost
              (extend (extend st [EvPrint (MsgFetching chain_id); EvSleep 1])
                      [EvGet (chain_url chain_id)])) as [evs1 [-> [_ Hn1]]].
  unfold bind at 1. cbn [lift Py.setitem].
  unfold bind at 1. cbn [Py.getitem].
  rewrite DictFacts.get_set_other by discriminate. rewrite Hcid.
  unfold bind at 1. cbn [lift Py.setitem]. unfold bind at 1.
  assert (Hwarn : forall st0, exists evs2,
             (if Nat.eqb (List.length (map JStr (filter (expected_alive post) targets))) 0
              then print (MsgNoLiveProviders chain_id) else ret tt) st0
             = (Ok tt, extend st0 evs2) /\
             filter is_request evs2 = []).
  { intros st0. destruct (Nat.eqb _ 0); unfold print, emit, ret.
    - exists [EvPrint (MsgNoLiveProviders chain_id)]. split; reflexivity.
    - exists []. rewrite extend_nil. split; reflexivity. }
  match goal with
  | |- context [(if _ then print _ else ret tt) ?s] => destruct (Hwarn s) as [evs2 [-> Hn2]]
  end.
  cbn [ret].
  unfold attach_mainnet. rewrite Hflag. cbn [res_bind Py.setitem lift].
  assert (Hfull : forall d : list (string * json),
             Py.truthy (JObj (Dict.set "mainnet" (JBool flag) d)) = true).
  { intros [|[k v] d]; cbn; [reflexivity | now destruct (k =? "mainnet")]. }
  unfold bind at 1. cbn [lift]. rewrite Hfull. cbn [negb].
  unfold bind at 1. cbn [lift].
  unfold bind at 1. cbn [lift]. rewrite Hnames.
  unfold bind at 1. cbn [lift Py.get]. rewrite Hmiss.
  unfold bind at 1. unfold get_chain_icon. unfold bind at 1. cbn [lift Py.get Dict.get Py.truthy].
  assert (Hall : forall name target, In name names -> In target (icon_urls name) ->
             forall tr, exists r, on_get net tr target = Responded r /\ status_code r <> 200%Z).
  { intros name target Hname Htarget tr.
    rewrite Forall_forall in Hrefused. exact (Hrefused name Hname target tr Htarget). }
  match goal with
  | |- context [icon_search net names names ?s] =>
      destruct (icon_search_default net names names Hall s) as [evs3 [-> Hn3]]
  end.
  unfold bind at 1. cbn [lift Py.setitem]. rewrite !extend_extend.
  eexists. split; [reflexivity|].
  rewrite !filter_app, !length_app, Hn2, Hn3. cbn [filter is_request List.length]. lia.
Qed.

Lemma X24_new_chain_is_stored_witness :
  exists evs,
    process_chain
      (net_serving (chain_url "1") (JObj sample_details) (post_only "https://ok.example"))
      sample_registry (JObj []) "1" (fresh no_files [])
    = (Ok (JObj (Dict.set "1"
                   (JObj (Dict.set "icon" default_icon
                            (Dict.set "mainnet" (JBool true)
                               (Dict.set "chainId" (JStr "1")
                                  (Dict.set "rpc"
                                     (JArr (map JStr ["https://mainnet.infura.io/v3/key";
                                                      "https://ok.example"]))
                                     sample_details)))))
                   [])),
       extend (fresh no_files []) evs) /\
    List.length (filter is_request evs) <= 1 + 4 + 3 * 6.
Proof.
  apply (X24_new_chain_is_stored
           (net_serving (chain_url "1") (JObj sample_details) (post_only "https://ok.example"))
           (post_only "https://ok.example") sample_registry [] "1" (fresh no_files [])
           {| status_code := 200; url := chain_url "1"; json_body := Some (JObj sample_details) |}
           sample_details
           ["wss://node.example"; "https://mainnet.infura.io/v3/key";
            "https://ok.example"; "https://dead.example"]
           (JInt 1) true
           ["eth"; "Ethereum Mainnet"; "ETH"; "eth"; "ethereum mainnet"; "eth"]);
    try reflexivity.
  repeat constructor;
    intros target tr [<-|[<-|[<-|[]]]]; eexists; (split; [reflexivity | discriminate]).
Defined.

(** A round for a cached chain that is declined: the cache is returned and
    one line of input is used. *)
Lemma process_chain_declined net contracts cache chain_id fs answer lines tr :
  Dict.mem chain_id cache = true ->
  (PyStr.lower answer =? "y") = false ->
  process_chain net contracts (JObj cache) chain_id
                {| files := fs; stdin := answer :: lines; trace := tr |}
  = (Ok (JObj cache), {| files := fs; stdin := lines; trace := (tr ++ [EvInput chain_id])%list |}).
Proof.
  intros Hin Hno. unfold process_chain. cbn [Py.contains]. rewrite Hin.
  unfold bind at 1. cbn [lift]. unfold bind at 1. unfold bind at 1. unfold input.
  unfold bind at 1. cbn [emit extend stdin files trace ret]. rewrite Hno. reflexivity.
Qed.

Lemma loop_all_declined net contracts cache fs lines :
  forall chain_ids answers tr,
    (forall chain_id, In chain_id chain_ids -> Dict.mem chain_id cache = true) ->
    List.length answers = List.length chain_ids ->
    Forall (fun answer => (PyStr.lower answer =? "y") = false) answers ->
    foldM (process_chain net contracts) (JObj cache) chain_ids
          {| files := fs; stdin := (answers ++ lines)%list; trace := tr |}
    = (Ok (JObj cache),
       {| files := fs; stdin := lines; trace := (tr ++ map EvInput chain_ids)%list |}).
Proof.
  induction chain_ids as [|chain_id rest IH]; intros answers tr Hin Hlen Hno.
  - destruct answers; [|discriminate]. cbn. now rewrite app_nil_r.
  - destruct answers as [|answer answers]; [discriminate|].
    inversion Hno as [|? ? Ha Hrest]; subst.
    cbn [foldM app]. unfold bind at 1.
    rewrite process_chain_declined by (auto; apply Hin; now left).
    rewrite IH; auto.
    + cbn [map]. now rewrite <- app_assoc.
    + intros c Hc. apply Hin. now right.
Qed.

(** X23: a run in which every chain of the registry is already cached and
    every overwrite is declined changes nothing: no request is sent, and
    the cache file, if it was written by an earlier run, is written again
    with the same content. *)
Theorem X23_all_declined_changes_nothing (net : network) (st : state) (content : string)
        (items cache : list (string * json)) (testnets : nat) (answers : list string) :
  files st CONTRACTS_URL = Some content ->
  Json.loads content = Ok (JObj items) ->
  items <> [] ->
  count_testnets items = Ok testnets ->
  files st CHAIN_DETAILS_PATH = Some (Json.dumps (JObj cache)) ->
  Json.wf (JObj cache) = true ->
  (forall chain_id, In chain_id (Dict.keys items) -> Dict.mem chain_id cache = true) ->
  stdin st = answers ->
  List.length answers = List.length items ->
  Forall (fun answer => (PyStr.lower answer =? "y") = false) answers ->
  exists st' evs,
    main net st = (Ok tt, st') /\
    (forall path, files st' path = files st path) /\
    trace st' = (trace st ++ evs)%list /\
    filter is_request evs = [].
Proof.
  intros Hf Hl Hne Hc Hcache Hwf Hin Hstdin Hlen Hno.
  unfold main. unfold bind at 1.
  rewrite (get_contracts_parsed net st content (JObj items) Hf Hl).
  assert (Ht : Py.truthy (JObj items) = true) by (destruct items; [contradiction | reflexivity]).
  rewrite Ht. cbn [negb]. unfold bind at 1. cbn [lift Py.items]. unfold bind at 1. rewrite Hc.
  unfold bind at 1. cbn [print emit]. unfold bind at 1.
  unfold get_chain_ids. cbn [lift Py.keys]. unfold bind at 1. cbn [print emit].
  rewrite extend_extend. unfold bind at 1.
  assert (Hload : forall evs, load_chain_details (extend st evs) = (Ok (JObj cache), extend st evs)).
  { intros evs. unfold load_chain_details, bind, path_exists, read_file, lift. cbn [files extend].
    rewrite Hcache. cbn iota beta. cbn [files extend].
    now rewrite Hcache, (JsonFacts.loads_dumps (JObj cache) Hwf). }
  rewrite Hload. unfold bind at 1. unfold extend at 1. rewrite Hstdin.
  assert (Hkeys : List.length answers = List.length (Dict.keys items))
    by (unfold Dict.keys; now rewrite length_map).
  pose proof (fun tr => loop_all_declined net (JObj items) cache (files st) []
                          (Dict.keys items) answers tr Hin Hkeys Hno) as Hloop.
  rewrite app_nil_r in Hloop. rewrite Hloop.
  unfold bind at 1. unfold save_chain_details, write_file.
  unfold bind at 1. cbn [emit extend files stdin trace].
  unfold bind at 1. cbn [lift Py.len]. unfold bind at 1. cbn [lift Py.keys].
  unfold print, emit, extend. cbn [files stdin trace].
  eexists _, _. split; [reflexivity|]. cbn [files trace]. split; [|split].
  - intros path. destruct (String.eqb_spec path CHAIN_DETAILS_PATH) as [->|]; [|reflexivity].
    now rewrite Hcache.
  - rewrite <- !app_assoc. reflexivity.
  - rewrite !filter_app. cbn [app filter is_request].
    assert (Hmap : forall l, filter is_request (map EvInput l) = []).
    { induction l; [reflexivity | exact IHl]. }
    now rewrite Hmap.
Qed.

Lemma X23_all_declined_changes_nothing_witness :
  exists st' evs,
    main (net_status 200)
         (fresh (fun p => if p =? CONTRACTS_URL
                          then Some (Json.dumps (JObj [("1", JObj [("mainnet", JStr "true")])]))
                          else if p =? CHAIN_DETAILS_PATH then Some (Json.dumps sample_cache)
                          else None) ["n"])
    = (Ok tt, st') /\
    (forall path,
       files st' path
       = files (fresh (fun p => if p =? CONTRACTS_URL
                                then Some (Json.dumps (JObj [("1", JObj [("mainnet", JStr "true")])]))
                                else if p =? CHAIN_DETAILS_PATH then Some (Json.dumps sample_cache)
                                else None) ["n"]) path) /\
    trace st' = ([] ++ evs)%list /\
    filter is_request evs = [].
Proof.
  apply (X23_all_declined_changes_nothing (net_status 200)
           (fresh (fun p => if p =? CONTRACTS_URL
                            then Some (Json.dumps (JObj [("1", JObj [("mainnet", JStr "true")])]))
                            else if p =? CHAIN_DETAILS_PATH then Some (Json.dumps sample_cache)
                            else None) ["n"])
           (Json.dumps (JObj [("1", JObj [("mainnet", JStr "true")])]))
           [("1", JObj [("mainnet", JStr "true")])]
           [("1", JObj [("chainId", JStr "1"); ("icon", sample_icon)])]
           0 ["n"]); try reflexivity.
  - discriminate.
  - intros chain_id [<-|[]]. reflexivity.
  - repeat constructor.
Defined.

(* ================================================================== *)
(** ** The short circuit of the icon search in a run (lines 96-99, 215) *)

Lemma runs_bind_lift {A B} P (r : res A) (k : A -> M B) :
  (forall a, r = Ok a -> runs P (k a)) -> runs P (bind (lift r) k).
Proof.
  intros H st. unfold bind, lift. destruct r as [a|e|]; cbn [snd].
  - exact (H a eq_refl st).
  - apply Effects.grows_refl.
  - apply Effects.grows_refl.
Qed.

Lemma icon_search_quiet net all_names names :
  runs (fun e => negb (is_icon_exists e)) (icon_search net all_names names).
Proof.
  induction names as [|name rest IH]; cbn [icon_search]; Effects.runs_steps. exact IH.
Qed.

(** For a record without an entry the short circuit is not taken. *)
Lemma get_chain_icon_quiet net names :
  runs (fun e => negb (is_icon_exists e)) (get_chain_icon net names (JObj [])).
Proof.
  unfold get_chain_icon. apply runs_bind_lift. intros icon Hicon.
  cbn in Hicon. injection Hicon as <-. cbn [Py.truthy]. apply icon_search_quiet.
Qed.

Lemma get_chain_details_quiet net chain_id :
  runs (fun e => negb (is_icon_exists e)) (get_chain_details net chain_id).
Proof.
  unfold get_chain_details. Effects.runs_steps.
  apply Effects.runs_filterM. intros rpc. unfold check_rpc. Effects.runs_steps.
Qed.

Lemma get_contracts_quiet net : runs (fun e => negb (is_icon_exists e)) (get_contracts net).
Proof.
  unfold get_contracts.
  change (PyStr.startswith CONTRACTS_URL "https://") with false. cbn iota.
  Effects.runs_steps.
Qed.

Lemma load_chain_details_quiet : runs (fun e => negb (is_icon_exists e)) load_chain_details.
Proof. unfold load_chain_details. Effects.runs_steps. Qed.

(** The record that line 215 passes on is empty: the chain id is not in
    the cache there. *)
Lemma existing_of_new_chain chain_details chain_id existing :
  Py.contains chain_details chain_id = Ok false ->
  Py.get chain_details chain_id (JObj []) = Ok existing ->
  existing = JObj [].
Proof.
  destruct chain_details; cbn [Py.contains Py.get]; try discriminate.
  intros Hmem Hget. injection Hmem as Hmem. injection Hget as <-.
  unfold Dict.mem in Hmem. now destruct (Dict.get chain_id _).
Qed.

Lemma process_chain_quiet net contracts chain_details chain_id :
  runs (fun e => negb (is_icon_exists e)) (process_chain net contracts chain_details chain_id).
Proof.
  unfold process_chain. apply runs_bind_lift. intros cached Hcached.
  apply Effects.runs_bind; [destruct cached; Effects.runs_steps|]. intros overwrite.
  destruct (negb overwrite); [apply Effects.runs_ret|].
  apply Effects.runs_bind; [now apply Effects.runs_print|]. intros _.
  apply Effects.runs_bind; [now apply Effects.runs_sleep|]. intros _.
  apply Effects.runs_bind.
  { apply get_chain_details_quiet. }
  intros details.
  apply Effects.runs_bind; [apply Effects.runs_lift|]. intros details'.
  destruct (negb (Py.truthy details')); [apply Effects.runs_ret|].
  apply runs_bind_lift. intros cached' Hcached'.
  assert (cached' = cached) by congruence. subst cached'.
  destruct cached; [Effects.runs_steps|].
  apply Effects.runs_bind; [apply Effects.runs_lift|]. intros names.
  apply runs_bind_lift. intros existing Hexisting.
  rewrite (existing_of_new_chain _ _ _ Hcached Hexisting).
  apply Effects.runs_bind; [apply get_chain_icon_quiet|]. intros icon.
  Effects.runs_steps.
Qed.

Lemma emits_of_runs {A} P (m : M A) : runs P m -> emits P m.
Proof. intros H st. destruct (H st) as [evs [_ [Ht [Hp _]]]]. now exists evs. Qed.

Lemma emits_bind {A B} P (m : M A) (k : A -> M B) :
  emits P m -> (forall a, emits P (k a)) -> emits P (bind m k).
Proof.
  intros Hm Hk st. unfold bind. specialize (Hm st).
  destruct (m st) as [[a|e|] st1]; cbn [snd] in *; try exact Hm.
  destruct Hm as [evs [Ht Hp]]. destruct (Hk a st1) as [evs' [Ht' Hp']].
  exists (evs ++ evs')%list. split.
  - now rewrite Ht', Ht, app_assoc.
  - now rewrite forallb_app, Hp, Hp'.
Qed.

Lemma emits_save P v :
  (forall path content, P (EvWrite path content) = true) -> emits P (save_chain_details v).
Proof.
  intros HP st. unfold save_chain_details, write_file, bind, emit. cbn [snd trace extend].
  eexists. split; [reflexivity|]. cbn [forallb]. now rewrite HP.
Qed.

(** X26: in a run the short circuit of [get_chain_icon] is never taken:
    whatever the network answers, whatever is typed and however the run
    ends, the line [Icon already exists for ...] is never printed. The
    icon search is only reached for a chain id that is not in the cache,
    with an empty existing record. *)
Theorem X26_short_circuit_never_taken (net : network) (st : state) :
  exists evs,
    trace (snd (main net st)) = (trace st ++ evs)%list /\
    forall name, ~ In (EvPrint (MsgIconExists name)) evs.
Proof.
  assert (H : emits (fun e => negb (is_icon_exists e)) (main net)).
  { unfold main.
    apply emits_bind.
    { apply emits_of_runs, get_contracts_quiet. }
    intros contracts.
    destruct (negb (Py.truthy contracts)).
    { apply emits_of_runs. now apply Effects.runs_print. }
    apply emits_bind; [apply emits_of_runs, Effects.runs_lift|]. intros items.
    apply emits_bind; [apply emits_of_runs, Effects.runs_lift|]. intros testnets.
    apply emits_bind; [apply emits_of_runs; now apply Effects.runs_print|]. intros _.
    apply emits_bind; [apply emits_of_runs, Effects.runs_lift|]. intros chain_ids.
    apply emits_bind; [apply emits_of_runs; now apply Effects.runs_print|]. intros _.
    apply emits_bind.
    { apply emits_of_runs, load_chain_details_quiet. }
    intros cache.
    apply emits_bind.
    { apply emits_of_runs. apply Effects.runs_foldM. intros a x. apply process_chain_quiet. }
    intros cache'.
    apply emits_bind; [now apply emits_save|]. intros _.
    apply emits_bind; [apply emits_of_runs, Effects.runs_lift|]. intros n.
    apply emits_bind; [apply emits_of_runs, Effects.runs_lift|]. intros keys.
    apply emits_of_runs. now apply Effects.runs_print. }
  destruct (H st) as [evs [Ht Hp]]. exists evs. split; [exact Ht|].
  intros name Hin. rewrite forallb_forall in Hp. now specialize (Hp _ Hin).
Qed.
